(** * Guardian OS installer: device identity and claim flow

    A shallow embedding of the two Calamares job modules
    [calamares/modules-impl/guardian_auth.py] and
    [calamares/modules-impl/guardian_claim.py], together with the
    properties their specification states about them.

    Conventions of the embedding.
    - A Python [str] is a [string]; the text handled by the modules is
      ASCII (hardware descriptions, MAC addresses, identifiers, tokens),
      so a character is a byte and [str.encode()] is the identity on it.
    - A Python value that travels through global storage or through a
      JSON reply is a [pyval].
    - A job module runs in the monad [job]: it threads the installer's
      global storage and the file system, records every system-level
      event it performs, and either returns or raises.
    - The file system holds regular files only, each with the
      characters that were written to it; reading a file in text mode
      turns every CR LF and every lone CR into LF, and writing one
      changes nothing (the line separator of the system is LF).
      Creating directories and running [date] are taken to succeed, the
      body of a reply is a JSON object, and the calls to the logger are
      left out. *)

From Stdlib Require Import ZArith String Ascii List DecimalString.
From stdpp Require Import gmap strings list.

Open Scope string_scope.
Open Scope Z_scope.

(** ** SHA-256 ([hashlib.sha256]) *)

Module SHA256.

Definition mask32 : Z := 0xffffffff.

Definition add32 (x y : Z) : Z := Z.land (x + y) mask32.

Definition rotr (n x : Z) : Z :=
  Z.land (Z.lor (Z.shiftr x n) (Z.shiftl x (32 - n))) mask32.

Definition ch (x y z : Z) : Z :=
  Z.lxor (Z.land x y) (Z.land (Z.lxor x mask32) z).

Definition maj (x y z : Z) : Z :=
  Z.lxor (Z.lxor (Z.land x y) (Z.land x z)) (Z.land y z).

Definition bsig0 (x : Z) : Z := Z.lxor (Z.lxor (rotr 2 x) (rotr 13 x)) (rotr 22 x).
Definition bsig1 (x : Z) : Z := Z.lxor (Z.lxor (rotr 6 x) (rotr 11 x)) (rotr 25 x).
Definition ssig0 (x : Z) : Z := Z.lxor (Z.lxor (rotr 7 x) (rotr 18 x)) (Z.shiftr x 3).
Definition ssig1 (x : Z) : Z := Z.lxor (Z.lxor (rotr 17 x) (rotr 19 x)) (Z.shiftr x 10).

(** The first 64 primes. *)
Definition primes : list Z :=
  [2; 3; 5; 7; 11; 13; 17; 19; 23; 29; 31; 37; 41; 43; 47; 53;
   59; 61; 67; 71; 73; 79; 83; 89; 97; 101; 103; 107; 109; 113; 127; 131;
   137; 139; 149; 151; 157; 163; 167; 173; 179; 181; 191; 193; 197; 199; 211; 223;
   227; 229; 233; 239; 241; 251; 257; 263; 269; 271; 277; 281; 283; 293; 307; 311].

(** Integer cube root below [2 ^ bits], one bit at a time. *)
Fixpoint cbrt_bits (bits : nat) (r n : Z) : Z :=
  match bits with
  | O => r
  | S b =>
      let r' := r + 2 ^ Z.of_nat b in
      if r' * r' * r' <=? n then cbrt_bits b r' n else cbrt_bits b r n
  end.

(** The first 32 bits of the fractional part of a cube root, of a square root. *)
Definition frac_cbrt (p : Z) : Z := Z.land (cbrt_bits 36 0 (p * 2 ^ 96)) mask32.
Definition frac_sqrt (p : Z) : Z := Z.land (Z.sqrt (p * 2 ^ 64)) mask32.

(** The round constants. *)
Definition K : list Z := Eval vm_compute in map frac_cbrt primes.

(** The eight working variables, also the chaining value. *)
Record regs : Type := Regs {
  ra : Z; rb : Z; rc : Z; rd : Z; re : Z; rf : Z; rg : Z; rh : Z
}.

(** The initial chaining value, from the first eight primes. *)
Definition H0 : regs :=
  Eval vm_compute in
    Regs (frac_sqrt 2) (frac_sqrt 3) (frac_sqrt 5) (frac_sqrt 7)
         (frac_sqrt 11) (frac_sqrt 13) (frac_sqrt 17) (frac_sqrt 19).

Definition round (s : regs) (kw : Z * Z) : regs :=
  let t1 := add32 (add32 (add32 (add32 (rh s) (bsig1 (re s)))
                                (ch (re s) (rf s) (rg s))) (fst kw)) (snd kw) in
  let t2 := add32 (bsig0 (ra s)) (maj (ra s) (rb s) (rc s)) in
  Regs (add32 t1 t2) (ra s) (rb s) (rc s) (add32 (rd s) t1) (re s) (rf s) (rg s).

Definition add_regs (s t : regs) : regs :=
  Regs (add32 (ra s) (ra t)) (add32 (rb s) (rb t)) (add32 (rc s) (rc t))
       (add32 (rd s) (rd t)) (add32 (re s) (re t)) (add32 (rf s) (rf t))
       (add32 (rg s) (rg t)) (add32 (rh s) (rh t)).

(** Big-endian words of a block of bytes. *)
Fixpoint words_of (n : nat) (bs : list Z) : list Z :=
  match n with
  | O => []
  | S n' =>
      match bs with
      | b0 :: b1 :: b2 :: b3 :: rest =>
          (b0 * 16777216 + b1 * 65536 + b2 * 256 + b3) :: words_of n' rest
      | _ => []
      end
  end.

(** The message schedule, newest word first: [rw] holds W[t-1], W[t-2], ... *)
Fixpoint extend (n : nat) (rw : list Z) : list Z :=
  match n with
  | O => rw
  | S n' =>
      let w := add32 (add32 (add32 (ssig1 (nth 1 rw 0)) (nth 6 rw 0))
                            (ssig0 (nth 14 rw 0))) (nth 15 rw 0) in
      extend n' (w :: rw)
  end.

Definition schedule (block : list Z) : list Z :=
  rev (extend 48 (rev (words_of 16 block))).

Definition compress (s : regs) (block : list Z) : regs :=
  add_regs s (fold_left round (combine K (schedule block)) s).

Fixpoint blocks (n : nat) (s : regs) (bs : list Z) : regs :=
  match n with
  | O => s
  | S n' => blocks n' (compress s (firstn 64 bs)) (skipn 64 bs)
  end.

Fixpoint be_bytes (n : nat) (x : Z) : list Z :=
  match n with
  | O => []
  | S n' => be_bytes n' (x / 256) ++ [x mod 256]
  end.

Definition pad (msg : list Z) : list Z :=
  let len := Z.of_nat (length msg) in
  let zeros := Z.to_nat ((55 - len) mod 64) in
  msg ++ 128 :: repeat 0 zeros ++ be_bytes 8 (8 * len).

Definition digest (msg : list Z) : regs :=
  let p := pad msg in
  blocks (Nat.div (length p) 64) H0 p.

Definition hex_digit (x : Z) : ascii :=
  nth (Z.to_nat (x mod 16))
      ["0";"1";"2";"3";"4";"5";"6";"7";"8";"9";"a";"b";"c";"d";"e";"f"]%char
      "0"%char.

Definition hex32 (x : Z) (tail : string) : string :=
  String (hex_digit (Z.shiftr x 28)) (String (hex_digit (Z.shiftr x 24))
 (String (hex_digit (Z.shiftr x 20)) (String (hex_digit (Z.shiftr x 16))
 (String (hex_digit (Z.shiftr x 12)) (String (hex_digit (Z.shiftr x 8))
 (String (hex_digit (Z.shiftr x 4))  (String (hex_digit x) tail))))))).

Definition hex_of_regs (s : regs) : string :=
  hex32 (ra s) (hex32 (rb s) (hex32 (rc s) (hex32 (rd s)
 (hex32 (re s) (hex32 (rf s) (hex32 (rg s) (hex32 (rh s) ""))))))).

Fixpoint bytes_of_string (s : string) : list Z :=
  match s with
  | EmptyString => []
  | String c s' => Z.of_N (N_of_ascii c) :: bytes_of_string s'
  end.

(** [hashlib.sha256(s.encode()).hexdigest()] *)
Definition hexdigest (s : string) : string :=
  hex_of_regs (digest (bytes_of_string s)).

End SHA256.


(** ** Python strings *)

Module Py.

(** [str.isspace] on ASCII: TAB, LF, VT, FF, CR, FS, GS, RS, US and space. *)
Definition is_space (c : ascii) : bool :=
  let n := N_of_ascii c in
  ((9 <=? n) && (n <=? 13) || (28 <=? n) && (n <=? 32))%N.

Fixpoint lstrip (s : string) : string :=
  match s with
  | EmptyString => EmptyString
  | String c s' => if is_space c then lstrip s' else s
  end.

Fixpoint rstrip (s : string) : string :=
  match s with
  | EmptyString => EmptyString
  | String c s' =>
      match rstrip s' with
      | EmptyString => if is_space c then EmptyString else String c EmptyString
      | r => String c r
      end
  end.

(** [s.strip()] *)
Definition strip (s : string) : string := lstrip (rstrip s).

(** [s.startswith(p)] *)
Definition startswith (p s : string) : bool := String.prefix p s.

(** [sub in s] *)
Fixpoint contains (sub s : string) : bool :=
  String.prefix sub s ||
  match s with
  | EmptyString => false
  | String _ s' => contains sub s'
  end.

(** [s.split(sep)] for a non-empty separator: the pieces between the
    non-overlapping occurrences of [sep], found from the left.  [skip]
    counts the characters of a matched separator still to be dropped. *)
Fixpoint split_go (sep : string) (skip : nat) (s : string) : list string :=
  match s with
  | EmptyString => [EmptyString]
  | String c s' =>
      match skip with
      | S k => split_go sep k s'
      | O =>
          if String.prefix sep s
          then EmptyString :: split_go sep (Nat.pred (String.length sep)) s'
          else match split_go sep O s' with
               | p :: ps => String c p :: ps
               | [] => [String c EmptyString]
               end
      end
  end.

Definition split (sep s : string) : list string := split_go sep O s.

(** [s.split()]: the maximal runs of non-space characters. *)
Fixpoint split_ws (s : string) : list string :=
  match s with
  | EmptyString => []
  | String c s' =>
      if is_space c then split_ws s'
      else match s' with
           | EmptyString => [String c EmptyString]
           | String c' _ =>
               if is_space c' then String c EmptyString :: split_ws s'
               else match split_ws s' with
                    | w :: ws => String c w :: ws
                    | [] => [String c EmptyString]
                    end
           end
  end.

(** What a text-mode read makes of the characters of a file
    (universal newlines): CR LF and a lone CR become LF. *)
Fixpoint universal_newlines (s : string) : string :=
  match s with
  | EmptyString => EmptyString
  | String c s' =>
      if Ascii.eqb c "013" then
        match s' with
        | EmptyString => String "010" EmptyString
        | String c' s'' =>
            if Ascii.eqb c' "010"
            then String "010" (universal_newlines s'')
            else String "010" (universal_newlines s')
        end
      else String c (universal_newlines s')
  end.

(** The lines a text file yields when iterated: each keeps its newline. *)
Fixpoint lines (s : string) : list string :=
  match s with
  | EmptyString => []
  | String c s' =>
      if Ascii.eqb c "010"
      then String c EmptyString :: lines s'
      else match s' with
           | EmptyString => [String c EmptyString]
           | _ => match lines s' with
                  | l :: ls => String c l :: ls
                  | [] => [String c EmptyString]
                  end
           end
  end.

(** [sep.join(parts)] *)
Definition join (sep : string) (parts : list string) : string :=
  String.concat sep parts.

(** [str(n)] for an [int]. *)
Definition str_of_int (n : Z) : string := NilZero.string_of_int (Z.to_int n).

(** Values of the Python types that reach the modules through global
    storage and JSON replies. *)
Inductive pyval : Type :=
| PNone
| PBool (b : bool)
| PInt (n : Z)
| PStr (s : string).

(** Truth value of an object ([if x:], [not x]). *)
Definition truthy (v : pyval) : bool :=
  match v with
  | PNone => false
  | PBool b => b
  | PInt n => negb (n =? 0)
  | PStr s => negb (String.eqb s "")
  end.

(** [f"{v}"] *)
Definition format (v : pyval) : string :=
  match v with
  | PNone => "None"
  | PBool true => "True"
  | PBool false => "False"
  | PInt n => str_of_int n
  | PStr s => s
  end.

(** [a == b] for a value and a string literal. *)
Definition eq_str (v : pyval) (s : string) : bool :=
  match v with
  | PStr t => String.eqb t s
  | _ => false
  end.

(** Exceptions the modules can meet. *)
Inductive exn : Type :=
| IndexError
| OSError
| TypeError
| RequestException.

Inductive res (A : Type) : Type :=
| Ok (a : A)
| Raise (e : exn).
Arguments Ok {A} a.
Arguments Raise {A} e.

(** [xs[i]] *)
Definition index {A} (xs : list A) (i : nat) : res A :=
  match nth_error xs i with
  | Some x => Ok x
  | None => Raise IndexError
  end.

End Py.

(** ** The installer's world: global storage, files, network *)

Record file : Type := File { content : string; mode : Z }.

Record http_request : Type := HttpRequest {
  url : string;
  json_body : list (string * Py.pyval);
  headers : list (string * string)
}.

(** What [requests.post] gives: a reply whose body is a JSON object (the
    backend's wire contract), or a [requests.exceptions.RequestException]
    (timeout, DNS failure, refused connection). *)
Inductive http_outcome : Type :=
| Response (status_code : Z) (text : string) (json : gmap string Py.pyval)
| RequestFailed.

(** System-level events.  [EvRename] is the operating system's atomic
    replace ([os.replace]); it is part of the interface although neither
    module calls it. *)
Inductive event : Type :=
| EvMakedirs (path : string) (perm : Z)
| EvOpenW (path : string)
| EvWrite (path : string) (data : string)
| EvChmod (path : string) (perm : Z)
| EvRename (src dst : string)
| EvPost (req : http_request).

(** What a run is given from outside the installer. *)
Record env : Type := Env {
  environ : gmap string string;
  ip_link_show : Py.res string;
  uuid4 : string;
  date_utc : string;
  umask : Z;
  network : http_request -> http_outcome
}.

(** Global storage, the regular files of the file system, and the
    events performed so far. *)
Record world : Type := World {
  gs : gmap string Py.pyval;
  fs : gmap string file;
  trace : list event
}.

Definition create_mode (um : Z) : Z := Z.land 438 (Z.lnot um).

(** Effect of one event on the regular files. Directories are not
    tracked: [os.makedirs(..., exist_ok=True)] changes no regular file. *)
Definition apply_event (um : Z) (m : gmap string file) (e : event) : gmap string file :=
  match e with
  | EvOpenW p =>
      match m !! p with
      | Some f => <[p := File "" (mode f)]> m
      | None => <[p := File "" (create_mode um)]> m
      end
  | EvWrite p d => alter (fun f => File (content f ++ d) (mode f)) p m
  | EvChmod p perm => alter (fun f => File (content f) perm) p m
  | EvRename s d =>
      match m !! s with
      | Some f => <[d := f]> (delete s m)
      | None => m
      end
  | EvMakedirs _ _ => m
  | EvPost _ => m
  end.

Definition replay (um : Z) (m : gmap string file) (es : list event) : gmap string file :=
  fold_left (apply_event um) es m.

(** ** The job monad: reader of [env], state [world], exceptions *)

Definition job (A : Type) : Type := env -> world -> world * Py.res A.

Definition ret {A} (a : A) : job A := fun _ w => (w, Py.Ok a).

Definition raise {A} (e : Py.exn) : job A := fun _ w => (w, Py.Raise e).

Definition bind {A B} (m : job A) (k : A -> job B) : job B :=
  fun E w =>
    match m E w with
    | (w', Py.Ok a) => k a E w'
    | (w', Py.Raise e) => (w', Py.Raise e)
    end.

Notation "'let*' x := m 'in' k" := (bind m (fun x => k))
  (at level 10, x name, m at level 100, k at level 200).
Notation "'do*' m 'in' k" := (bind m (fun _ => k))
  (at level 10, m at level 100, k at level 200).

Definition emit (e : event) : job unit :=
  fun E w => (World (gs w) (apply_event (umask E) (fs w) e) (trace w ++ [e]), Py.Ok tt).

(** [libcalamares.globalstorage.value(k)]: [None] for a missing key. *)
Definition gs_value (k : string) : job Py.pyval :=
  fun _ w => (w, Py.Ok (default Py.PNone (gs w !! k))).

(** [libcalamares.globalstorage.insert(k, v)] *)
Definition gs_insert (k : string) (v : Py.pyval) : job unit :=
  fun _ w => (World (<[k := v]> (gs w)) (fs w) (trace w), Py.Ok tt).

(** [os.environ.get(k, d)] *)
Definition environ_get (k d : string) : job string :=
  fun E w => (w, Py.Ok (default d (environ E !! k))).

(** [os.path.exists(p)] *)
Definition os_path_exists (p : string) : job bool :=
  fun _ w => (w, Py.Ok (bool_decide (is_Some (fs w !! p)))).

(** [open(p, "r").read()] *)
Definition read_text (m : gmap string file) (p : string) : Py.res string :=
  match m !! p with
  | Some f => Py.Ok (Py.universal_newlines (content f))
  | None => Py.Raise Py.OSError
  end.

Definition open_read (p : string) : job string :=
  fun _ w => (w, read_text (fs w) p).

Fixpoint ends_with_slash (s : string) : bool :=
  match s with
  | EmptyString => false
  | String c EmptyString => Ascii.eqb c "/"
  | String _ s' => ends_with_slash s'
  end.

(** [os.path.join(a, b)] for a relative [b]. *)
Definition path_join (a b : string) : string :=
  if String.eqb a "" || ends_with_slash a then a ++ b else a ++ "/" ++ b.

(** A first argument that is not a [str] is a [TypeError]. *)
Definition os_path_join (a : Py.pyval) (b : string) : job string :=
  match a with
  | Py.PStr s => ret (path_join s b)
  | _ => raise Py.TypeError
  end.

Definition os_makedirs (p : string) (perm : Z) : job unit := emit (EvMakedirs p perm).
Definition os_chmod (p : string) (perm : Z) : job unit := emit (EvChmod p perm).

(** [open(p, "w")]: create or truncate. *)
Definition open_w (p : string) : job unit := emit (EvOpenW p).

(** [f.write(v)] on the file opened at [p]; only a [str] can be written. *)
Definition f_write (p : string) (v : Py.pyval) : job unit :=
  match v with
  | Py.PStr s => emit (EvWrite p s)
  | _ => raise Py.TypeError
  end.

(** [requests.post(url, json=..., headers=..., timeout=30)] *)
Definition requests_post (req : http_request) : job (Z * string * gmap string Py.pyval) :=
  fun E w =>
    let w' := World (gs w) (fs w) (trace w ++ [EvPost req]) in
    match network E req with
    | Response sc tx js => (w', Py.Ok (sc, tx, js))
    | RequestFailed => (w', Py.Raise Py.RequestException)
    end.

(** [try: m  except requests.exceptions.RequestException: h] *)
Definition except_request {A} (m : job A) (h : job A) : job A :=
  fun E w =>
    match m E w with
    | (w', Py.Raise Py.RequestException) => h E w'
    | r => r
    end.

(** [subprocess.check_output(["date", "-u", ...], text=True).strip()] *)
Definition date_now : job string :=
  fun E w => (w, Py.Ok (Py.strip (date_utc E))).

Definition nl : string := String "010"%char EmptyString.
Definition dquote : string := String "034"%char EmptyString.

(** ** [json.dump(obj, f, indent=2)] for a flat dictionary *)

Module Json.

Definition hex2 (n : Z) : string :=
  String (SHA256.hex_digit (n / 16)) (String (SHA256.hex_digit n) EmptyString).

Definition escape_char (c : ascii) : string :=
  let n := Z.of_N (N_of_ascii c) in
  if n =? 34 then "\" ++ dquote
  else if n =? 92 then "\\"
  else if n =? 10 then "\n"
  else if n =? 13 then "\r"
  else if n =? 9 then "\t"
  else if n =? 8 then "\b"
  else if n =? 12 then "\f"
  else if (32 <=? n) && (n <=? 126) then String c EmptyString
  else "\u00" ++ hex2 n.

Fixpoint escape (s : string) : string :=
  match s with
  | EmptyString => EmptyString
  | String c s' => escape_char c ++ escape s'
  end.

Definition quoted (s : string) : string := dquote ++ escape s ++ dquote.

Definition value (v : Py.pyval) : string :=
  match v with
  | Py.PNone => "null"
  | Py.PBool true => "true"
  | Py.PBool false => "false"
  | Py.PInt n => Py.str_of_int n
  | Py.PStr s => quoted s
  end.

Definition item (kv : string * Py.pyval) : string :=
  "  " ++ quoted (fst kv) ++ ": " ++ value (snd kv).

Definition dumps (obj : list (string * Py.pyval)) : string :=
  match obj with
  | [] => "{}"
  | _ => "{" ++ nl ++ Py.join ("," ++ nl) (map item obj) ++ nl ++ "}"
  end.

End Json.

Definition perm_0o700 : Z := 448.
Definition perm_0o600 : Z := 384.

(** ** [calamares/modules-impl/guardian_auth.py] *)

Module guardian_auth.

Definition API_BASE : string := "https://xzxjwuzwltoapifcyzww.supabase.co/functions/v1".
Definition AUTH_LOGIN_URL : string := API_BASE ++ "/auth-login".
Definition AUTH_REGISTER_URL : string := API_BASE ++ "/auth-register".

Definition auth_request (endpoint : string) (email password : Py.pyval) : http_request :=
  HttpRequest endpoint
    [("email", email); ("password", password)]
    [("Content-Type", "application/json")].

Definition run : job (option (string * string)) :=
  let* auth_mode := gs_value "guardian_auth_mode" in
  let* email := gs_value "guardian_auth_email" in
  let* password := gs_value "guardian_auth_password" in
  let* email := (if negb (Py.truthy email)
            then (let* e := environ_get "GUARDIAN_TEST_EMAIL" "" in ret (Py.PStr e))
            else ret email) in
  let* password := (if negb (Py.truthy password)
               then (let* p := environ_get "GUARDIAN_TEST_PASSWORD" "" in ret (Py.PStr p))
               else ret password) in
  if negb (Py.truthy email) || negb (Py.truthy password) then
    do* gs_insert "guardian_offline_mode" (Py.PBool true) in
    ret None
  else
    except_request
      (let* response := (if Py.eq_str auth_mode "register"
                    then requests_post (auth_request AUTH_REGISTER_URL email password)
                    else requests_post (auth_request AUTH_LOGIN_URL email password)) in
       let '(status_code, text, data) := response in
       if status_code =? 200 then
         let parent_token := default Py.PNone (data !! "parent_access_token") in
         if Py.truthy parent_token then
           do* gs_insert "guardian_parent_token" parent_token in
           do* gs_insert "guardian_parent_email" email in
           let temp_token_file := "/tmp/guardian_parent_token" in
           do* open_w temp_token_file in
           do* f_write temp_token_file parent_token in
           do* os_chmod temp_token_file perm_0o600 in
           ret None
         else
           ret (Some ("Authentication failed", "Invalid response from server"))
       else
         ret (Some ("Authentication failed",
                    "Server returned " ++ Py.str_of_int status_code)))
      (do* gs_insert "guardian_offline_mode" (Py.PBool true) in
       do* gs_insert "guardian_pending_email" email in
       do* gs_insert "guardian_pending_auth" (Py.PBool true) in
       ret None).

End guardian_auth.

(** ** [calamares/modules-impl/guardian_claim.py] *)

Module guardian_claim.

Definition API_BASE : string := "https://xzxjwuzwltoapifcyzww.supabase.co/functions/v1".
Definition CLAIM_URL : string := API_BASE ++ "/bind-device".

(** The body of the first [try]: the loop over the lines of
    [/proc/cpuinfo].  A block returns the list [components] as it has
    mutated it, and whether it completed or raised. *)
Fixpoint cpu_loop (ls : list string) (components : list string)
  : list string * Py.res unit :=
  match ls with
  | [] => (components, Py.Ok tt)
  | line :: rest =>
      if Py.startswith "model name" line then
        match Py.index (Py.split ":" line) 1 with
        | Py.Ok v => ((components ++ [Py.strip v])%list, Py.Ok tt)
        | Py.Raise e => (components, Py.Raise e)
        end
      else cpu_loop rest components
  end.

Definition cpu_info (m : gmap string file) (components : list string)
  : list string * Py.res unit :=
  match read_text m "/proc/cpuinfo" with
  | Py.Ok text => cpu_loop (Py.lines text) components
  | Py.Raise e => (components, Py.Raise e)
  end.

(** The loop of the second [try], over the lines of [ip link show]. *)
Fixpoint mac_loop (ls : list string) (components : list string)
  : list string * Py.res unit :=
  match ls with
  | [] => (components, Py.Ok tt)
  | line :: rest =>
      if Py.contains "link/ether" line then
        match Py.index (Py.split "link/ether" line) 1 with
        | Py.Ok after =>
            match Py.index (Py.split_ws after) 0 with
            | Py.Ok mac => mac_loop rest (components ++ [mac])%list
            | Py.Raise e => (components, Py.Raise e)
            end
        | Py.Raise e => (components, Py.Raise e)
        end
      else mac_loop rest components
  end.

Definition mac_addresses (ip : Py.res string) (components : list string)
  : list string * Py.res unit :=
  match ip with
  | Py.Ok stdout => mac_loop (Py.split nl stdout) components
  | Py.Raise e => (components, Py.Raise e)
  end.

Definition machine_id (m : gmap string file) (components : list string)
  : list string * Py.res unit :=
  match read_text m "/etc/machine-id" with
  | Py.Ok text => ((components ++ [Py.strip text])%list, Py.Ok tt)
  | Py.Raise e => (components, Py.Raise e)
  end.

(** [try: block  except: pass] *)
Definition except_pass (r : list string * Py.res unit) : list string := fst r.

(** The list [components] when the hash is taken. *)
Definition fingerprint_components (E : env) (m : gmap string file) : list string :=
  let components := [] in
  let components := except_pass (cpu_info m components) in
  let components := except_pass (mac_addresses (ip_link_show E) components) in
  match machine_id m components with
  | (components, Py.Ok _) => components
  | (components, Py.Raise _) => (components ++ [uuid4 E])%list
  end.

Definition get_device_fingerprint : job string :=
  fun E w =>
    let fingerprint_data := Py.join "|" (fingerprint_components E (fs w)) in
    let fingerprint := SHA256.hexdigest fingerprint_data in
    (w, Py.Ok ("sha256:" ++ fingerprint)).

Definition supabase_env_content (device_jwt : Py.pyval) : string :=
  "# Guardian OS Supabase Configuration" ++ nl ++
  "# Generated during installation" ++ nl ++
  "SUPABASE_URL=https://xzxjwuzwltoapifcyzww.supabase.co" ++ nl ++
  "GUARDIAN_API_BASE=https://xzxjwuzwltoapifcyzww.supabase.co/functions/v1" ++ nl ++
  nl ++
  "# API Endpoints" ++ nl ++
  "GUARDIAN_AUTH_LOGIN_URL=$GUARDIAN_API_BASE/auth-login" ++ nl ++
  "GUARDIAN_AUTH_REGISTER_URL=$GUARDIAN_API_BASE/auth-register" ++ nl ++
  "GUARDIAN_CLAIM_URL=$GUARDIAN_API_BASE/bind-device" ++ nl ++
  "GUARDIAN_HEARTBEAT_URL=$GUARDIAN_API_BASE/device-heartbeat" ++ nl ++
  nl ++
  "# Device JWT (obtained during installation)" ++ nl ++
  "GUARDIAN_DEVICE_JWT=" ++ Py.format device_jwt ++ nl.

Definition write_supabase_env (root_mount device_jwt : Py.pyval) : job unit :=
  let* guardian_dir := os_path_join root_mount "etc/guardian" in
  do* os_makedirs guardian_dir perm_0o700 in
  let* env_file := os_path_join (Py.PStr guardian_dir) "supabase.env" in
  let content := supabase_env_content device_jwt in
  do* open_w env_file in
  do* f_write env_file (Py.PStr content) in
  os_chmod env_file perm_0o600.

Definition claim_request (device_fingerprint : string) (parent_email parent_token : Py.pyval)
  : http_request :=
  HttpRequest CLAIM_URL
    [("device_fingerprint", Py.PStr device_fingerprint);
     ("parent_email", parent_email);
     ("installer_version", Py.PStr "1.0.0");
     ("os_version", Py.PStr "Guardian Ubuntu 24.04")]
    [("Authorization", "Bearer " ++ Py.format parent_token);
     ("Content-Type", "application/json")].

(** Lines 73-86 and 165-178: the pending-activation record, written on
    the offline path and in the handler of a failed request. The two
    places differ in where the e-mail and the fingerprint come from. *)
Definition write_pending (root_mount : Py.pyval) (email : job Py.pyval)
    (fingerprint : job string) : job unit :=
  let* guardian_dir := os_path_join root_mount "etc/guardian" in
  do* os_makedirs guardian_dir perm_0o700 in
  let* pending_file := os_path_join (Py.PStr guardian_dir) "pending_activation.json" in
  let* email := email in
  let* fp := fingerprint in
  let* timestamp := date_now in
  let pending_data :=
    [("email", email); ("fingerprint", Py.PStr fp); ("timestamp", Py.PStr timestamp)] in
  do* open_w pending_file in
  do* f_write pending_file (Py.PStr (Json.dumps pending_data)) in
  os_chmod pending_file perm_0o600.

(** Lines 133-160: what [run] does with the reply, inside the [try]. *)
Definition on_response (root_mount : Py.pyval)
    (response : Z * string * gmap string Py.pyval) : job (option (string * string)) :=
  let '(status_code, text, data) := response in
  if status_code =? 200 then
    let device_jwt := default (Py.PStr "") (data !! "device_jwt") in
    let device_code := default (Py.PStr "") (data !! "device_code") in
    do* write_supabase_env root_mount device_jwt in
    let* guardian_dir := os_path_join root_mount "etc/guardian" in
    do* os_makedirs guardian_dir perm_0o700 in
    let* device_code_file := os_path_join (Py.PStr guardian_dir) "device_code" in
    do* open_w device_code_file in
    do* f_write device_code_file device_code in
    do* os_chmod device_code_file perm_0o600 in
    do* gs_insert "guardian_device_jwt" device_jwt in
    do* gs_insert "guardian_device_code" device_code in
    ret None
  else
    ret (Some ("Device claim failed",
               "Server returned " ++ Py.str_of_int status_code)).

(** Lines 162-184: the handler of [requests.exceptions.RequestException]. *)
Definition on_request_exception (root_mount parent_email : Py.pyval)
    (device_fingerprint : string) : job (option (string * string)) :=
  do* write_pending root_mount (ret parent_email) (ret device_fingerprint) in
  do* write_supabase_env root_mount (Py.PStr "") in
  ret None.

(** Lines 93-102: the parent token, from global storage or else from
    the hand-off file. *)
Definition read_parent_token : job Py.pyval :=
  let* parent_token := gs_value "guardian_parent_token" in
  let* token_file := os_path_exists "/tmp/guardian_parent_token" in
  if negb (Py.truthy parent_token) && token_file
  then fun E w =>
         match open_read "/tmp/guardian_parent_token" E w with
         | (w', Py.Ok text) => (w', Py.Ok (Py.PStr (Py.strip text)))
         | (w', Py.Raise _) => (w', Py.Ok parent_token)
         end
  else ret parent_token.

Definition run : job (option (string * string)) :=
  let* root_mount := gs_value "rootMountPoint" in
  let root_mount := if negb (Py.truthy root_mount) then Py.PStr "/" else root_mount in
  let* offline_mode := gs_value "guardian_offline_mode" in
  if Py.truthy offline_mode then
    do* write_pending root_mount (gs_value "guardian_pending_email")
          get_device_fingerprint in
    do* write_supabase_env root_mount (Py.PStr "") in
    ret None
  else
    let* parent_token := read_parent_token in
    if negb (Py.truthy parent_token) then
      ret (Some ("Device claim failed", "Authentication required"))
    else
      let* parent_email := gs_value "guardian_parent_email" in
      let* parent_email :=
        (if negb (Py.truthy parent_email)
         then (let* e := environ_get "GUARDIAN_TEST_EMAIL" "unknown@example.com" in
               ret (Py.PStr e))
         else ret parent_email) in
      let* device_fingerprint := get_device_fingerprint in
      except_request
        (let* response := requests_post
                            (claim_request device_fingerprint parent_email parent_token) in
         on_response root_mount response)
        (on_request_exception root_mount parent_email device_fingerprint).

End guardian_claim.


Arguments SHA256.hexdigest : simpl never.
Arguments Json.dumps : simpl never.
Arguments guardian_claim.supabase_env_content : simpl never.
Arguments path_join : simpl never.
Arguments Py.strip : simpl never.
Arguments Py.universal_newlines : simpl never.
Arguments Py.str_of_int : simpl never.

(** ** What the claim flow leaves on disk *)

(** The paths of the artifacts under a root mount point. *)
Definition guardian_dir (root : string) : string := path_join root "etc/guardian".
Definition env_file (root : string) : string := path_join (guardian_dir root) "supabase.env".
Definition device_code_file (root : string) : string := path_join (guardian_dir root) "device_code".
Definition pending_file (root : string) : string :=
  path_join (guardian_dir root) "pending_activation.json".

(** The root mount point [run] works with: [/] when global storage has
    none. *)
Definition root_of (w : world) : Py.pyval :=
  let r := default Py.PNone (gs w !! "rootMountPoint") in
  if negb (Py.truthy r) then Py.PStr "/" else r.

(** The parent token [run] ends up with: global storage first, then the
    hand-off file. *)
Definition token_of (w : world) : Py.pyval :=
  let t := default Py.PNone (gs w !! "guardian_parent_token") in
  if negb (Py.truthy t) then
    match fs w !! "/tmp/guardian_parent_token" with
    | Some f => Py.PStr (Py.strip (Py.universal_newlines (content f)))
    | None => t
    end
  else t.

Definition email_of (E : env) (w : world) : Py.pyval :=
  let e := default Py.PNone (gs w !! "guardian_parent_email") in
  if negb (Py.truthy e)
  then Py.PStr (default "unknown@example.com" (environ E !! "GUARDIAN_TEST_EMAIL"))
  else e.

Definition offline (w : world) : bool :=
  Py.truthy (default Py.PNone (gs w !! "guardian_offline_mode")).

Definition fingerprint_of (E : env) (m : gmap string file) : string :=
  "sha256:" ++ SHA256.hexdigest (Py.join "|" (guardian_claim.fingerprint_components E m)).

(** The request [run] posts when it reaches the claim endpoint. *)
Definition request_of (E : env) (w : world) : http_request :=
  guardian_claim.claim_request (fingerprint_of E (fs w)) (email_of E w) (token_of w).

(** The pending-activation record for an e-mail value. *)
Definition pending_record (E : env) (w : world) (email : Py.pyval) : string :=
  Json.dumps [("email", email);
              ("fingerprint", Py.PStr (fingerprint_of E (fs w)));
              ("timestamp", Py.PStr (Py.strip (date_utc E)))].

(** The events of writing one file the way both modules do. *)
Definition write_events (p data : string) : list event :=
  [EvOpenW p; EvWrite p data; EvChmod p perm_0o600].

Definition env_events (root : string) (device_jwt : Py.pyval) : list event :=
  EvMakedirs (guardian_dir root) perm_0o700
  :: write_events (env_file root) (guardian_claim.supabase_env_content device_jwt).

Definition pending_events (root data : string) : list event :=
  EvMakedirs (guardian_dir root) perm_0o700 :: write_events (pending_file root) data.

Definition code_events (root code : string) : list event :=
  EvMakedirs (guardian_dir root) perm_0o700 :: write_events (device_code_file root) code.

(** The events of [run] on its three writing paths. *)
Definition offline_events (E : env) (w : world) (root : string) : list event :=
  pending_events root
    (pending_record E w (default Py.PNone (gs w !! "guardian_pending_email")))
  ++ env_events root (Py.PStr "").

Definition transport_failure_events (E : env) (w : world) (root : string) : list event :=
  EvPost (request_of E w)
  :: pending_events root (pending_record E w (email_of E w))
  ++ env_events root (Py.PStr "").

Definition claimed_events (E : env) (w : world) (root : string)
    (device_jwt : Py.pyval) (device_code : string) : list event :=
  EvPost (request_of E w)
  :: env_events root device_jwt ++ code_events root device_code.

(** The world after a job has performed the events [es] and nothing else. *)
Definition performs (um : Z) (es : list event) (w : world) : world :=
  World (gs w) (replay um (fs w) es) (trace w ++ es).

(** [isinstance(v, str)] *)
Definition is_str (v : Py.pyval) : bool :=
  match v with Py.PStr _ => true | _ => false end.

(** [run], path by path. *)
Definition run_table (E : env) (w : world) : world * Py.res (option (string * string)) :=
  let um := umask E in
  let req := request_of E w in
  if offline w then
    match root_of w with
    | Py.PStr r => (performs um (offline_events E w r) w, Py.Ok None)
    | _ => (w, Py.Raise Py.TypeError)
    end
  else if negb (Py.truthy (token_of w)) then
    (w, Py.Ok (Some ("Device claim failed", "Authentication required")))
  else
    match network E req, root_of w with
    | RequestFailed, Py.PStr r =>
        (performs um (transport_failure_events E w r) w, Py.Ok None)
    | RequestFailed, _ => (performs um [EvPost req] w, Py.Raise Py.TypeError)
    | Response sc tx js, root =>
        if sc =? 200 then
          let jwt := default (Py.PStr "") (js !! "device_jwt") in
          match root, default (Py.PStr "") (js !! "device_code") with
          | Py.PStr r, Py.PStr code =>
              (World (<["guardian_device_code" := Py.PStr code]>
                        (<["guardian_device_jwt" := jwt]> (gs w)))
                     (replay um (fs w) (claimed_events E w r jwt code))
                     (trace w ++ claimed_events E w r jwt code),
               Py.Ok None)
          | Py.PStr r, _ =>
              (performs um
                 (EvPost req :: env_events r jwt
                  ++ [EvMakedirs (guardian_dir r) perm_0o700; EvOpenW (device_code_file r)]) w,
               Py.Raise Py.TypeError)
          | _, _ => (performs um [EvPost req] w, Py.Raise Py.TypeError)
          end
        else
          (performs um [EvPost req] w,
           Py.Ok (Some ("Device claim failed", "Server returned " ++ Py.str_of_int sc)))
    end.


(** ** What [guardian_auth.run] works with *)

Definition ui_email (w : world) : Py.pyval :=
  default Py.PNone (gs w !! "guardian_auth_email").

Definition ui_password (w : world) : Py.pyval :=
  default Py.PNone (gs w !! "guardian_auth_password").

Definition test_email (E : env) : string :=
  default "" (environ E !! "GUARDIAN_TEST_EMAIL").

Definition test_password (E : env) : string :=
  default "" (environ E !! "GUARDIAN_TEST_PASSWORD").

(** The credentials after the fall-back to the environment. *)
Definition auth_email (E : env) (w : world) : Py.pyval :=
  if negb (Py.truthy (ui_email w)) then Py.PStr (test_email E) else ui_email w.

Definition auth_password (E : env) (w : world) : Py.pyval :=
  if negb (Py.truthy (ui_password w)) then Py.PStr (test_password E) else ui_password w.

Definition auth_endpoint (w : world) : string :=
  if Py.eq_str (default Py.PNone (gs w !! "guardian_auth_mode")) "register"
  then guardian_auth.AUTH_REGISTER_URL
  else guardian_auth.AUTH_LOGIN_URL.

Definition auth_request_of (E : env) (w : world) : http_request :=
  guardian_auth.auth_request (auth_endpoint w) (auth_email E w) (auth_password E w).

(** The world in which offline mode has been recorded, nothing else. *)
Definition offline_world (w : world) : world :=
  World (<["guardian_offline_mode" := Py.PBool true]> (gs w)) (fs w) (trace w).

Definition is_post (e : event) : bool :=
  match e with EvPost _ => true | _ => false end.

(** ** The signals of the fingerprint *)

(** What each source contributes: nothing when it is unavailable. *)
Definition cpu_signal (m : gmap string file) : list string :=
  guardian_claim.except_pass (guardian_claim.cpu_info m []).

Definition mac_signals (E : env) : list string :=
  guardian_claim.except_pass (guardian_claim.mac_addresses (ip_link_show E) []).

(** The machine identifier, or the random draw of this call. *)
Definition id_signal (E : env) (m : gmap string file) : string :=
  match read_text m "/etc/machine-id" with
  | Py.Ok text => Py.strip text
  | Py.Raise _ => uuid4 E
  end.

Definition hex_digits : list ascii :=
  ["0";"1";"2";"3";"4";"5";"6";"7";"8";"9";"a";"b";"c";"d";"e";"f"]%char.

(** ** The persisted states of the specification *)

(** What the configuration file holds; it carries the device credential. *)
Definition stored_config (root : string) (m : gmap string file) : option string :=
  content <$> m !! env_file root.

Definition stored_code (root : string) (m : gmap string file) : option string :=
  content <$> m !! device_code_file root.

Definition stored_pending (root : string) (m : gmap string file) : option string :=
  content <$> m !! pending_file root.

(** [Claimed]: a device credential and a device code have been persisted. *)
Definition Claimed (root : string) (m : gmap string file) (jwt code : string) : Prop :=
  jwt <> "" /\
  stored_config root m = Some (guardian_claim.supabase_env_content (Py.PStr jwt)) /\
  stored_code root m = Some code.

(** The credential a successful return of [run] has put in the
    configuration file. *)
Definition written_credential (E : env) (w : world) : Py.pyval :=
  if offline w then Py.PStr ""
  else match network E (request_of E w) with
       | Response _ _ js => default (Py.PStr "") (js !! "device_jwt")
       | RequestFailed => Py.PStr ""
       end.

(** The artifacts under a root mount point. *)
Definition artifacts (root : string) : list string :=
  [env_file root; device_code_file root; pending_file root].

Definition is_artifact (root p : string) : bool :=
  existsb (String.eqb p) (artifacts root).

(** The discipline the specification asks of the artifact writer: a
    destination is never opened for writing itself; new content reaches
    it only through a rename. *)
Definition atomic_replace_discipline (root : string) (es : list event) : bool :=
  forallb (fun e => match e with
                    | EvOpenW p => negb (is_artifact root p)
                    | EvWrite p _ => negb (is_artifact root p)
                    | _ => true
                    end) es.

(** The discipline of the code: no rename, and every write goes to the
    path that the event before it has opened with truncation. *)
Fixpoint in_place_discipline (es : list event) : bool :=
  match es with
  | [] => true
  | e :: rest =>
      match e with
      | EvRename _ _ => false
      | EvWrite _ _ => false
      | EvOpenW p =>
          match rest with
          | EvWrite q _ :: rest' => String.eqb p q && in_place_discipline rest'
          | _ => in_place_discipline rest
          end
      | _ => in_place_discipline rest
      end
  end.

(** ** Sample runs *)

Module Sample.

Definition machine : gmap string file :=
  <["/etc/machine-id" := File ("0123456789abcdef0123456789abcdef" ++ nl) 292]> ∅.

(** A device already claimed with credential [abc] and code [XYZ-123]. *)
Definition claimed_files : gmap string file :=
  <["/etc/guardian/supabase.env" :=
      File (guardian_claim.supabase_env_content (Py.PStr "abc")) perm_0o600]>
    (<["/etc/guardian/device_code" := File "XYZ-123" perm_0o600]> machine).

Definition with_token : gmap string Py.pyval :=
  <["guardian_parent_token" := Py.PStr "tok"]>
    (<["guardian_parent_email" := Py.PStr "parent@example.com"]> ∅).

(** The storage an authentication that could not reach the backend leaves. *)
Definition deferred : gmap string Py.pyval :=
  <["guardian_offline_mode" := Py.PBool true]>
    (<["guardian_pending_email" := Py.PStr "parent@example.com"]> ∅).

Definition timeout (_ : http_request) : http_outcome := RequestFailed.

Definition status (n : Z) (_ : http_request) : http_outcome := Response n "" ∅.

Definition reply (js : gmap string Py.pyval) (_ : http_request) : http_outcome :=
  Response 200 "" js.

(** A host on which [ip] cannot be run, its [uuid4] drawing [u]. *)
Definition host_drawing (u : string) (net : http_request -> http_outcome) : env :=
  Env ∅ (Py.Raise Py.OSError) u ("2026-01-02T03:04:05Z" ++ nl) 18 net.

Definition host (net : http_request -> http_outcome) : env :=
  host_drawing "123e4567-e89b-42d3-a456-426614174000" net.

Definition tab : string := String "009"%char EmptyString.

Definition cpuinfo : string :=
  "processor" ++ tab ++ ": 0" ++ nl ++
  "vendor_id" ++ tab ++ ": GenuineIntel" ++ nl ++
  "model name" ++ tab ++ ": Intel(R) Core(TM) i7-8650U CPU @ 1.90GHz" ++ nl ++
  "model name" ++ tab ++ ": other" ++ nl.

Definition ip_output : string :=
  "1: lo: <LOOPBACK,UP> mtu 65536" ++ nl ++
  "    link/loopback 00:00:00:00:00:00 brd 00:00:00:00:00:00" ++ nl ++
  "2: eth0: <BROADCAST> mtu 1500" ++ nl ++
  "    link/ether 52:54:00:12:34:56 brd ff:ff:ff:ff:ff:ff" ++ nl ++
  "3: wlan0: <BROADCAST>" ++ nl ++
  "    link/ether aa:bb:cc:dd:ee:ff brd ff:ff:ff:ff:ff:ff" ++ nl.

(** A laptop with a CPU description, two interfaces and a machine identifier. *)
Definition laptop : env :=
  Env ∅ (Py.Ok ip_output) "123e4567-e89b-42d3-a456-426614174000"
      ("2026-01-02T03:04:05Z" ++ nl) 18 timeout.

Definition laptop_files : gmap string file :=
  <["/proc/cpuinfo" := File cpuinfo 292]> machine.

(** A backend that accepts the login and binds the device. *)
Definition backend (req : http_request) : http_outcome :=
  if String.eqb (url req) guardian_auth.AUTH_LOGIN_URL
  then Response 200 "" {["parent_access_token" := Py.PStr "tok"]}
  else Response 200 ""
         (<["device_jwt" := Py.PStr "abc"]> {["device_code" := Py.PStr "XYZ-123"]}).

(** A host whose environment carries the test credentials. *)
Definition test_host : env :=
  Env (<["GUARDIAN_TEST_EMAIL" := "parent@example.com"]>
         {["GUARDIAN_TEST_PASSWORD" := "secret"]})
      (Py.Raise Py.OSError) "123e4567-e89b-42d3-a456-426614174000"
      ("2026-01-02T03:04:05Z" ++ nl) 18 backend.

(** The same host with a backend whose token holds a carriage return. *)
Definition carriage_host : env :=
  Env (<["GUARDIAN_TEST_EMAIL" := "parent@example.com"]>
         {["GUARDIAN_TEST_PASSWORD" := "secret"]})
      (Py.Raise Py.OSError) "123e4567-e89b-42d3-a456-426614174000"
      ("2026-01-02T03:04:05Z" ++ nl) 18
      (reply {["parent_access_token" := Py.PStr ("to" ++ String "013" "k")]}).

(** A host whose environment carries the test e-mail but no test password. *)
Definition half_host : env :=
  Env {["GUARDIAN_TEST_EMAIL" := "parent@example.com"]}
      (Py.Raise Py.OSError) "123e4567-e89b-42d3-a456-426614174000"
      ("2026-01-02T03:04:05Z" ++ nl) 18 backend.

End Sample.

(** ** [guardian_auth.run], path by path *)

Definition token_handoff_file : string := "/tmp/guardian_parent_token".

(** Global storage after a request that failed in transport. *)
Definition deferred_storage (E : env) (w : world) : gmap string Py.pyval :=
  <["guardian_pending_auth" := Py.PBool true]>
    (<["guardian_pending_email" := auth_email E w]>
       (<["guardian_offline_mode" := Py.PBool true]> (gs w))).

(** Global storage after a reply that carried the token [tok]. *)
Definition session_storage (E : env) (w : world) (tok : Py.pyval) : gmap string Py.pyval :=
  <["guardian_parent_email" := auth_email E w]>
    (<["guardian_parent_token" := tok]> (gs w)).

(** A closed form of [guardian_auth.run]. *)
Definition auth_table (E : env) (w : world) : world * Py.res (option (string * string)) :=
  let um := umask E in
  let req := auth_request_of E w in
  let posted := World (gs w) (fs w) (trace w ++ [EvPost req]) in
  if negb (Py.truthy (auth_email E w)) || negb (Py.truthy (auth_password E w)) then
    (offline_world w, Py.Ok None)
  else
    match network E req with
    | RequestFailed =>
        (World (deferred_storage E w) (fs w) (trace w ++ [EvPost req]), Py.Ok None)
    | Response sc tx js =>
        if sc =? 200 then
          let tok := default Py.PNone (js !! "parent_access_token") in
          if Py.truthy tok then
            match tok with
            | Py.PStr t =>
                (World (session_storage E w tok)
                       (replay um (fs w) (write_events token_handoff_file t))
                       (trace w ++ EvPost req :: write_events token_handoff_file t),
                 Py.Ok None)
            | _ =>
                (World (session_storage E w tok)
                       (replay um (fs w) [EvOpenW token_handoff_file])
                       (trace w ++ [EvPost req; EvOpenW token_handoff_file]),
                 Py.Raise Py.TypeError)
            end
          else
            (posted, Py.Ok (Some ("Authentication failed", "Invalid response from server")))
        else
          (posted, Py.Ok (Some ("Authentication failed",
                                "Server returned " ++ Py.str_of_int sc)))
    end.

(** ** Further sample inputs *)

Module Cases.

Definition test_environ : gmap string string :=
  <["GUARDIAN_TEST_EMAIL" := "parent@example.com"]>
    {["GUARDIAN_TEST_PASSWORD" := "secret"]}.

(** A host with the test credentials in its environment, on a given network. *)
Definition tester (net : http_request -> http_outcome) : env :=
  Env test_environ (Py.Raise Py.OSError) "123e4567-e89b-42d3-a456-426614174000"
      ("2026-01-02T03:04:05Z" ++ nl) 18 net.

End Cases.

(** ** What an event changes *)

(** Whether the event changes the file at path [p]. *)
Definition touches (p : string) (e : event) : bool :=
  match e with
  | EvOpenW q => String.eqb q p
  | EvWrite q _ => String.eqb q p
  | EvChmod q _ => String.eqb q p
  | EvRename s d => String.eqb s p || String.eqb d p
  | EvMakedirs _ _ => false
  | EvPost _ => false
  end.

(** ** Lines of [ip link show] *)

(** What the second loop takes from a line that contains [link/ether]:
    lines 40-41 of the source. *)
Definition mac_of_line (line : string) : Py.res string :=
  match Py.index (Py.split "link/ether" line) 1 with
  | Py.Ok after => Py.index (Py.split_ws after) 0
  | Py.Raise e => Py.Raise e
  end.

Definition ether_lines (ls : list string) : list string :=
  List.filter (Py.contains "link/ether") ls.

(** ** [calamares/modules-impl/guardian_wifi.py] *)

(** [try: m  except Exception: h] *)
Definition except_exception {A} (m : job A) (h : job A) : job A :=
  fun E w =>
    match m E w with
    | (w', Py.Raise _) => h E w'
    | r => r
    end.

Module guardian_wifi.

(** Lines 14-25, the body of the [try]: the answer of [nmcli
    networking connectivity check] is [nmcli], an exception when the
    command cannot be run or times out. [Some r] is a [return r] inside
    the [try]; [None] lets control fall out of it. *)
Definition check_connectivity (nmcli : Py.res string)
  : job (option (option (string * string))) :=
  match nmcli with
  | Py.Ok stdout =>
      if Py.contains "full" stdout then
        do* gs_insert "guardian_network_configured" (Py.PBool true) in
        ret (Some None)
      else ret None
  | Py.Raise e => raise e
  end.

Definition run (nmcli : Py.res string) : job (option (string * string)) :=
  let* returned := except_exception (check_connectivity nmcli) (ret None) in
  match returned with
  | Some r => ret r
  | None =>
      do* gs_insert "guardian_network_configured" (Py.PBool true) in
      ret None
  end.

End guardian_wifi.

(** ** Characters of a text *)

Definition is_printable (c : ascii) : bool :=
  let n := Z.of_N (N_of_ascii c) in (32 <=? n) && (n <=? 126).

Definition is_newline (c : ascii) : bool := Ascii.eqb c "010".

Fixpoint all_chars (P : ascii -> bool) (s : string) : bool :=
  match s with
  | EmptyString => true
  | String c s' => P c && all_chars P s'
  end.

Fixpoint count_chars (P : ascii -> bool) (s : string) : nat :=
  match s with
  | EmptyString => O
  | String c s' => ((if P c then 1 else 0) + count_chars P s')%nat
  end.

(** A character [json.dump] writes as it is. *)
Definition is_plain (c : ascii) : bool :=
  is_printable c && negb (Ascii.eqb c "034") && negb (Ascii.eqb c "\").

(** ** The modules under [nobara/calamares-modules]

    Their global storage also holds dictionaries (the selected child),
    so these modules get a storage of their own: a value is a scalar or
    a dictionary of scalars, kept in insertion order. [tr] is the
    translation function [_] that [gettext] supplies. *)

Module Nobara.

Inductive value : Type :=
| Scalar (v : Py.pyval)
| Dict (d : list (string * Py.pyval)).

Definition truthy (v : value) : bool :=
  match v with
  | Scalar p => Py.truthy p
  | Dict [] => false
  | Dict (_ :: _) => true
  end.

Inductive exn : Type :=
| AttributeError
| TypeError.

Inductive res (A : Type) : Type :=
| Ok (a : A)
| Raise (e : exn).
Arguments Ok {A} a.
Arguments Raise {A} e.

(** [d.get(k)] on a dictionary; a scalar has no [get]. *)
Definition get (v : value) (k : string) : res Py.pyval :=
  match v with
  | Dict d =>
      match List.find (fun kv => String.eqb (fst kv) k) d with
      | Some kv => Ok (snd kv)
      | None => Ok Py.PNone
      end
  | Scalar _ => Raise AttributeError
  end.

Record state : Type := State {
  storage : gmap string value;
  files : gmap string file;
  events : list event
}.

(** [gs.value(k)] *)
Definition stored (s : state) (k : string) : value :=
  default (Scalar Py.PNone) (storage s !! k).

Definition perform (um : Z) (es : list event) (s : state) : state :=
  State (storage s) (replay um (files s) es) (events s ++ es).

(** [json.dump(obj, f, indent=2)] for a dictionary whose values are
    scalars or dictionaries of scalars. *)
Definition inner_item (kv : string * Py.pyval) : string :=
  "    " ++ Json.quoted (fst kv) ++ ": " ++ Json.value (snd kv).

Definition dump_value (v : value) : string :=
  match v with
  | Scalar p => Json.value p
  | Dict [] => "{}"
  | Dict d => "{" ++ nl ++ Py.join ("," ++ nl) (map inner_item d) ++ nl ++ "  }"
  end.

Definition dump_item (kv : string * value) : string :=
  "  " ++ Json.quoted (fst kv) ++ ": " ++ dump_value (snd kv).

Definition dumps (obj : list (string * value)) : string :=
  match obj with
  | [] => "{}"
  | _ => "{" ++ nl ++ Py.join ("," ++ nl) (map dump_item obj) ++ nl ++ "}"
  end.

(** *** [guardianchild/main.py] *)

Module guardianchild.

Definition demo_child : list (string * Py.pyval) :=
  [("id", Py.PStr "demo-child"); ("name", Py.PStr "Demo User"); ("age", Py.PInt 10)].

Definition run (tr : string -> string) (s : state)
  : state * res (option (string * string)) :=
  let selected_child := stored s "guardian_selected_child" in
  let demo_mode := stored s "guardian_demo_mode" in
  if truthy demo_mode then
    (State (<["guardian_child_name" := Scalar (Py.PStr "Demo User")]>
              (<["guardian_selected_child" := Dict demo_child]> (storage s)))
           (files s) (events s),
     Ok None)
  else if negb (truthy selected_child) then
    (s, Ok (Some (tr "No child selected",
                  tr "Please select which child will use this device.")))
  else
    match get selected_child "id" with
    | Raise e => (s, Raise e)
    | Ok child_id =>
        match get selected_child "name" with
        | Raise e => (s, Raise e)
        | Ok child_name =>
            if negb (Py.truthy child_id) || negb (Py.truthy child_name) then
              (s, Ok (Some (tr "Invalid selection",
                            tr "The selected child data is incomplete. Please try again.")))
            else (s, Ok None)
        end
    end.

End guardianchild.

(** *** [guardianauth/main.py] *)

Module guardianauth.

Definition SUPABASE_URL : string := "https://gkyspvcafyttfhyjryyk.supabase.co".

(** The dictionary [config] of lines 153-160. *)
Definition config (family_id parent_email : value) (child_id child_name : Py.pyval)
  : list (string * value) :=
  [("family_id", family_id);
   ("child_id", Scalar child_id);
   ("child_name", Scalar child_name);
   ("parent_email", parent_email);
   ("registered_at", Scalar Py.PNone);
   ("api_url", Scalar (Py.PStr SUPABASE_URL))].

Definition run (tr : string -> string) (um : Z) (s : state)
  : state * res (option (string * string)) :=
  let auth_token := stored s "guardian_auth_token" in
  let user_id := stored s "guardian_user_id" in
  let parent_email := stored s "guardian_parent_email" in
  let selected_child := stored s "guardian_selected_child" in
  let family_id := stored s "guardian_family_id" in
  if negb (forallb truthy [auth_token; user_id; selected_child; family_id]) then
    (s, Ok (Some (tr "Guardian authentication incomplete",
                  tr "Please complete parent authentication and child selection.")))
  else
    let root_mount := stored s "rootMountPoint" in
    if truthy root_mount then
      match root_mount with
      | Scalar (Py.PStr r) =>
          let guardian_config_dir := path_join (path_join r "etc") "guardian" in
          let s1 := perform um [EvMakedirs guardian_config_dir perm_0o700] s in
          match get selected_child "id" with
          | Raise e => (s1, Raise e)
          | Ok child_id =>
              match get selected_child "name" with
              | Raise e => (s1, Raise e)
              | Ok child_name =>
                  let config := config family_id parent_email child_id child_name in
                  let config_path := path_join guardian_config_dir "device.json" in
                  (perform um [EvOpenW config_path;
                               EvWrite config_path (dumps config);
                               EvChmod config_path perm_0o600] s1,
                   Ok None)
              end
          end
      | _ => (s, Raise TypeError)
      end
    else (s, Ok None).

End guardianauth.

End Nobara.

(** Sample states of the Nobara modules. *)
Module NobaraCases.

Definition child : list (string * Py.pyval) :=
  [("id", Py.PStr "c-1"); ("name", Py.PStr "Ada"); ("age", Py.PInt 9)].

Definition signed_in : gmap string Nobara.value :=
  <["guardian_auth_token" := Nobara.Scalar (Py.PStr "tok")]>
    (<["guardian_user_id" := Nobara.Scalar (Py.PStr "u-1")]>
       (<["guardian_family_id" := Nobara.Scalar (Py.PStr "f-1")]>
          (<["guardian_parent_email" := Nobara.Scalar (Py.PStr "parent@example.com")]>
             (<["rootMountPoint" := Nobara.Scalar (Py.PStr "/mnt")]> ∅)))).

Definition ready : Nobara.state :=
  Nobara.State (<["guardian_selected_child" := Nobara.Dict child]> signed_in) ∅ [].

Definition demo : Nobara.state :=
  Nobara.State {["guardian_demo_mode" := Nobara.Scalar (Py.PBool true)]} ∅ [].

(** A selection that has lost the name of the child. *)
Definition nameless : Nobara.state :=
  Nobara.State
    (<["guardian_selected_child" :=
         Nobara.Dict [("id", Py.PStr "c-1"); ("age", Py.PInt 9)]]> signed_in) ∅ [].

End NobaraCases.

(** * Properties *)

(** Unfolds the primitives of the monad. *)
Ltac job_unfold :=
  unfold os_path_join, os_makedirs, os_chmod, open_w, f_write, date_now, open_read,
    os_path_exists, environ_get, gs_value, gs_insert, bind, ret, raise, emit.



(** ** Reference values *)

Example sha256_empty :
  SHA256.hexdigest ""
  = "e3b0c44298fc1c149afbf4c8996fb92427ae41e4649b934ca495991b7852b855".
Proof. vm_compute. reflexivity. Qed.

Example sha256_abc :
  SHA256.hexdigest "abc"
  = "ba7816bf8f01cfea414140de5dae2223b00361a396177a9cb410ff61f20015ad".
Proof. vm_compute. reflexivity. Qed.

Example sha256_two_blocks :
  SHA256.hexdigest "abcdbcdecdefdefgefghfghighijhijkijkljklmklmnlmnomnopnopq"
  = "248d6a61d20638b8e5c026930c3e6039a33ce45964ff2167f6ecedd419db06c1".
Proof. vm_compute. reflexivity. Qed.

Example split_colon : Py.split ":" "a:b:c::" = ["a"; "b"; "c"; ""; ""].
Proof. reflexivity. Qed.

Example split_word :
  Py.split "link/ether" "xlink/etherylink/etherlink/etherz" = ["x"; "y"; ""; "z"].
Proof. reflexivity. Qed.

Example split_ws_runs :
  Py.split_ws ("  a " ++ Sample.tab ++ " b" ++ nl ++ "c  ") = ["a"; "b"; "c"].
Proof. reflexivity. Qed.

Example strip_both : Py.strip (" " ++ Sample.tab ++ "a b " ++ nl) = "a b".
Proof. reflexivity. Qed.

Example lines_keep_newline : Py.lines ("a" ++ nl ++ nl ++ "b") = ["a" ++ nl; nl; "b"].
Proof. reflexivity. Qed.

Example json_dumps_flat :
  Json.dumps [("email", Py.PNone); ("n", Py.PInt (-12)); ("s", Py.PStr ("a\" ++ nl))]
  = "{" ++ nl ++
    "  " ++ dquote ++ "email" ++ dquote ++ ": null," ++ nl ++
    "  " ++ dquote ++ "n" ++ dquote ++ ": -12," ++ nl ++
    "  " ++ dquote ++ "s" ++ dquote ++ ": " ++ dquote ++ "a\\\n" ++ dquote ++ nl ++
    "}".
Proof. reflexivity. Qed.

Example laptop_components :
  guardian_claim.fingerprint_components Sample.laptop Sample.laptop_files
  = ["Intel(R) Core(TM) i7-8650U CPU @ 1.90GHz"; "52:54:00:12:34:56";
     "aa:bb:cc:dd:ee:ff"; "0123456789abcdef0123456789abcdef"].
Proof. reflexivity. Qed.

Example laptop_fingerprint :
  snd (guardian_claim.get_device_fingerprint Sample.laptop (World ∅ Sample.laptop_files []))
  = Py.Ok "sha256:7c14a0f90a7acf553914387d91a3ad8aa98b07d8c8b2e76cdc8497f949061096".
Proof. vm_compute. reflexivity. Qed.

(** ** Files *)

Lemma replay_app um m es1 es2 :
  replay um m (es1 ++ es2) = replay um (replay um m es1) es2.
Proof. unfold replay. apply fold_left_app. Qed.

Lemma replay_write_events um (m : gmap string file) p data :
  replay um m (write_events p data) = <[p := File data perm_0o600]> m.
Proof.
  unfold replay, write_events. cbn [fold_left apply_event].
  destruct (m !! p) as [f|] eqn:Hp;
    rewrite !alter_insert_eq; reflexivity.
Qed.

(** ** The job monad *)

Lemma performs_nil um w : performs um [] w = w.
Proof. destruct w. unfold performs. cbn. by rewrite app_nil_r. Qed.

Lemma performs_app um es1 es2 w :
  performs um es2 (performs um es1 w) = performs um (es1 ++ es2) w.
Proof. unfold performs. cbn. by rewrite replay_app, app_assoc. Qed.

Lemma emit_performs e E w : emit e E w = (performs (umask E) [e] w, Py.Ok tt).
Proof. reflexivity. Qed.

Lemma bind_ok {A B} (m : job A) (k : A -> job B) E w w' a :
  m E w = (w', Py.Ok a) -> bind m k E w = k a E w'.
Proof. unfold bind. by intros ->. Qed.

Lemma bind_raise {A B} (m : job A) (k : A -> job B) E w w' e :
  m E w = (w', Py.Raise e) -> bind m k E w = (w', Py.Raise e).
Proof. unfold bind. by intros ->. Qed.

(** ** [guardian_claim]: the effect of each block *)

Lemma get_device_fingerprint_eq E w :
  guardian_claim.get_device_fingerprint E w = (w, Py.Ok (fingerprint_of E (fs w))).
Proof. reflexivity. Qed.

Lemma write_supabase_env_str r jwt E w :
  guardian_claim.write_supabase_env (Py.PStr r) jwt E w
  = (performs (umask E) (env_events r jwt) w, Py.Ok tt).
Proof.
  unfold guardian_claim.write_supabase_env, env_events, write_events, performs.
  job_unfold. cbn. rewrite <- !app_assoc. reflexivity.
Qed.

Lemma write_pending_str r E w :
  guardian_claim.write_pending (Py.PStr r) (gs_value "guardian_pending_email")
    guardian_claim.get_device_fingerprint E w
  = (performs (umask E)
       (pending_events r
          (pending_record E w (default Py.PNone (gs w !! "guardian_pending_email")))) w,
     Py.Ok tt).
Proof.
  unfold guardian_claim.write_pending, pending_events, write_events, performs.
  job_unfold. cbn. rewrite <- !app_assoc. reflexivity.
Qed.

Lemma write_pending_ret r email E w w0 :
  fs w = fs w0 ->
  guardian_claim.write_pending (Py.PStr r) (ret email) (ret (fingerprint_of E (fs w0))) E w
  = (performs (umask E) (pending_events r (pending_record E w0 email)) w, Py.Ok tt).
Proof.
  intros Hfs.
  unfold guardian_claim.write_pending, pending_events, write_events, performs.
  job_unfold. cbn. rewrite <- !app_assoc. reflexivity.
Qed.

(** ** [guardian_claim.run]: one lemma per path *)

Lemma read_parent_token_eq E w :
  guardian_claim.read_parent_token E w = (w, Py.Ok (token_of w)).
Proof.
  unfold guardian_claim.read_parent_token, token_of, read_text. job_unfold. cbn.
  destruct (Py.truthy (default Py.PNone (gs w !! "guardian_parent_token"))); cbn;
    [reflexivity|].
  destruct (fs w !! "/tmp/guardian_parent_token") as [f|] eqn:Hf; cbn;
    unfold read_text; rewrite ?Hf; reflexivity.
Qed.

Lemma run_no_token E w :
  offline w = false -> Py.truthy (token_of w) = false ->
  guardian_claim.run E w = (w, Py.Ok (Some ("Device claim failed", "Authentication required"))).
Proof.
  intros Hoff Htok. unfold guardian_claim.run. unfold offline in Hoff.
  unfold gs_value at 1 2, bind at 1 2. rewrite Hoff.
  unfold bind at 1. rewrite read_parent_token_eq, Htok. reflexivity.
Qed.

Lemma run_offline E w r :
  offline w = true -> root_of w = Py.PStr r ->
  guardian_claim.run E w = (performs (umask E) (offline_events E w r) w, Py.Ok None).
Proof.
  intros Hoff Hroot. unfold guardian_claim.run. unfold offline, root_of in *.
  unfold gs_value at 1 2, bind at 1 2. rewrite Hoff, Hroot.
  unfold bind at 1. rewrite write_pending_str.
  unfold bind at 1. rewrite write_supabase_env_str.
  rewrite performs_app. reflexivity.
Qed.

Lemma run_online E w :
  offline w = false -> Py.truthy (token_of w) = true ->
  guardian_claim.run E w
  = except_request
      (let* response := requests_post (request_of E w) in
       guardian_claim.on_response (root_of w) response)
      (guardian_claim.on_request_exception (root_of w) (email_of E w)
         (fingerprint_of E (fs w))) E w.
Proof.
  intros Hoff Htok. unfold guardian_claim.run. unfold offline in Hoff.
  unfold gs_value at 1 2, bind at 1 2. rewrite Hoff.
  unfold bind at 1. rewrite read_parent_token_eq, Htok. cbn [negb].
  unfold request_of, email_of, root_of.
  job_unfold. cbn.
  destruct (Py.truthy (default Py.PNone (gs w !! "guardian_parent_email"))); cbn.
  - reflexivity.
  - reflexivity.
Qed.

Lemma on_response_status root sc tx js E w :
  sc <> 200 ->
  guardian_claim.on_response root (sc, tx, js) E w
  = (w, Py.Ok (Some ("Device claim failed", "Server returned " ++ Py.str_of_int sc))).
Proof.
  intros Hsc. unfold guardian_claim.on_response.
  destruct (Z.eqb_spec sc 200); [done | reflexivity].
Qed.

Lemma on_response_200 r tx js code E w :
  default (Py.PStr "") (js !! "device_code") = Py.PStr code ->
  guardian_claim.on_response (Py.PStr r) (200, tx, js) E w
  = (World (<["guardian_device_code" := Py.PStr code]>
             (<["guardian_device_jwt" := default (Py.PStr "") (js !! "device_jwt")]> (gs w)))
           (replay (umask E) (fs w)
              (env_events r (default (Py.PStr "") (js !! "device_jwt")) ++ code_events r code))
           (trace w ++ env_events r (default (Py.PStr "") (js !! "device_jwt"))
                    ++ code_events r code),
     Py.Ok None).
Proof.
  intros Hcode. unfold guardian_claim.on_response. cbn [Z.eqb Pos.eqb].
  rewrite Hcode. unfold bind at 1. rewrite write_supabase_env_str.
  unfold code_events, write_events, performs. job_unfold.
  rewrite replay_app. cbn. rewrite <- !app_assoc. reflexivity.
Qed.

Lemma on_request_exception_str r email E w w0 :
  fs w = fs w0 ->
  guardian_claim.on_request_exception (Py.PStr r) email (fingerprint_of E (fs w0)) E w
  = (performs (umask E)
       (pending_events r (pending_record E w0 email) ++ env_events r (Py.PStr "")) w,
     Py.Ok None).
Proof.
  intros Hfs. unfold guardian_claim.on_request_exception.
  unfold bind at 1. rewrite (write_pending_ret _ _ _ _ w0 Hfs).
  unfold bind at 1. rewrite write_supabase_env_str.
  rewrite performs_app. reflexivity.
Qed.

Lemma run_status E w sc tx js :
  offline w = false -> Py.truthy (token_of w) = true ->
  network E (request_of E w) = Response sc tx js -> sc <> 200 ->
  guardian_claim.run E w
  = (World (gs w) (fs w) (trace w ++ [EvPost (request_of E w)]),
     Py.Ok (Some ("Device claim failed", "Server returned " ++ Py.str_of_int sc))).
Proof.
  intros Hoff Htok Hnet Hsc. rewrite run_online by done.
  unfold except_request, bind, requests_post. rewrite Hnet.
  rewrite on_response_status by done. reflexivity.
Qed.

Lemma run_transport E w r :
  offline w = false -> Py.truthy (token_of w) = true -> root_of w = Py.PStr r ->
  network E (request_of E w) = RequestFailed ->
  guardian_claim.run E w
  = (performs (umask E) (transport_failure_events E w r) w, Py.Ok None).
Proof.
  intros Hoff Htok Hroot Hnet. rewrite run_online by done.
  unfold except_request, bind, requests_post. rewrite Hnet, Hroot.
  rewrite (on_request_exception_str _ _ _ _ w) by reflexivity.
  unfold transport_failure_events, performs. cbn [gs fs trace].
  rewrite <- app_assoc. reflexivity.
Qed.

Lemma run_claimed E w r tx js code :
  offline w = false -> Py.truthy (token_of w) = true -> root_of w = Py.PStr r ->
  network E (request_of E w) = Response 200 tx js ->
  default (Py.PStr "") (js !! "device_code") = Py.PStr code ->
  let jwt := default (Py.PStr "") (js !! "device_jwt") in
  guardian_claim.run E w
  = (World (<["guardian_device_code" := Py.PStr code]>
             (<["guardian_device_jwt" := jwt]> (gs w)))
           (replay (umask E) (fs w) (claimed_events E w r jwt code))
           (trace w ++ claimed_events E w r jwt code),
     Py.Ok None).
Proof.
  intros Hoff Htok Hroot Hnet Hcode jwt. rewrite run_online by done.
  unfold except_request, bind, requests_post. rewrite Hnet, Hroot.
  rewrite (on_response_200 _ _ _ code) by done.
  unfold claimed_events. cbn [gs fs trace].
  rewrite <- app_assoc. reflexivity.
Qed.

(** ** The files each path leaves *)

Lemma append_cancel_l (p a b : string) : p ++ a = p ++ b -> a = b.
Proof. induction p as [|c p IH]; cbn; [done|]. intros [=]. auto. Qed.

Lemma length_append (a b : string) :
  String.length (a ++ b) = (String.length a + String.length b)%nat.
Proof.
  induction a as [|x a IH]; [reflexivity|].
  change (S (String.length (a ++ b)) = S (String.length a + String.length b)).
  by rewrite IH.
Qed.

Lemma append_cancel_r (a b c : string) : a ++ c = b ++ c -> a = b.
Proof.
  intros H.
  assert (Hlen : String.length a = String.length b).
  { apply (f_equal String.length) in H. rewrite !length_append in H. lia. }
  revert b H Hlen. induction a as [|x a IH]; intros [|y b] H Hlen; try discriminate;
    [done|].
  cbn in H. injection H as -> H. f_equal. apply IH; [done|]. cbn in Hlen. lia.
Qed.

Lemma config_inj a b :
  guardian_claim.supabase_env_content (Py.PStr a)
  = guardian_claim.supabase_env_content (Py.PStr b) ->
  a = b.
Proof.
  unfold guardian_claim.supabase_env_content. cbn [Py.format].
  intros H. repeat apply append_cancel_l in H. by apply append_cancel_r in H.
Qed.

Lemma path_join_inj d a b : path_join d a = path_join d b -> a = b.
Proof.
  unfold path_join. destruct (String.eqb d "" || ends_with_slash d).
  - apply append_cancel_l.
  - intros H. apply append_cancel_l in H. by apply (append_cancel_l "/") in H.
Qed.

Lemma env_file_ne_pending r : env_file r <> pending_file r.
Proof. intros H. apply path_join_inj in H. discriminate. Qed.

Lemma env_file_ne_code r : env_file r <> device_code_file r.
Proof. intros H. apply path_join_inj in H. discriminate. Qed.

Lemma pending_ne_code r : pending_file r <> device_code_file r.
Proof. intros H. apply path_join_inj in H. discriminate. Qed.

Lemma replay_env_events um (m : gmap string file) r jwt :
  replay um m (env_events r jwt)
  = <[env_file r := File (guardian_claim.supabase_env_content jwt) perm_0o600]> m.
Proof. unfold env_events. apply (replay_write_events um m). Qed.

Lemma replay_pending_events um (m : gmap string file) r data :
  replay um m (pending_events r data) = <[pending_file r := File data perm_0o600]> m.
Proof. unfold pending_events. apply (replay_write_events um m). Qed.

Lemma replay_code_events um (m : gmap string file) r code :
  replay um m (code_events r code) = <[device_code_file r := File code perm_0o600]> m.
Proof. unfold code_events. apply (replay_write_events um m). Qed.

Lemma replay_offline_events um (m : gmap string file) E w r :
  replay um m (offline_events E w r)
  = <[env_file r := File (guardian_claim.supabase_env_content (Py.PStr "")) perm_0o600]>
      (<[pending_file r :=
           File (pending_record E w (default Py.PNone (gs w !! "guardian_pending_email")))
                perm_0o600]> m).
Proof.
  unfold offline_events. by rewrite replay_app, replay_pending_events, replay_env_events.
Qed.

Lemma replay_transport_failure_events um (m : gmap string file) E w r :
  replay um m (transport_failure_events E w r)
  = <[env_file r := File (guardian_claim.supabase_env_content (Py.PStr "")) perm_0o600]>
      (<[pending_file r := File (pending_record E w (email_of E w)) perm_0o600]> m).
Proof.
  unfold transport_failure_events.
  change (replay um m (EvPost ?q :: ?es)) with (replay um m es).
  by rewrite replay_app, replay_pending_events, replay_env_events.
Qed.

Lemma replay_claimed_events um (m : gmap string file) E w r jwt code :
  replay um m (claimed_events E w r jwt code)
  = <[device_code_file r := File code perm_0o600]>
      (<[env_file r := File (guardian_claim.supabase_env_content jwt) perm_0o600]> m).
Proof.
  unfold claimed_events.
  change (replay um m (EvPost ?q :: ?es)) with (replay um m es).
  by rewrite replay_app, replay_env_events, replay_code_events.
Qed.

(** ** [guardian_claim.run] as a table *)

Lemma write_supabase_env_not_str root jwt E w :
  is_str root = false ->
  guardian_claim.write_supabase_env root jwt E w = (w, Py.Raise Py.TypeError).
Proof. by destruct root. Qed.

Lemma write_pending_not_str root email fp E w :
  is_str root = false ->
  guardian_claim.write_pending root email fp E w = (w, Py.Raise Py.TypeError).
Proof. by destruct root. Qed.

Lemma run_table_eq E w : guardian_claim.run E w = run_table E w.
Proof.
  unfold run_table.
  destruct (offline w) eqn:Hoff.
  { destruct (root_of w) as [| | |r] eqn:Hroot; [| | |by apply run_offline].
    all: unfold guardian_claim.run; unfold offline, root_of in *;
      unfold gs_value at 1 2, bind at 1 2; rewrite Hoff, Hroot; reflexivity. }
  destruct (Py.truthy (token_of w)) eqn:Htok; [|by apply run_no_token].
  cbn [negb].
  destruct (network E (request_of E w)) as [sc tx js|] eqn:Hnet.
  - destruct (Z.eqb_spec sc 200) as [->|Hsc].
    + destruct (root_of w) as [| | |r] eqn:Hroot.
      1-3: rewrite run_online by done;
        unfold except_request, bind at 1, requests_post; rewrite Hnet, Hroot;
        reflexivity.
      destruct (default (Py.PStr "") (js !! "device_code")) as [| | |code] eqn:Hcode;
        [| | | by eapply run_claimed].
      all: rewrite run_online by done;
        unfold except_request, bind at 1, requests_post; rewrite Hnet, Hroot;
        unfold guardian_claim.on_response; cbn [Z.eqb Pos.eqb]; rewrite Hcode;
        unfold bind at 1; rewrite write_supabase_env_str;
        unfold performs; job_unfold; cbn; rewrite <- !app_assoc; reflexivity.
    + rewrite (run_status E w sc tx js) by done. reflexivity.
  - destruct (root_of w) as [| | |r] eqn:Hroot; [| | |by apply run_transport].
    all: rewrite run_online by done;
      unfold except_request, bind at 1, requests_post; rewrite Hnet, Hroot;
      reflexivity.
Qed.

(** ** Claims about [guardian_claim.run] *)

(** C7. When the claim endpoint answers with a status [N] other than 200,
    [run] returns exactly the pair ("Device claim failed", "Server
    returned N") and performs no file-system event at all: the only
    new event is the request itself, and files and global storage are
    those of before, a Claimed record included. *)
Theorem non_200_reply_fails_without_writing E w N tx js :
  offline w = false ->
  Py.truthy (token_of w) = true ->
  network E (request_of E w) = Response N tx js ->
  N <> 200 ->
  exists w',
    guardian_claim.run E w
    = (w', Py.Ok (Some ("Device claim failed", "Server returned " ++ Py.str_of_int N)))
    /\ trace w' = (trace w ++ [EvPost (request_of E w)])%list
    /\ fs w' = fs w
    /\ gs w' = gs w
    /\ forall r jwt code, Claimed r (fs w) jwt code -> Claimed r (fs w') jwt code.
Proof.
  intros Hoff Htok Hnet HN. eexists. split; [by eapply run_status|].
  cbn. auto.
Qed.

Lemma non_200_reply_fails_without_writing_witness :
  exists w',
    guardian_claim.run (Sample.host (Sample.status 500))
                       (World Sample.with_token Sample.claimed_files [])
    = (w', Py.Ok (Some ("Device claim failed", "Server returned 500")))
    /\ fs w' = Sample.claimed_files.
Proof.
  destruct (non_200_reply_fails_without_writing
              (Sample.host (Sample.status 500))
              (World Sample.with_token Sample.claimed_files []) 500 "" ∅)
    as (w' & Hrun & _ & Hfs & _).
  - reflexivity.
  - reflexivity.
  - reflexivity.
  - discriminate.
  - exists w'. split; [exact Hrun | exact Hfs].
Defined.

(** C6. When the request to the claim endpoint fails in transport, [run]
    returns normally with no failure pair, having written the
    pending-activation record (parent e-mail, fingerprint, UTC timestamp)
    and a configuration file whose device credential is empty: the text
    of the configuration ends in the line [GUARDIAN_DEVICE_JWT=]. No
    other file and no entry of global storage changes. *)
Theorem transport_failure_defers_claim E w r :
  offline w = false ->
  Py.truthy (token_of w) = true ->
  root_of w = Py.PStr r ->
  network E (request_of E w) = RequestFailed ->
  exists w',
    guardian_claim.run E w = (w', Py.Ok None)
    /\ fs w' !! pending_file r
       = Some (File (Json.dumps [("email", email_of E w);
                                 ("fingerprint", Py.PStr (fingerprint_of E (fs w)));
                                 ("timestamp", Py.PStr (Py.strip (date_utc E)))])
                    perm_0o600)
    /\ fs w' !! env_file r
       = Some (File
                 ("# Guardian OS Supabase Configuration" ++ nl ++
                  "# Generated during installation" ++ nl ++
                  "SUPABASE_URL=https://xzxjwuzwltoapifcyzww.supabase.co" ++ nl ++
                  "GUARDIAN_API_BASE=https://xzxjwuzwltoapifcyzww.supabase.co/functions/v1" ++ nl ++
                  nl ++
                  "# API Endpoints" ++ nl ++
                  "GUARDIAN_AUTH_LOGIN_URL=$GUARDIAN_API_BASE/auth-login" ++ nl ++
                  "GUARDIAN_AUTH_REGISTER_URL=$GUARDIAN_API_BASE/auth-register" ++ nl ++
                  "GUARDIAN_CLAIM_URL=$GUARDIAN_API_BASE/bind-device" ++ nl ++
                  "GUARDIAN_HEARTBEAT_URL=$GUARDIAN_API_BASE/device-heartbeat" ++ nl ++
                  nl ++
                  "# Device JWT (obtained during installation)" ++ nl ++
                  "GUARDIAN_DEVICE_JWT=" ++ nl)
                 perm_0o600)
    /\ (forall p, p <> pending_file r -> p <> env_file r -> fs w' !! p = fs w !! p)
    /\ gs w' = gs w.
Proof.
  intros Hoff Htok Hroot Hnet. eexists. split; [by eapply run_transport|].
  unfold performs. cbn [fs gs]. rewrite replay_transport_failure_events.
  split; [|split; [|split]].
  - rewrite lookup_insert_ne by apply env_file_ne_pending.
    by rewrite lookup_insert_eq.
  - rewrite lookup_insert_eq. reflexivity.
  - intros p Hp He. by rewrite !lookup_insert_ne.
  - reflexivity.
Qed.

Lemma transport_failure_defers_claim_witness :
  exists w',
    guardian_claim.run (Sample.host Sample.timeout) (World Sample.with_token Sample.machine [])
    = (w', Py.Ok None)
    /\ fs w' !! "/etc/guardian/pending_activation.json"
       = Some (File
                 ("{" ++ nl ++
                  "  " ++ dquote ++ "email" ++ dquote ++ ": " ++ dquote ++ "parent@example.com" ++ dquote ++ "," ++ nl ++
                  "  " ++ dquote ++ "fingerprint" ++ dquote ++ ": " ++ dquote
                       ++ "sha256:3eb1bd439947eb762998e566ccc2e099c791118b2f40579cc4f7da2b5061b7f9"
                       ++ dquote ++ "," ++ nl ++
                  "  " ++ dquote ++ "timestamp" ++ dquote ++ ": "
                       ++ dquote ++ "2026-01-02T03:04:05Z" ++ dquote ++ nl ++
                  "}")
                 384)
    /\ fs w' !! "/etc/guardian/supabase.env"
       = Some (File
                 ("# Guardian OS Supabase Configuration" ++ nl ++
                  "# Generated during installation" ++ nl ++
                  "SUPABASE_URL=https://xzxjwuzwltoapifcyzww.supabase.co" ++ nl ++
                  "GUARDIAN_API_BASE=https://xzxjwuzwltoapifcyzww.supabase.co/functions/v1" ++ nl ++
                  nl ++
                  "# API Endpoints" ++ nl ++
                  "GUARDIAN_AUTH_LOGIN_URL=$GUARDIAN_API_BASE/auth-login" ++ nl ++
                  "GUARDIAN_AUTH_REGISTER_URL=$GUARDIAN_API_BASE/auth-register" ++ nl ++
                  "GUARDIAN_CLAIM_URL=$GUARDIAN_API_BASE/bind-device" ++ nl ++
                  "GUARDIAN_HEARTBEAT_URL=$GUARDIAN_API_BASE/device-heartbeat" ++ nl ++
                  nl ++
                  "# Device JWT (obtained during installation)" ++ nl ++
                  "GUARDIAN_DEVICE_JWT=" ++ nl)
                 384).
Proof.
  destruct (transport_failure_defers_claim
              (Sample.host Sample.timeout) (World Sample.with_token Sample.machine []) "/")
    as (w' & Hrun & Hpend & Henv & _).
  - reflexivity.
  - reflexivity.
  - reflexivity.
  - reflexivity.
  - exists w'. split; [exact Hrun|]. split.
    + change (pending_file "/") with "/etc/guardian/pending_activation.json" in Hpend.
      rewrite Hpend. vm_compute. reflexivity.
    + change (env_file "/") with "/etc/guardian/supabase.env" in Henv.
      rewrite Henv. vm_compute. reflexivity.
Defined.

(** C4, as stated, fails: with no parent token the attempt ends in the
    hard failure ("Device claim failed", "Authentication required") and
    leaves no pending-claim record. *)
Lemma missing_token_writes_no_pending_record :
  let w := World ∅ Sample.machine [] in
  offline w = false /\ Py.truthy (token_of w) = false /\
  exists w',
    guardian_claim.run (Sample.host Sample.timeout) w
    = (w', Py.Ok (Some ("Device claim failed", "Authentication required")))
    /\ stored_pending "/" (fs w') = None.
Proof.
  cbn zeta. split; [reflexivity|]. split; [reflexivity|].
  eexists. split; [vm_compute; reflexivity|]. vm_compute. reflexivity.
Qed.

(** C4, amended. In offline mode and when the request fails in
    transport, [run] returns success, never a failure pair, and has
    written the pending-claim record: the file
    [etc/guardian/pending_activation.json] under the root, with mode
    0600, holding the e-mail (the pending e-mail of global storage in
    offline mode, the parent e-mail after a failed request), the
    fingerprint and the UTC timestamp. With a missing parent token
    [run] returns ("Device claim failed", "Authentication required") and
    changes nothing; with a reply whose status [N] is not 200 it
    returns ("Device claim failed", "Server returned N") and changes no
    file and no entry of global storage: no pending-claim record is
    written. *)
Theorem failing_attempt_outcomes E w r w' res :
  root_of w = Py.PStr r ->
  guardian_claim.run E w = (w', res) ->
  (offline w = true ->
   res = Py.Ok None
   /\ fs w' !! pending_file r
      = Some (File (Json.dumps
                      [("email", default Py.PNone (gs w !! "guardian_pending_email"));
                       ("fingerprint", Py.PStr (fingerprint_of E (fs w)));
                       ("timestamp", Py.PStr (Py.strip (date_utc E)))])
                   perm_0o600))
  /\
  (offline w = false ->
   Py.truthy (token_of w) = true ->
   network E (request_of E w) = RequestFailed ->
   res = Py.Ok None
   /\ fs w' !! pending_file r
      = Some (File (Json.dumps
                      [("email", email_of E w);
                       ("fingerprint", Py.PStr (fingerprint_of E (fs w)));
                       ("timestamp", Py.PStr (Py.strip (date_utc E)))])
                   perm_0o600))
  /\
  (offline w = false ->
   Py.truthy (token_of w) = false ->
   res = Py.Ok (Some ("Device claim failed", "Authentication required"))
   /\ w' = w)
  /\
  (offline w = false ->
   Py.truthy (token_of w) = true ->
   forall N tx js,
     network E (request_of E w) = Response N tx js ->
     N <> 200 ->
     res = Py.Ok (Some ("Device claim failed", "Server returned " ++ Py.str_of_int N))
     /\ fs w' = fs w
     /\ gs w' = gs w).
Proof.
  intros Hroot Hrun. rewrite run_table_eq in Hrun. unfold run_table in Hrun.
  rewrite Hroot in Hrun. split; [|split; [|split]].
  - intros Hoff. rewrite Hoff in Hrun. apply pair_equal_spec in Hrun as [<- <-].
    split; [reflexivity|].
    unfold performs. cbn [fs]. rewrite replay_offline_events.
    rewrite lookup_insert_ne by apply env_file_ne_pending.
    by rewrite lookup_insert_eq.
  - intros Hoff Htok Hnet. rewrite Hoff, Htok, Hnet in Hrun. cbn [negb] in Hrun.
    apply pair_equal_spec in Hrun as [<- <-]. split; [reflexivity|].
    unfold performs. cbn [fs]. rewrite replay_transport_failure_events.
    rewrite lookup_insert_ne by apply env_file_ne_pending.
    by rewrite lookup_insert_eq.
  - intros Hoff Htok. rewrite Hoff, Htok in Hrun. cbn [negb] in Hrun.
    apply pair_equal_spec in Hrun as [<- <-]. by split.
  - intros Hoff Htok N tx js Hnet HN. rewrite Hoff, Htok, Hnet in Hrun.
    cbn [negb] in Hrun. destruct (Z.eqb_spec N 200); [done|].
    apply pair_equal_spec in Hrun as [<- <-]. by repeat split.
Qed.

Lemma failing_attempt_outcomes_witness :
  (snd (guardian_claim.run (Sample.host Sample.backend)
          (World Sample.deferred Sample.machine []))
   = Py.Ok None
   /\ fs (fst (guardian_claim.run (Sample.host Sample.backend)
                 (World Sample.deferred Sample.machine [])))
        !! "/etc/guardian/pending_activation.json"
      = Some (File
                ("{" ++ nl ++
                 "  " ++ dquote ++ "email" ++ dquote ++ ": " ++ dquote ++ "parent@example.com" ++ dquote ++ "," ++ nl ++
                 "  " ++ dquote ++ "fingerprint" ++ dquote ++ ": " ++ dquote
                      ++ "sha256:3eb1bd439947eb762998e566ccc2e099c791118b2f40579cc4f7da2b5061b7f9"
                      ++ dquote ++ "," ++ nl ++
                 "  " ++ dquote ++ "timestamp" ++ dquote ++ ": "
                      ++ dquote ++ "2026-01-02T03:04:05Z" ++ dquote ++ nl ++
                 "}")
                384))
  /\
  (snd (guardian_claim.run (Sample.host (Sample.status 500))
          (World Sample.with_token Sample.claimed_files []))
   = Py.Ok (Some ("Device claim failed", "Server returned 500"))
   /\ fs (fst (guardian_claim.run (Sample.host (Sample.status 500))
                 (World Sample.with_token Sample.claimed_files [])))
      = Sample.claimed_files).
Proof.
  split.
  - destruct (failing_attempt_outcomes
                (Sample.host Sample.backend) (World Sample.deferred Sample.machine []) "/"
                _ _ eq_refl (surjective_pairing _)) as (Hoffline & _).
    destruct (Hoffline eq_refl) as [Hres Hpend]. split; [exact Hres|].
    change (pending_file "/") with "/etc/guardian/pending_activation.json" in Hpend.
    rewrite Hpend. vm_compute. reflexivity.
  - destruct (failing_attempt_outcomes
                (Sample.host (Sample.status 500))
                (World Sample.with_token Sample.claimed_files []) "/"
                _ _ eq_refl (surjective_pairing _)) as (_ & _ & _ & Hstatus).
    destruct (Hstatus eq_refl eq_refl 500 "" ∅ eq_refl) as (Hres & Hfs & _);
      [discriminate|].
    split; [exact Hres | exact Hfs].
Defined.

(** C3. The code at a half-valid reply: a 200 reply that carries a
    device code but no device credential. The claim asks for a failure
    and no persisted artifact; [run] returns success, writes the
    configuration file with an empty credential, the device-code file
    and both global-storage entries, and leaves no pending-activation
    record behind for a later retry. *)
Lemma half_valid_reply_is_persisted :
  let js : gmap string Py.pyval := {["device_code" := Py.PStr "XYZ-123"]} in
  let w := World Sample.with_token Sample.machine [] in
  js !! "device_jwt" = None /\
  exists w',
    guardian_claim.run (Sample.host (Sample.reply js)) w = (w', Py.Ok None)
    /\ stored_config "/" (fs w') = Some (guardian_claim.supabase_env_content (Py.PStr ""))
    /\ stored_code "/" (fs w') = Some "XYZ-123"
    /\ gs w' !! "guardian_device_jwt" = Some (Py.PStr "")
    /\ gs w' !! "guardian_device_code" = Some (Py.PStr "XYZ-123")
    /\ stored_pending "/" (fs w') = None.
Proof.
  cbn zeta. split; [reflexivity|].
  eexists. split; [vm_compute; reflexivity|].
  repeat split; vm_compute; reflexivity.
Qed.

(** What [run] does with any 200 reply: it returns success; an absent
    field counts as the empty string, and the configuration file, the
    device-code file and the two global-storage entries are written
    with these values. *)
Lemma reply_200_is_persisted E w r tx js code :
  offline w = false ->
  Py.truthy (token_of w) = true ->
  root_of w = Py.PStr r ->
  network E (request_of E w) = Response 200 tx js ->
  default (Py.PStr "") (js !! "device_code") = Py.PStr code ->
  let jwt := default (Py.PStr "") (js !! "device_jwt") in
  exists w',
    guardian_claim.run E w = (w', Py.Ok None)
    /\ fs w' !! env_file r
       = Some (File (guardian_claim.supabase_env_content jwt) perm_0o600)
    /\ fs w' !! device_code_file r = Some (File code perm_0o600)
    /\ gs w' !! "guardian_device_jwt" = Some jwt
    /\ gs w' !! "guardian_device_code" = Some (Py.PStr code)
    /\ (js !! "device_jwt" = None -> jwt = Py.PStr "")
    /\ (js !! "device_code" = None -> code = "").
Proof.
  intros Hoff Htok Hroot Hnet Hcode jwt. eexists.
  split; [by eapply run_claimed|]. cbn [fs gs].
  rewrite replay_claimed_events. repeat split.
  - rewrite lookup_insert_ne by (intros H; symmetry in H; by apply env_file_ne_code in H).
    by rewrite lookup_insert_eq.
  - by rewrite lookup_insert_eq.
  - rewrite lookup_insert_ne by done. by rewrite lookup_insert_eq.
  - by rewrite lookup_insert_eq.
  - subst jwt. by intros ->.
  - intros Hnone. rewrite Hnone in Hcode. by injection Hcode.
Qed.

(** Scenario A of the specification: the reply carries credential [abc]
    and code [XYZ-123], and the device ends Claimed. *)
Example scenario_a_claimed :
  exists w',
    guardian_claim.run Sample.test_host (World Sample.with_token Sample.machine [])
    = (w', Py.Ok None)
    /\ Claimed "/" (fs w') "abc" "XYZ-123".
Proof.
  destruct (reply_200_is_persisted Sample.test_host
              (World Sample.with_token Sample.machine []) "/" ""
              (<["device_jwt" := Py.PStr "abc"]> {["device_code" := Py.PStr "XYZ-123"]})
              "XYZ-123")
    as (w' & Hrun & Henv & Hcode & _); try reflexivity.
  exists w'. split; [exact Hrun|]. split; [discriminate|].
  unfold stored_config, stored_code. split.
  - by rewrite Henv.
  - by rewrite Hcode.
Qed.

(** C1, as stated, fails: on a device in the Claimed state a further
    run whose request times out returns success and replaces the stored
    credential by the empty one. *)
Lemma claimed_credential_is_overwritten :
  let w := World Sample.with_token Sample.claimed_files [] in
  Claimed "/" (fs w) "abc" "XYZ-123" /\
  exists w',
    guardian_claim.run (Sample.host Sample.timeout) w = (w', Py.Ok None)
    /\ stored_config "/" (fs w') = Some (guardian_claim.supabase_env_content (Py.PStr ""))
    /\ stored_config "/" (fs w') <> stored_config "/" (fs w).
Proof.
  cbn zeta. split.
  - split; [discriminate|]. split; reflexivity.
  - eexists. split; [vm_compute; reflexivity|].
    split; [vm_compute; reflexivity|]. vm_compute. discriminate.
Qed.

(** C1, amended. On a device in the Claimed state, a run that ends in a
    failure pair (missing parent token, or a reply other than 200) changes
    no file, so the device stays Claimed with the same credential and
    code. A run that returns success has rewritten the configuration
    file: with the credential of the reply after a 200 reply, with the
    empty credential in offline mode and after a transport failure. *)
Theorem claimed_state_after_run E w r jwt code w' res :
  Claimed r (fs w) jwt code ->
  root_of w = Py.PStr r ->
  guardian_claim.run E w = (w', res) ->
  (forall title detail, res = Py.Ok (Some (title, detail)) ->
     fs w' = fs w /\ Claimed r (fs w') jwt code)
  /\
  (res = Py.Ok None ->
     stored_config r (fs w')
     = Some (guardian_claim.supabase_env_content (written_credential E w))).
Proof.
  intros Hcl Hroot Hrun. rewrite run_table_eq in Hrun.
  unfold run_table in Hrun. unfold written_credential, stored_config.
  rewrite Hroot in Hrun.
  destruct (offline w).
  { apply pair_equal_spec in Hrun as [<- <-]. split; [discriminate|]. intros _.
    unfold performs. cbn [fs]. rewrite replay_offline_events.
    by rewrite lookup_insert_eq. }
  destruct (Py.truthy (token_of w)); cbn [negb] in Hrun.
  2:{ apply pair_equal_spec in Hrun as [<- <-]. split; [|discriminate]. by intros. }
  destruct (network E (request_of E w)) as [sc tx js|].
  - destruct (sc =? 200).
    + destruct (default (Py.PStr "") (js !! "device_code")) as [| | |c];
        apply pair_equal_spec in Hrun as [<- <-]; (split; [discriminate|]); try discriminate.
      intros _. cbn [fs]. rewrite replay_claimed_events.
      rewrite lookup_insert_ne by (intros H; symmetry in H; by apply env_file_ne_code in H).
      by rewrite lookup_insert_eq.
    + apply pair_equal_spec in Hrun as [<- <-]. split; [|discriminate]. by intros.
  - apply pair_equal_spec in Hrun as [<- <-]. split; [discriminate|]. intros _.
    unfold performs. cbn [fs]. rewrite replay_transport_failure_events.
    by rewrite lookup_insert_eq.
Qed.

Lemma claimed_state_after_run_witness :
  let E := Sample.host (Sample.status 500) in
  let w := World Sample.with_token Sample.claimed_files [] in
  snd (guardian_claim.run E w)
  = Py.Ok (Some ("Device claim failed", "Server returned 500"))
  /\ fs (fst (guardian_claim.run E w)) = fs w
  /\ Claimed "/" (fs (fst (guardian_claim.run E w))) "abc" "XYZ-123".
Proof.
  cbn zeta. split; [reflexivity|].
  refine (proj1 (claimed_state_after_run
                   (Sample.host (Sample.status 500))
                   (World Sample.with_token Sample.claimed_files [])
                   "/" "abc" "XYZ-123" _ _ _ _ _)
                "Device claim failed" "Server returned 500" _).
  - split; [discriminate|]. split; reflexivity.
  - reflexivity.
  - apply surjective_pairing.
  - reflexivity.
Defined.

(** C8, as stated, fails: the configuration file is opened for writing
    at its own path. On a claimed device whose request times out, the
    events of the run break the atomic-replace discipline, and the file
    system reached when the run is cut right after that open holds an
    empty configuration file in place of the one with the credential. *)
Lemma config_file_is_truncated_in_place :
  let E := Sample.host Sample.timeout in
  let w := World Sample.with_token Sample.claimed_files [] in
  Claimed "/" (fs w) "abc" "XYZ-123" /\
  exists w' before after,
    guardian_claim.run E w = (w', Py.Ok None)
    /\ atomic_replace_discipline "/" (trace w') = false
    /\ trace w' = (before ++ EvOpenW (env_file "/") :: after)%list
    /\ stored_config "/" (replay (umask E) (fs w) (before ++ [EvOpenW (env_file "/")]))
       = Some "".
Proof.
  cbn zeta. split.
  - split; [discriminate|]. split; reflexivity.
  - eexists.
    exists (firstn 6 (transport_failure_events (Sample.host Sample.timeout)
                        (World Sample.with_token Sample.claimed_files []) "/")).
    exists (skipn 7 (transport_failure_events (Sample.host Sample.timeout)
                       (World Sample.with_token Sample.claimed_files []) "/")).
    split; [vm_compute; reflexivity|].
    repeat split; vm_compute; reflexivity.
Qed.

(** C8, amended. Every artifact is written in place: whatever [run]
    is given, its events contain no rename, each write goes to the
    path that the event just before it opened with truncation, the
    files it leaves are the result of these events in order, and the
    paths it opens are the artifact paths themselves. *)
Theorem artifacts_are_written_in_place E w w' res :
  guardian_claim.run E w = (w', res) ->
  exists es,
    trace w' = (trace w ++ es)%list
    /\ in_place_discipline es = true
    /\ fs w' = replay (umask E) (fs w) es
    /\ forall r p, root_of w = Py.PStr r -> In (EvOpenW p) es -> In p (artifacts r).
Proof.
  intros Hrun. rewrite run_table_eq in Hrun. unfold run_table in Hrun.
  assert (Hnil : exists es : list event,
             trace w = (trace w ++ es)%list /\ in_place_discipline es = true
             /\ fs w = replay (umask E) (fs w) es
             /\ forall r p, root_of w = Py.PStr r -> In (EvOpenW p) es -> In p (artifacts r)).
  { exists []. rewrite app_nil_r. repeat split. intros ? ? _ []. }
  assert (Hpost : forall q, exists es : list event,
             (trace w ++ [EvPost q])%list = (trace w ++ es)%list
             /\ in_place_discipline es = true
             /\ fs w = replay (umask E) (fs w) es
             /\ forall r p, root_of w = Py.PStr r -> In (EvOpenW p) es -> In p (artifacts r)).
  { intros q. exists [EvPost q]. repeat split.
    intros ? ? _ Hin. cbn in Hin. intuition discriminate. }
  assert (Hev : forall r es,
             root_of w = Py.PStr r ->
             in_place_discipline es = true ->
             (forall p, In (EvOpenW p) es -> In p (artifacts r)) ->
             exists es' : list event,
               (trace w ++ es)%list = (trace w ++ es')%list
               /\ in_place_discipline es' = true
               /\ replay (umask E) (fs w) es = replay (umask E) (fs w) es'
               /\ forall r' p, root_of w = Py.PStr r' -> In (EvOpenW p) es' ->
                               In p (artifacts r')).
  { intros r es Hr Hd Hopen. exists es. repeat split; [done|].
    intros r' p Hr' Hin. rewrite Hr in Hr'. injection Hr' as <-. by apply Hopen. }
  destruct (offline w).
  { destruct (root_of w) as [| | |r] eqn:Hroot;
      apply pair_equal_spec in Hrun as [<- <-]; try exact Hnil.
    apply (Hev r); [done | cbn; by rewrite !String.eqb_refl |].
    intros p Hin. cbn in Hin. unfold artifacts. cbn. intuition (simplify_eq; auto). }
  destruct (Py.truthy (token_of w)); cbn [negb] in Hrun.
  2:{ apply pair_equal_spec in Hrun as [<- <-]. exact Hnil. }
  destruct (network E (request_of E w)) as [sc tx js|].
  - destruct (sc =? 200).
    + destruct (root_of w) as [| | |r] eqn:Hroot.
      1-3: apply pair_equal_spec in Hrun as [<- <-]; apply Hpost.
      destruct (default (Py.PStr "") (js !! "device_code")) as [| | |c];
        apply pair_equal_spec in Hrun as [<- <-].
      all: apply (Hev r); [done | cbn; by rewrite !String.eqb_refl |];
        intros p Hin; cbn in Hin; unfold artifacts; cbn;
        intuition (simplify_eq; auto).
    + apply pair_equal_spec in Hrun as [<- <-]. apply Hpost.
  - destruct (root_of w) as [| | |r] eqn:Hroot;
      apply pair_equal_spec in Hrun as [<- <-]; try apply Hpost.
    apply (Hev r); [done | cbn; by rewrite !String.eqb_refl |].
    intros p Hin. cbn in Hin. unfold artifacts. cbn. intuition (simplify_eq; auto).
Qed.

Lemma artifacts_are_written_in_place_witness :
  let E := Sample.host Sample.timeout in
  let w := World Sample.with_token Sample.claimed_files [] in
  exists es,
    trace (fst (guardian_claim.run E w)) = (trace w ++ es)%list
    /\ in_place_discipline es = true
    /\ fs (fst (guardian_claim.run E w)) = replay (umask E) (fs w) es
    /\ forall r p, root_of w = Py.PStr r -> In (EvOpenW p) es -> In p (artifacts r).
Proof.
  cbn zeta.
  exact (artifacts_are_written_in_place
           (Sample.host Sample.timeout)
           (World Sample.with_token Sample.claimed_files []) _ _
           (surjective_pairing _)).
Defined.

(** ** The fingerprint *)

Lemma cpu_loop_acc ls components :
  guardian_claim.cpu_loop ls components
  = ((components ++ fst (guardian_claim.cpu_loop ls []))%list,
     snd (guardian_claim.cpu_loop ls [])).
Proof.
  induction ls as [|line rest IH]; cbn.
  - by rewrite app_nil_r.
  - destruct (Py.startswith "model name" line); [|exact IH].
    destruct (Py.index (Py.split ":" line) 1); cbn; [done|by rewrite app_nil_r].
Qed.

Lemma cpu_loop_length ls : (length (fst (guardian_claim.cpu_loop ls [])) <= 1)%nat.
Proof.
  induction ls as [|line rest IH]; cbn; [lia|].
  destruct (Py.startswith "model name" line); [|exact IH].
  destruct (Py.index (Py.split ":" line) 1); cbn; lia.
Qed.

Lemma mac_loop_acc ls components :
  guardian_claim.mac_loop ls components
  = ((components ++ fst (guardian_claim.mac_loop ls []))%list,
     snd (guardian_claim.mac_loop ls [])).
Proof.
  revert components. induction ls as [|line rest IH]; intros components; cbn.
  - by rewrite app_nil_r.
  - destruct (Py.contains "link/ether" line); [|apply IH].
    destruct (Py.index (Py.split "link/ether" line) 1) as [after|]; cbn;
      [|by rewrite app_nil_r].
    destruct (Py.index (Py.split_ws after) 0) as [mac|]; cbn;
      [|by rewrite app_nil_r].
    rewrite (IH (components ++ [mac])%list), (IH [mac]). cbn.
    by rewrite <- app_assoc.
Qed.

Lemma fingerprint_components_eq E m :
  guardian_claim.fingerprint_components E m
  = (cpu_signal m ++ mac_signals E ++ [id_signal E m])%list.
Proof.
  unfold guardian_claim.fingerprint_components, cpu_signal, mac_signals, id_signal,
    guardian_claim.except_pass, guardian_claim.machine_id.
  set (c := fst (guardian_claim.cpu_info m [])).
  assert (Hmac : forall comps : list string,
             fst (guardian_claim.mac_addresses (ip_link_show E) comps)
             = (comps ++ fst (guardian_claim.mac_addresses (ip_link_show E) []))%list).
  { intros comps. unfold guardian_claim.mac_addresses.
    destruct (ip_link_show E); cbn; [|by rewrite app_nil_r].
    by rewrite mac_loop_acc. }
  rewrite (Hmac c).
  destruct (read_text m "/etc/machine-id"); cbn; by rewrite <- app_assoc.
Qed.

Lemma hex_digit_in x : In (SHA256.hex_digit x) hex_digits.
Proof.
  unfold SHA256.hex_digit. apply nth_In. cbn.
  pose proof (Z.mod_pos_bound x 16). lia.
Qed.

Lemma hex_of_regs_length s : String.length (SHA256.hex_of_regs s) = 64%nat.
Proof. reflexivity. Qed.

Lemma hex_of_regs_digits s c :
  In c (list_ascii_of_string (SHA256.hex_of_regs s)) -> In c hex_digits.
Proof.
  unfold SHA256.hex_of_regs, SHA256.hex32. cbn [list_ascii_of_string In].
  intros H. repeat (destruct H as [<- | H]; [apply hex_digit_in|]). destruct H.
Qed.

(** C9, as stated, fails: with no CPU description, no [ip] output and no
    machine identifier the digest is not the digest of the empty
    string: the missing identifier is replaced, not omitted, and the
    digest is the one of the random draw. *)
Lemma unreadable_machine_id_is_not_omitted :
  let E := Sample.host Sample.timeout in
  let w := World ∅ ∅ [] in
  cpu_signal (fs w) = [] /\ mac_signals E = [] /\
  read_text (fs w) "/etc/machine-id" = Py.Raise Py.OSError /\
  snd (guardian_claim.get_device_fingerprint E w)
  = Py.Ok ("sha256:" ++ SHA256.hexdigest (uuid4 E)) /\
  snd (guardian_claim.get_device_fingerprint E w)
  <> Py.Ok ("sha256:" ++ SHA256.hexdigest "").
Proof.
  cbn zeta. repeat split; try reflexivity. vm_compute. discriminate.
Qed.

(** C9, amended. Derivation is total and changes nothing: it returns,
    without raising, ["sha256:"] followed by 64 hexadecimal digits, the
    SHA-256 digest of the signals joined by ["|"]. An unavailable CPU
    description or [ip] output contributes nothing; an unreadable
    machine identifier is replaced by the random draw of the call, so at
    least one signal is always hashed. *)
Theorem fingerprint_is_total E w :
  exists d,
    guardian_claim.get_device_fingerprint E w = (w, Py.Ok ("sha256:" ++ d))
    /\ d = SHA256.hexdigest
             (Py.join "|" (cpu_signal (fs w) ++ mac_signals E ++ [id_signal E (fs w)]))
    /\ String.length d = 64%nat
    /\ (forall c, In c (list_ascii_of_string d) -> In c hex_digits)
    /\ (forall e, read_text (fs w) "/proc/cpuinfo" = Py.Raise e -> cpu_signal (fs w) = [])
    /\ (forall e, ip_link_show E = Py.Raise e -> mac_signals E = [])
    /\ (forall e, read_text (fs w) "/etc/machine-id" = Py.Raise e ->
                  id_signal E (fs w) = uuid4 E)
    /\ (forall text, read_text (fs w) "/etc/machine-id" = Py.Ok text ->
                     id_signal E (fs w) = Py.strip text).
Proof.
  eexists. split; [reflexivity|]. split; [by rewrite fingerprint_components_eq|].
  split; [apply hex_of_regs_length|]. split; [apply hex_of_regs_digits|].
  unfold cpu_signal, mac_signals, id_signal, guardian_claim.cpu_info,
    guardian_claim.mac_addresses.
  repeat split; intros ? H; by rewrite H.
Qed.

(** C2, as stated, fails: on a host without a machine identifier two
    derivations use two random draws; the first one persists nothing
    (the world it leaves is the one it found), and the fingerprints
    differ. *)
Lemma fingerprint_changes_without_machine_id :
  let E1 := Sample.host_drawing "123e4567-e89b-42d3-a456-426614174000" Sample.timeout in
  let E2 := Sample.host_drawing "9b2c1f0e-7a64-4d1b-8c3a-5e6f70819203" Sample.timeout in
  let w := World ∅ ∅ [] in
  read_text (fs w) "/etc/machine-id" = Py.Raise Py.OSError /\
  exists f1 f2,
    guardian_claim.get_device_fingerprint E1 w = (w, Py.Ok f1)
    /\ guardian_claim.get_device_fingerprint E2 w = (w, Py.Ok f2)
    /\ f1 <> f2.
Proof.
  cbn zeta. split; [reflexivity|].
  eexists. eexists. split; [reflexivity|]. split; [reflexivity|].
  vm_compute. discriminate.
Qed.

(** C2, amended. Take two derivations that see the same CPU
    description, the same [ip] output and the same machine-identifier
    file. Neither changes the world: nothing is persisted. If the
    machine identifier can be read, both return the same fingerprint,
    whatever the random draws and the rest of the environment. If it
    cannot, each returns the digest of the signals followed by its own
    random draw. *)
Theorem fingerprint_is_deterministic E1 E2 w1 w2 :
  read_text (fs w1) "/proc/cpuinfo" = read_text (fs w2) "/proc/cpuinfo" ->
  ip_link_show E1 = ip_link_show E2 ->
  read_text (fs w1) "/etc/machine-id" = read_text (fs w2) "/etc/machine-id" ->
  fst (guardian_claim.get_device_fingerprint E1 w1) = w1
  /\ fst (guardian_claim.get_device_fingerprint E2 w2) = w2
  /\ (forall mid,
        read_text (fs w1) "/etc/machine-id" = Py.Ok mid ->
        snd (guardian_claim.get_device_fingerprint E1 w1)
        = snd (guardian_claim.get_device_fingerprint E2 w2))
  /\ (forall e,
        read_text (fs w1) "/etc/machine-id" = Py.Raise e ->
        snd (guardian_claim.get_device_fingerprint E1 w1)
        = Py.Ok ("sha256:" ++ SHA256.hexdigest
                   (Py.join "|" (cpu_signal (fs w1) ++ mac_signals E1 ++ [uuid4 E1])))
        /\ snd (guardian_claim.get_device_fingerprint E2 w2)
           = Py.Ok ("sha256:" ++ SHA256.hexdigest
                      (Py.join "|" (cpu_signal (fs w1) ++ mac_signals E1 ++ [uuid4 E2])))).
Proof.
  intros Hcpu Hip Hmid. split; [done|]. split; [done|].
  unfold guardian_claim.get_device_fingerprint. cbn [snd].
  rewrite !fingerprint_components_eq.
  unfold cpu_signal, mac_signals, id_signal, guardian_claim.cpu_info.
  rewrite <- Hcpu, <- Hip, <- Hmid. split.
  - by intros mid ->.
  - by intros e ->.
Qed.

Lemma fingerprint_is_deterministic_witness :
  let E1 := Sample.host_drawing "123e4567-e89b-42d3-a456-426614174000" Sample.timeout in
  let E2 := Sample.host_drawing "9b2c1f0e-7a64-4d1b-8c3a-5e6f70819203" (Sample.status 500) in
  let w1 := World ∅ Sample.machine [] in
  let w2 := World Sample.with_token Sample.machine [] in
  snd (guardian_claim.get_device_fingerprint E1 w1)
  = snd (guardian_claim.get_device_fingerprint E2 w2)
  /\ snd (guardian_claim.get_device_fingerprint E1 w1)
     = Py.Ok "sha256:3eb1bd439947eb762998e566ccc2e099c791118b2f40579cc4f7da2b5061b7f9".
Proof.
  cbn zeta. split.
  - refine (proj1 (proj2 (proj2 (fingerprint_is_deterministic
                     (Sample.host_drawing "123e4567-e89b-42d3-a456-426614174000"
                        Sample.timeout)
                     (Sample.host_drawing "9b2c1f0e-7a64-4d1b-8c3a-5e6f70819203"
                        (Sample.status 500))
                     (World ∅ Sample.machine [])
                     (World Sample.with_token Sample.machine []) _ _ _)))
                  ("0123456789abcdef0123456789abcdef" ++ nl) _);
      reflexivity.
  - vm_compute. reflexivity.
Defined.

(** ** [guardian_auth.run] *)

Lemma auth_run_eq E w :
  guardian_auth.run E w
  = (if negb (Py.truthy (auth_email E w)) || negb (Py.truthy (auth_password E w))
     then (offline_world w, Py.Ok None)
     else except_request
            (let* response := requests_post (auth_request_of E w) in
             let '(status_code, text, data) := response in
             if status_code =? 200 then
               let parent_token := default Py.PNone (data !! "parent_access_token") in
               if Py.truthy parent_token then
                 do* gs_insert "guardian_parent_token" parent_token in
                 do* gs_insert "guardian_parent_email" (auth_email E w) in
                 do* open_w "/tmp/guardian_parent_token" in
                 do* f_write "/tmp/guardian_parent_token" parent_token in
                 do* os_chmod "/tmp/guardian_parent_token" perm_0o600 in
                 ret None
               else ret (Some ("Authentication failed", "Invalid response from server"))
             else ret (Some ("Authentication failed",
                             "Server returned " ++ Py.str_of_int status_code)))
            (do* gs_insert "guardian_offline_mode" (Py.PBool true) in
             do* gs_insert "guardian_pending_email" (auth_email E w) in
             do* gs_insert "guardian_pending_auth" (Py.PBool true) in
             ret None) E w).
Proof.
  unfold guardian_auth.run, auth_request_of, auth_endpoint, auth_email, auth_password,
    ui_email, ui_password, test_email, test_password, offline_world.
  unfold gs_value at 1 2 3, bind at 1 2 3.
  destruct (Py.truthy (default Py.PNone (gs w !! "guardian_auth_email"))) eqn:He;
    destruct (Py.truthy (default Py.PNone (gs w !! "guardian_auth_password"))) eqn:Hp;
    cbn [negb]; unfold environ_get, ret, bind at 1 2 3 4; cbn [negb orb].
  all: repeat match goal with
         | |- context [Py.truthy ?x] => destruct (Py.truthy x) eqn:?; cbn [negb orb]
         end; try reflexivity.
  all: destruct (Py.eq_str (default Py.PNone (gs w !! "guardian_auth_mode")) "register");
    reflexivity.
Qed.

Lemma auth_run_offline E w :
  Py.truthy (auth_email E w) = false \/ Py.truthy (auth_password E w) = false ->
  guardian_auth.run E w = (offline_world w, Py.Ok None).
Proof.
  intros H. rewrite auth_run_eq.
  destruct H as [-> | ->]; cbn [negb orb]; [done|].
  by rewrite orb_true_r.
Qed.

Lemma auth_run_posts E w :
  Py.truthy (auth_email E w) = true -> Py.truthy (auth_password E w) = true ->
  exists w' res rest,
    guardian_auth.run E w = (w', res)
    /\ trace w' = (trace w ++ EvPost (auth_request_of E w) :: rest)%list.
Proof.
  intros He Hp. rewrite auth_run_eq, He, Hp. cbn [negb orb].
  unfold except_request, bind at 1, requests_post.
  destruct (network E (auth_request_of E w)) as [sc tx js|].
  - destruct (sc =? 200).
    + destruct (Py.truthy (default Py.PNone (js !! "parent_access_token"))) eqn:Ht.
      * destruct (default Py.PNone (js !! "parent_access_token")) as [| | |tok];
          job_unfold; cbn; do 3 eexists; (split; [reflexivity|]);
          rewrite <- ?app_assoc; reflexivity.
      * do 3 eexists. split; [reflexivity|]. cbn. reflexivity.
    + do 3 eexists. split; [reflexivity|]. cbn. reflexivity.
  - job_unfold. cbn. do 3 eexists. split; [reflexivity|]. reflexivity.
Qed.

(** C5, as stated, fails: with no e-mail and no password from the UI,
    but both test variables set in the environment, [run] posts a login
    request; with a backend that accepts it the device is not marked
    offline, and the claim module that runs next leaves it Claimed: the
    configuration file ends in the line [GUARDIAN_DEVICE_JWT=abc]. *)
Lemma empty_ui_credentials_reach_the_network :
  let E := Sample.test_host in
  let w := World ∅ Sample.machine [] in
  Py.truthy (ui_email w) = false /\ Py.truthy (ui_password w) = false /\
  exists w1 w2 q rest,
    guardian_auth.run E w = (w1, Py.Ok None)
    /\ trace w1 = EvPost q :: rest
    /\ offline w1 = false
    /\ guardian_claim.run E w1 = (w2, Py.Ok None)
    /\ Claimed "/" (fs w2) "abc" "XYZ-123"
    /\ fs w2 !! "/etc/guardian/supabase.env"
       = Some (File
                 ("# Guardian OS Supabase Configuration" ++ nl ++
                  "# Generated during installation" ++ nl ++
                  "SUPABASE_URL=https://xzxjwuzwltoapifcyzww.supabase.co" ++ nl ++
                  "GUARDIAN_API_BASE=https://xzxjwuzwltoapifcyzww.supabase.co/functions/v1" ++ nl ++
                  nl ++
                  "# API Endpoints" ++ nl ++
                  "GUARDIAN_AUTH_LOGIN_URL=$GUARDIAN_API_BASE/auth-login" ++ nl ++
                  "GUARDIAN_AUTH_REGISTER_URL=$GUARDIAN_API_BASE/auth-register" ++ nl ++
                  "GUARDIAN_CLAIM_URL=$GUARDIAN_API_BASE/bind-device" ++ nl ++
                  "GUARDIAN_HEARTBEAT_URL=$GUARDIAN_API_BASE/device-heartbeat" ++ nl ++
                  nl ++
                  "# Device JWT (obtained during installation)" ++ nl ++
                  "GUARDIAN_DEVICE_JWT=abc" ++ nl)
                 384)
    /\ fs w2 !! "/etc/guardian/device_code" = Some (File "XYZ-123" 384)
    /\ fs w2 !! "/etc/guardian/pending_activation.json" = None.
Proof.
  cbn zeta. split; [reflexivity|]. split; [reflexivity|].
  do 4 eexists. split; [vm_compute; reflexivity|].
  split; [reflexivity|]. split; [reflexivity|].
  split; [vm_compute; reflexivity|].
  split; [split; [discriminate|]; split; vm_compute; reflexivity|].
  split; [vm_compute; reflexivity|]. split; vm_compute; reflexivity.
Qed.

(** C5, amended. When the UI supplies neither e-mail nor password and
    the environment does not supply both test credentials, [run]
    performs no event at all (no request is posted), records offline mode
    in global storage and returns success. The claim module that runs
    on this state posts no request either and returns success; it
    writes the pending-activation record (the pending e-mail of global
    storage, the fingerprint, the UTC timestamp) and a configuration
    file whose last line is [GUARDIAN_DEVICE_JWT=], both with mode
    0600, and leaves the device-code file and global storage alone:
    the device is pending, and for no credential and no code is it
    claimed. *)
Theorem no_credentials_means_offline E w :
  Py.truthy (ui_email w) = false ->
  Py.truthy (ui_password w) = false ->
  test_email E = "" \/ test_password E = "" ->
  guardian_auth.run E w = (offline_world w, Py.Ok None)
  /\ gs (offline_world w) = <["guardian_offline_mode" := Py.PBool true]> (gs w)
  /\ fs (offline_world w) = fs w
  /\ trace (offline_world w) = trace w
  /\ offline (offline_world w) = true
  /\ forall E' r,
       root_of w = Py.PStr r ->
       exists w2 es,
         guardian_claim.run E' (offline_world w) = (w2, Py.Ok None)
         /\ trace w2 = (trace w ++ es)%list
         /\ existsb is_post es = false
         /\ fs w2 !! pending_file r
            = Some (File (Json.dumps
                            [("email", default Py.PNone (gs w !! "guardian_pending_email"));
                             ("fingerprint", Py.PStr (fingerprint_of E' (fs w)));
                             ("timestamp", Py.PStr (Py.strip (date_utc E')))])
                         perm_0o600)
         /\ fs w2 !! env_file r
            = Some (File
                      ("# Guardian OS Supabase Configuration" ++ nl ++
                       "# Generated during installation" ++ nl ++
                       "SUPABASE_URL=https://xzxjwuzwltoapifcyzww.supabase.co" ++ nl ++
                       "GUARDIAN_API_BASE=https://xzxjwuzwltoapifcyzww.supabase.co/functions/v1" ++ nl ++
                       nl ++
                       "# API Endpoints" ++ nl ++
                       "GUARDIAN_AUTH_LOGIN_URL=$GUARDIAN_API_BASE/auth-login" ++ nl ++
                       "GUARDIAN_AUTH_REGISTER_URL=$GUARDIAN_API_BASE/auth-register" ++ nl ++
                       "GUARDIAN_CLAIM_URL=$GUARDIAN_API_BASE/bind-device" ++ nl ++
                       "GUARDIAN_HEARTBEAT_URL=$GUARDIAN_API_BASE/device-heartbeat" ++ nl ++
                       nl ++
                       "# Device JWT (obtained during installation)" ++ nl ++
                       "GUARDIAN_DEVICE_JWT=" ++ nl)
                      perm_0o600)
         /\ fs w2 !! device_code_file r = fs w !! device_code_file r
         /\ gs w2 = gs (offline_world w)
         /\ forall jwt code, ~ Claimed r (fs w2) jwt code.
Proof.
  intros He Hp Henv.
  assert (Hoff : offline (offline_world w) = true).
  { unfold offline, offline_world. cbn [gs]. by rewrite lookup_insert_eq. }
  split; [|split; [reflexivity|split; [reflexivity|split; [reflexivity|split; [exact Hoff|]]]]].
  - apply auth_run_offline. unfold auth_email, auth_password. rewrite He, Hp.
    cbn [negb]. destruct Henv as [-> | ->]; [by left | by right].
  - intros E' r Hroot.
    assert (Hroot' : root_of (offline_world w) = Py.PStr r).
    { unfold root_of, offline_world in *. cbn [gs].
      by rewrite lookup_insert_ne. }
    assert (Hmail : gs (offline_world w) !! "guardian_pending_email"
                    = gs w !! "guardian_pending_email").
    { unfold offline_world. cbn [gs]. by rewrite lookup_insert_ne. }
    eexists. exists (offline_events E' (offline_world w) r).
    split; [by apply run_offline|].
    unfold performs. cbn [fs gs trace].
    rewrite replay_offline_events.
    split; [reflexivity|]. split; [reflexivity|].
    split; [|split; [|split; [|split; [reflexivity|]]]].
    + rewrite lookup_insert_ne by apply env_file_ne_pending.
      rewrite lookup_insert_eq. unfold pending_record. rewrite Hmail. reflexivity.
    + rewrite lookup_insert_eq. reflexivity.
    + rewrite lookup_insert_ne by apply env_file_ne_code.
      by rewrite lookup_insert_ne by apply pending_ne_code.
    + intros jwt code (Hne & Hcfg & _). unfold stored_config in Hcfg.
      rewrite lookup_insert_eq in Hcfg. apply Hne. symmetry.
      apply (config_inj "" jwt). apply (inj Some). exact Hcfg.
Qed.

Lemma no_credentials_means_offline_witness :
  guardian_auth.run Sample.half_host (World ∅ Sample.machine [])
  = (World (<["guardian_offline_mode" := Py.PBool true]> ∅) Sample.machine [], Py.Ok None)
  /\ exists w2 es,
       guardian_claim.run Sample.half_host
         (World (<["guardian_offline_mode" := Py.PBool true]> ∅) Sample.machine [])
       = (w2, Py.Ok None)
       /\ trace w2 = es
       /\ existsb is_post es = false
       /\ fs w2 !! "/etc/guardian/pending_activation.json"
          = Some (File
                    ("{" ++ nl ++
                     "  " ++ dquote ++ "email" ++ dquote ++ ": " ++ "null" ++ "," ++ nl ++
                     "  " ++ dquote ++ "fingerprint" ++ dquote ++ ": " ++ dquote
                          ++ "sha256:3eb1bd439947eb762998e566ccc2e099c791118b2f40579cc4f7da2b5061b7f9"
                          ++ dquote ++ "," ++ nl ++
                     "  " ++ dquote ++ "timestamp" ++ dquote ++ ": "
                          ++ dquote ++ "2026-01-02T03:04:05Z" ++ dquote ++ nl ++
                     "}")
                    384)
       /\ fs w2 !! "/etc/guardian/supabase.env"
          = Some (File
                    ("# Guardian OS Supabase Configuration" ++ nl ++
                     "# Generated during installation" ++ nl ++
                     "SUPABASE_URL=https://xzxjwuzwltoapifcyzww.supabase.co" ++ nl ++
                     "GUARDIAN_API_BASE=https://xzxjwuzwltoapifcyzww.supabase.co/functions/v1" ++ nl ++
                     nl ++
                     "# API Endpoints" ++ nl ++
                     "GUARDIAN_AUTH_LOGIN_URL=$GUARDIAN_API_BASE/auth-login" ++ nl ++
                     "GUARDIAN_AUTH_REGISTER_URL=$GUARDIAN_API_BASE/auth-register" ++ nl ++
                     "GUARDIAN_CLAIM_URL=$GUARDIAN_API_BASE/bind-device" ++ nl ++
                     "GUARDIAN_HEARTBEAT_URL=$GUARDIAN_API_BASE/device-heartbeat" ++ nl ++
                     nl ++
                     "# Device JWT (obtained during installation)" ++ nl ++
                     "GUARDIAN_DEVICE_JWT=" ++ nl)
                    384)
       /\ fs w2 !! "/etc/guardian/device_code" = None.
Proof.
  destruct (no_credentials_means_offline Sample.half_host (World ∅ Sample.machine []))
    as (Hrun & _ & _ & _ & _ & Hclaim).
  - reflexivity.
  - reflexivity.
  - right. reflexivity.
  - split; [exact Hrun|].
    destruct (Hclaim Sample.half_host "/" eq_refl)
      as (w2 & es & Hrun2 & Htr & Hpost & Hpend & Hcfg & Hcode & _).
    exists w2, es. split; [exact Hrun2|]. split; [exact Htr|]. split; [exact Hpost|].
    split; [|split].
    + change (pending_file "/") with "/etc/guardian/pending_activation.json" in Hpend.
      rewrite Hpend. vm_compute. reflexivity.
    + change (env_file "/") with "/etc/guardian/supabase.env" in Hcfg.
      rewrite Hcfg. vm_compute. reflexivity.
    + change (device_code_file "/") with "/etc/guardian/device_code" in Hcode.
      rewrite Hcode. reflexivity.
Defined.

(** C10, as stated, fails: the offline outcome does not need both
    variables unset or empty. With no credentials from the UI and an
    environment that sets GUARDIAN_TEST_EMAIL only, [run] goes offline
    whatever the world and the backend are. *)
Lemma offline_with_one_test_variable_set :
  let environment : gmap string string :=
    {["GUARDIAN_TEST_EMAIL" := "parent@example.com"]} in
  (environment !! "GUARDIAN_TEST_EMAIL" = Some "parent@example.com"
   /\ environment !! "GUARDIAN_TEST_PASSWORD" = None)
  /\ guardian_auth.run Sample.half_host (World ∅ Sample.machine [])
     = (World (<["guardian_offline_mode" := Py.PBool true]> ∅) Sample.machine [],
        Py.Ok None)
  /\ (forall E w,
        environ E = environment ->
        Py.truthy (default Py.PNone (gs w !! "guardian_auth_email")) = false ->
        Py.truthy (default Py.PNone (gs w !! "guardian_auth_password")) = false ->
        guardian_auth.run E w
        = (World (<["guardian_offline_mode" := Py.PBool true]> (gs w)) (fs w) (trace w),
           Py.Ok None)).
Proof.
  cbn zeta. split; [split; reflexivity|]. split; [vm_compute; reflexivity|].
  intros E w Henv He Hp. apply auth_run_offline. right.
  unfold auth_password, ui_password, test_password. rewrite Hp, Henv. reflexivity.
Qed.

(** C10, amended. [run] takes each credential that the UI has not
    supplied from the environment, GUARDIAN_TEST_EMAIL for the e-mail and
    GUARDIAN_TEST_PASSWORD for the password, before it decides. It takes
    the offline path (offline mode recorded, nothing posted, success)
    exactly when at least one of the two resulting credentials is
    empty; when both are there it posts the request built from them.
    So with no credentials from the UI the offline outcome is there if
    and only if at least one of the two variables is unset or empty. *)
Theorem test_credentials_come_before_offline E w :
  let email :=
    if Py.truthy (ui_email w) then ui_email w
    else Py.PStr (default "" (environ E !! "GUARDIAN_TEST_EMAIL")) in
  let password :=
    if Py.truthy (ui_password w) then ui_password w
    else Py.PStr (default "" (environ E !! "GUARDIAN_TEST_PASSWORD")) in
  let goes_offline :=
    guardian_auth.run E w
    = (World (<["guardian_offline_mode" := Py.PBool true]> (gs w)) (fs w) (trace w),
       Py.Ok None) in
  (goes_offline <-> Py.truthy email = false \/ Py.truthy password = false)
  /\ (Py.truthy email = true ->
      Py.truthy password = true ->
      exists w' res rest,
        guardian_auth.run E w = (w', res)
        /\ trace w'
           = (trace w
              ++ EvPost (guardian_auth.auth_request (auth_endpoint w) email password)
              :: rest)%list)
  /\ (Py.truthy (ui_email w) = false ->
      Py.truthy (ui_password w) = false ->
      (goes_offline
       <-> default "" (environ E !! "GUARDIAN_TEST_EMAIL") = ""
           \/ default "" (environ E !! "GUARDIAN_TEST_PASSWORD") = "")).
Proof.
  intros email password goes_offline.
  assert (Hae : auth_email E w = email).
  { unfold auth_email, email, test_email. by destruct (Py.truthy (ui_email w)). }
  assert (Hap : auth_password E w = password).
  { unfold auth_password, password, test_password. by destruct (Py.truthy (ui_password w)). }
  assert (Hposts : Py.truthy email = true -> Py.truthy password = true ->
                   exists w' res rest,
                     guardian_auth.run E w = (w', res)
                     /\ trace w'
                        = (trace w
                           ++ EvPost (guardian_auth.auth_request (auth_endpoint w)
                                        email password)
                           :: rest)%list).
  { intros He Hp. destruct (auth_run_posts E w) as (w' & res & rest & Hrun & Htr).
    - by rewrite Hae.
    - by rewrite Hap.
    - exists w', res, rest. split; [done|].
      rewrite Htr. unfold auth_request_of. by rewrite Hae, Hap. }
  assert (Hiff : goes_offline <-> Py.truthy email = false \/ Py.truthy password = false).
  { split.
    - intros Hrun. destruct (Py.truthy email) eqn:He; [|by left].
      destruct (Py.truthy password) eqn:Hp; [|by right].
      destruct (Hposts eq_refl eq_refl) as (w' & res & rest & Hrun' & Htr).
      unfold goes_offline in Hrun. rewrite Hrun in Hrun'.
      apply pair_equal_spec in Hrun' as [<- _]. cbn [trace] in Htr.
      apply (f_equal (@length event)) in Htr. rewrite length_app in Htr.
      cbn [length] in Htr. lia.
    - intros H. apply auth_run_offline. by rewrite Hae, Hap. }
  split; [exact Hiff|]. split; [exact Hposts|].
  intros He Hp. rewrite Hiff. unfold email, password. rewrite He, Hp.
  unfold Py.truthy.
  split; (intros [H|H]; [left|right]);
    match type of H with
    | context [default "" ?x] => destruct (default "" x); done
    end.
Qed.

Lemma test_credentials_come_before_offline_witness :
  guardian_auth.run Sample.half_host (World ∅ Sample.machine [])
  = (World (<["guardian_offline_mode" := Py.PBool true]> ∅) Sample.machine [], Py.Ok None)
  /\ exists w' res rest,
       guardian_auth.run Sample.test_host (World ∅ Sample.machine []) = (w', res)
       /\ trace w'
          = EvPost (guardian_auth.auth_request
                      "https://xzxjwuzwltoapifcyzww.supabase.co/functions/v1/auth-login"
                      (Py.PStr "parent@example.com") (Py.PStr "secret"))
            :: rest.
Proof.
  split.
  - refine (proj2 (proj2 (proj2 (test_credentials_come_before_offline
                                   Sample.half_host (World ∅ Sample.machine [])))
                         _ _) _).
    + reflexivity.
    + reflexivity.
    + right. reflexivity.
  - refine (proj1 (proj2 (test_credentials_come_before_offline
                            Sample.test_host (World ∅ Sample.machine [])))
                  _ _); reflexivity.
Defined.

(** ** [guardian_auth.run] as a table *)

Lemma auth_table_eq E w : guardian_auth.run E w = auth_table E w.
Proof.
  rewrite auth_run_eq. unfold auth_table.
  destruct (negb (Py.truthy (auth_email E w)) || negb (Py.truthy (auth_password E w)));
    [reflexivity|].
  unfold except_request, bind at 1, requests_post.
  destruct (network E (auth_request_of E w)) as [sc tx js|].
  - destruct (sc =? 200); [|reflexivity].
    destruct (Py.truthy (default Py.PNone (js !! "parent_access_token"))) eqn:Ht;
      [|reflexivity].
    unfold session_storage, write_events, token_handoff_file.
    destruct (default Py.PNone (js !! "parent_access_token")) as [| | |tok];
      job_unfold; cbn; rewrite <- ?app_assoc; reflexivity.
  - reflexivity.
Qed.
(** ** [guardian_auth.run]: further properties *)

(** X1. A request that fails in transport is not an error: [run] returns
    success, records offline mode, the e-mail that was entered and a
    marker in global storage, leaves every other key and every file as
    it was, and has posted exactly one request. *)
Theorem auth_transport_failure_defers E w :
  Py.truthy (auth_email E w) = true ->
  Py.truthy (auth_password E w) = true ->
  network E (auth_request_of E w) = RequestFailed ->
  exists w',
    guardian_auth.run E w = (w', Py.Ok None)
    /\ gs w' !! "guardian_offline_mode" = Some (Py.PBool true)
    /\ gs w' !! "guardian_pending_email" = Some (auth_email E w)
    /\ gs w' !! "guardian_pending_auth" = Some (Py.PBool true)
    /\ (forall k, k <> "guardian_offline_mode" -> k <> "guardian_pending_email" ->
                  k <> "guardian_pending_auth" -> gs w' !! k = gs w !! k)
    /\ fs w' = fs w
    /\ trace w' = (trace w ++ [EvPost (auth_request_of E w)])%list.
Proof.
  intros He Hp Hnet. rewrite auth_table_eq. unfold auth_table.
  rewrite He, Hp, Hnet. cbn [negb orb]. eexists. split; [reflexivity|].
  unfold deferred_storage. cbn [gs fs trace].
  repeat split; try by simplify_map_eq.
  intros k H1 H2 H3. by simplify_map_eq.
Qed.

Lemma auth_transport_failure_defers_witness :
  exists w',
    guardian_auth.run (Cases.tester Sample.timeout)
                      (World ∅ Sample.machine [])
    = (w', Py.Ok None)
    /\ gs w' !! "guardian_pending_email" = Some (Py.PStr "parent@example.com")
    /\ fs w' = Sample.machine.
Proof.
  destruct (auth_transport_failure_defers
              (Cases.tester Sample.timeout)
              (World ∅ Sample.machine []))
    as (w' & Hrun & _ & Hmail & _ & _ & Hfs & _).
  - reflexivity.
  - reflexivity.
  - reflexivity.
  - exists w'. split; [exact Hrun|]. split; [exact Hmail | exact Hfs].
Defined.

(** X2. A 200 reply that carries a non-empty string token opens the
    session: [run] returns success, stores the token and the e-mail in
    global storage, and writes the token, and nothing but the token,
    to the hand-off file with mode 0600. No other file and no other key
    changes; offline mode is not recorded. *)
Theorem auth_success_hands_token_over E w tx js t :
  Py.truthy (auth_email E w) = true ->
  Py.truthy (auth_password E w) = true ->
  network E (auth_request_of E w) = Response 200 tx js ->
  js !! "parent_access_token" = Some (Py.PStr t) ->
  t <> "" ->
  exists w',
    guardian_auth.run E w = (w', Py.Ok None)
    /\ gs w' !! "guardian_parent_token" = Some (Py.PStr t)
    /\ gs w' !! "guardian_parent_email" = Some (auth_email E w)
    /\ (forall k, k <> "guardian_parent_token" -> k <> "guardian_parent_email" ->
                  gs w' !! k = gs w !! k)
    /\ fs w' !! token_handoff_file = Some (File t perm_0o600)
    /\ (forall p, p <> token_handoff_file -> fs w' !! p = fs w !! p).
Proof.
  intros He Hp Hnet Htok Hne. rewrite auth_table_eq. unfold auth_table.
  assert (Ht : Py.truthy (Py.PStr t) = true) by (destruct t; [done|reflexivity]).
  rewrite He, Hp, Hnet, Htok.
  change (default Py.PNone (Some (Py.PStr t))) with (Py.PStr t).
  change (200 =? 200) with true. rewrite Ht. lazy beta iota zeta.
  eexists. split; [reflexivity|].
  unfold session_storage. cbn [gs fs]. rewrite replay_write_events.
  repeat split; try by simplify_map_eq.
  - intros k H1 H2. by simplify_map_eq.
  - intros p Hp'. by simplify_map_eq.
Qed.

Lemma auth_success_hands_token_over_witness :
  exists w',
    guardian_auth.run Sample.test_host (World ∅ Sample.machine []) = (w', Py.Ok None)
    /\ gs w' !! "guardian_parent_token" = Some (Py.PStr "tok")
    /\ fs w' !! token_handoff_file = Some (File "tok" perm_0o600).
Proof.
  destruct (auth_success_hands_token_over Sample.test_host (World ∅ Sample.machine [])
              "" {["parent_access_token" := Py.PStr "tok"]} "tok")
    as (w' & Hrun & Htok & _ & _ & Hfile & _).
  - reflexivity.
  - reflexivity.
  - reflexivity.
  - reflexivity.
  - discriminate.
  - exists w'. split; [exact Hrun|]. split; [exact Htok | exact Hfile].
Defined.

(** X3. A reply that does not open a session is a user-visible failure
    that stores nothing: a status other than 200 gives ("Authentication
    failed", "Server returned N"), a 200 reply whose token is missing,
    null or empty gives ("Authentication failed", "Invalid response from
    server"); in both cases global storage and files are unchanged. *)
Theorem auth_rejection_stores_nothing E w sc tx js :
  Py.truthy (auth_email E w) = true ->
  Py.truthy (auth_password E w) = true ->
  network E (auth_request_of E w) = Response sc tx js ->
  sc <> 200 \/ Py.truthy (default Py.PNone (js !! "parent_access_token")) = false ->
  exists w' detail,
    guardian_auth.run E w = (w', Py.Ok (Some ("Authentication failed", detail)))
    /\ detail = (if sc =? 200 then "Invalid response from server"
                 else "Server returned " ++ Py.str_of_int sc)
    /\ gs w' = gs w
    /\ fs w' = fs w.
Proof.
  intros He Hp Hnet Hrej. rewrite auth_table_eq. unfold auth_table.
  rewrite He, Hp, Hnet. cbn [negb orb].
  destruct (Z.eqb_spec sc 200) as [->|Hsc].
  - destruct Hrej as [? | ->]; [done|]. do 2 eexists. split; [reflexivity|]. done.
  - do 2 eexists. split; [reflexivity|]. done.
Qed.

Lemma auth_rejection_stores_nothing_witness :
  exists w',
    guardian_auth.run (Cases.tester (Sample.status 401)) (World ∅ Sample.machine [])
    = (w', Py.Ok (Some ("Authentication failed", "Server returned 401")))
    /\ gs w' = ∅.
Proof.
  destruct (auth_rejection_stores_nothing (Cases.tester (Sample.status 401))
              (World ∅ Sample.machine []) 401 "" ∅)
    as (w' & detail & Hrun & -> & Hgs & _).
  - reflexivity.
  - reflexivity.
  - reflexivity.
  - left. discriminate.
  - exists w'. split; [exact Hrun | exact Hgs].
Defined.

(** X4. The password is sent and never stored. Whatever the outcome,
    also when [run] raises, every value found in global storage
    afterwards was there before or is [True], the e-mail, or the token
    of the reply; no key is removed; and the only data written to a
    file is that token, to the hand-off file. *)
Theorem auth_stores_no_password E w w' res :
  guardian_auth.run E w = (w', res) ->
  (forall k v,
     gs w' !! k = Some v ->
     gs w !! k = Some v \/ v = Py.PBool true \/ v = auth_email E w
     \/ exists sc tx js,
          network E (auth_request_of E w) = Response sc tx js
          /\ js !! "parent_access_token" = Some v)
  /\ (forall k, is_Some (gs w !! k) -> is_Some (gs w' !! k))
  /\ exists es,
       trace w' = (trace w ++ es)%list
       /\ forall p d,
            In (EvWrite p d) es ->
            p = token_handoff_file
            /\ exists sc tx js,
                 network E (auth_request_of E w) = Response sc tx js
                 /\ js !! "parent_access_token" = Some (Py.PStr d).
Proof.
  intros Hrun. rewrite auth_table_eq in Hrun. unfold auth_table in Hrun.
  assert (Hkeep : forall (m : gmap string Py.pyval) k,
             is_Some (gs w !! k) -> (forall j, is_Some (gs w !! j) -> is_Some (m !! j)) ->
             is_Some (m !! k)) by auto.
  destruct (negb (Py.truthy (auth_email E w)) || negb (Py.truthy (auth_password E w))).
  { apply pair_equal_spec in Hrun as [<- _]. unfold offline_world. cbn [gs trace].
    split; [|split].
    - intros k v. destruct (decide (k = "guardian_offline_mode")) as [->|Hk].
      + rewrite lookup_insert_eq. intros [= <-]. auto.
      + rewrite lookup_insert_ne by done. auto.
    - intros k Hk. destruct (decide (k = "guardian_offline_mode")) as [->|Hne].
      + rewrite lookup_insert_eq. by eexists.
      + by rewrite lookup_insert_ne.
    - exists []. rewrite app_nil_r. split; [done|]. intros ? ? []. }
  destruct (network E (auth_request_of E w)) as [sc tx js|] eqn:Hnet.
  - destruct (sc =? 200).
    2:{ apply pair_equal_spec in Hrun as [<- _]. cbn [gs trace].
        split; [auto|]. split; [auto|]. eexists. split; [reflexivity|].
        intros p d [H|[]]. discriminate. }
    destruct (Py.truthy (default Py.PNone (js !! "parent_access_token"))) eqn:Ht.
    2:{ apply pair_equal_spec in Hrun as [<- _]. cbn [gs trace].
        split; [auto|]. split; [auto|]. eexists. split; [reflexivity|].
        intros p d [H|[]]. discriminate. }
    assert (Htok : js !! "parent_access_token"
                   = Some (default Py.PNone (js !! "parent_access_token"))).
    { destruct (js !! "parent_access_token"); [reflexivity | discriminate]. }
    assert (Hgs : (forall k v,
               session_storage E w (default Py.PNone (js !! "parent_access_token")) !! k
               = Some v ->
               gs w !! k = Some v \/ v = Py.PBool true \/ v = auth_email E w
               \/ exists sc' tx' js',
                    Response sc tx js = Response sc' tx' js'
                    /\ js' !! "parent_access_token" = Some v)
             /\ (forall k, is_Some (gs w !! k) ->
                   is_Some (session_storage E w
                              (default Py.PNone (js !! "parent_access_token")) !! k))).
    { unfold session_storage. split.
      - intros k v. destruct (decide (k = "guardian_parent_email")) as [->|Hk1].
        { rewrite lookup_insert_eq. intros [= <-]. auto. }
        rewrite lookup_insert_ne by done.
        destruct (decide (k = "guardian_parent_token")) as [->|Hk2].
        { rewrite lookup_insert_eq. intros [= <-]. right. right. right.
          exists sc, tx, js. split; [reflexivity | exact Htok]. }
        rewrite lookup_insert_ne by done. auto.
      - intros k Hk. destruct (decide (k = "guardian_parent_email")) as [->|Hk1].
        { rewrite lookup_insert_eq. by eexists. }
        rewrite lookup_insert_ne by done.
        destruct (decide (k = "guardian_parent_token")) as [->|Hk2].
        { rewrite lookup_insert_eq. by eexists. }
        by rewrite lookup_insert_ne. }
    destruct Hgs as [Hgs1 Hgs2].
    destruct (default Py.PNone (js !! "parent_access_token")) as [| | |t] eqn:Hd;
      apply pair_equal_spec in Hrun as [<- _]; cbn [gs trace];
      (split; [exact Hgs1|]); (split; [exact Hgs2|]);
      eexists; (split; [reflexivity|]); intros p d Hin; cbn in Hin.
    1-3: intuition discriminate.
    destruct Hin as [H|[H|[H|[H|[]]]]]; try discriminate.
    injection H as <- <-. split; [reflexivity|].
    exists sc, tx, js. split; [reflexivity | exact Htok].
  - apply pair_equal_spec in Hrun as [<- _]. cbn [gs trace]. unfold deferred_storage.
    split; [|split].
    + intros k v.
      destruct (decide (k = "guardian_pending_auth")) as [->|Hk1].
      { rewrite lookup_insert_eq. intros [= <-]. auto. }
      rewrite lookup_insert_ne by done.
      destruct (decide (k = "guardian_pending_email")) as [->|Hk2].
      { rewrite lookup_insert_eq. intros [= <-]. auto. }
      rewrite lookup_insert_ne by done.
      destruct (decide (k = "guardian_offline_mode")) as [->|Hk3].
      { rewrite lookup_insert_eq. intros [= <-]. auto. }
      rewrite lookup_insert_ne by done. auto.
    + intros k Hk.
      destruct (decide (k = "guardian_pending_auth")) as [->|Hk1].
      { rewrite lookup_insert_eq. by eexists. }
      rewrite lookup_insert_ne by done.
      destruct (decide (k = "guardian_pending_email")) as [->|Hk2].
      { rewrite lookup_insert_eq. by eexists. }
      rewrite lookup_insert_ne by done.
      destruct (decide (k = "guardian_offline_mode")) as [->|Hk3].
      { rewrite lookup_insert_eq. by eexists. }
      by rewrite lookup_insert_ne.
    + eexists. split; [reflexivity|]. intros p d [H|[]]. discriminate.
Qed.

Lemma auth_stores_no_password_witness :
  exists es,
    trace (fst (guardian_auth.run Sample.test_host (World ∅ Sample.machine [])))
    = ([] ++ es)%list
    /\ forall p d,
         In (EvWrite p d) es ->
         p = token_handoff_file
         /\ exists sc tx js,
              network Sample.test_host
                (auth_request_of Sample.test_host (World ∅ Sample.machine []))
              = Response sc tx js
              /\ js !! "parent_access_token" = Some (Py.PStr d).
Proof.
  exact (proj2 (proj2 (auth_stores_no_password Sample.test_host
                         (World ∅ Sample.machine []) _ _ (surjective_pairing _)))).
Defined.

(** X5. [run] posts at most one request and never retries: none when a
    credential is missing, exactly one otherwise. The request goes to
    the register endpoint when the mode in global storage is the string
    "register" and to the login endpoint for every other mode, a missing
    one included; its body is the e-mail and the password, and it
    carries no authorization header. *)
Theorem auth_posts_at_most_once E w w' res :
  guardian_auth.run E w = (w', res) ->
  exists es,
    trace w' = (trace w ++ es)%list
    /\ List.filter is_post es
       = (if negb (Py.truthy (auth_email E w)) || negb (Py.truthy (auth_password E w))
          then []
          else [EvPost (HttpRequest
                          (if Py.eq_str (default Py.PNone (gs w !! "guardian_auth_mode"))
                                        "register"
                           then guardian_auth.AUTH_REGISTER_URL
                           else guardian_auth.AUTH_LOGIN_URL)
                          [("email", auth_email E w); ("password", auth_password E w)]
                          [("Content-Type", "application/json")])]).
Proof.
  intros Hrun. rewrite auth_table_eq in Hrun. unfold auth_table in Hrun.
  change (HttpRequest _ _ _) with (auth_request_of E w).
  destruct (negb (Py.truthy (auth_email E w)) || negb (Py.truthy (auth_password E w))).
  { apply pair_equal_spec in Hrun as [<- _]. exists []. cbn. by rewrite app_nil_r. }
  destruct (network E (auth_request_of E w)) as [sc tx js|].
  - destruct (sc =? 200).
    + destruct (Py.truthy (default Py.PNone (js !! "parent_access_token"))).
      * destruct (default Py.PNone (js !! "parent_access_token"));
          apply pair_equal_spec in Hrun as [<- _]; eexists; split; reflexivity.
      * apply pair_equal_spec in Hrun as [<- _]. eexists. split; reflexivity.
    + apply pair_equal_spec in Hrun as [<- _]. eexists. split; reflexivity.
  - apply pair_equal_spec in Hrun as [<- _]. eexists. split; reflexivity.
Qed.

Lemma auth_posts_at_most_once_witness :
  exists es,
    trace (fst (guardian_auth.run Sample.test_host
                  (World {["guardian_auth_mode" := Py.PStr "signup"]} Sample.machine [])))
    = ([] ++ es)%list
    /\ List.filter is_post es
       = [EvPost (HttpRequest guardian_auth.AUTH_LOGIN_URL
                    [("email", Py.PStr "parent@example.com");
                     ("password", Py.PStr "secret")]
                    [("Content-Type", "application/json")])].
Proof.
  exact (auth_posts_at_most_once Sample.test_host
           (World {["guardian_auth_mode" := Py.PStr "signup"]} Sample.machine [])
           _ _ (surjective_pairing _)).
Defined.

(** X6. A 200 reply whose token is true-like but not a string (a JSON
    number, say) makes [run] raise a [TypeError] half-way: token and
    e-mail are already in global storage and the hand-off file has been
    created or truncated, left empty, with the mode it had or the one
    the umask gives. *)
Theorem auth_non_string_token_raises E w tx js v :
  Py.truthy (auth_email E w) = true ->
  Py.truthy (auth_password E w) = true ->
  network E (auth_request_of E w) = Response 200 tx js ->
  js !! "parent_access_token" = Some v ->
  Py.truthy v = true ->
  is_str v = false ->
  exists w',
    guardian_auth.run E w = (w', Py.Raise Py.TypeError)
    /\ gs w' !! "guardian_parent_token" = Some v
    /\ gs w' !! "guardian_parent_email" = Some (auth_email E w)
    /\ fs w' !! token_handoff_file
       = Some (File "" (default (create_mode (umask E))
                          (mode <$> fs w !! token_handoff_file))).
Proof.
  intros He Hp Hnet Htok Ht Hstr. rewrite auth_table_eq. unfold auth_table.
  rewrite He, Hp, Hnet, Htok.
  change (default Py.PNone (Some v)) with v.
  change (200 =? 200) with true. rewrite Ht. lazy beta iota zeta.
  assert (Hfile : replay (umask E) (fs w) [EvOpenW token_handoff_file]
                  !! token_handoff_file
                  = Some (File "" (default (create_mode (umask E))
                                     (mode <$> fs w !! token_handoff_file)))).
  { unfold replay. cbn [fold_left apply_event].
    destruct (fs w !! token_handoff_file); cbn; by rewrite lookup_insert_eq. }
  destruct v; try discriminate; eexists; (split; [reflexivity|]);
    unfold session_storage; cbn [gs fs]; repeat split; try exact Hfile;
    by simplify_map_eq.
Qed.

Lemma auth_non_string_token_raises_witness :
  exists w',
    guardian_auth.run
      (Cases.tester (Sample.reply {["parent_access_token" := Py.PInt 12345]}))
      (World ∅ Sample.machine [])
    = (w', Py.Raise Py.TypeError)
    /\ gs w' !! "guardian_parent_token" = Some (Py.PInt 12345).
Proof.
  destruct (auth_non_string_token_raises
              (Cases.tester (Sample.reply {["parent_access_token" := Py.PInt 12345]}))
              (World ∅ Sample.machine []) "" {["parent_access_token" := Py.PInt 12345]}
              (Py.PInt 12345))
    as (w' & Hrun & Htok & _).
  - reflexivity.
  - reflexivity.
  - reflexivity.
  - reflexivity.
  - reflexivity.
  - reflexivity.
  - exists w'. split; [exact Hrun | exact Htok].
Defined.

(** ** Frames *)

Lemma apply_event_untouched um (m : gmap string file) e p :
  touches p e = false -> apply_event um m e !! p = m !! p.
Proof.
  destruct e as [d perm|q|q data|q perm|s d|req]; cbn; try done.
  - intros Hq%String.eqb_neq. destruct (m !! q); by rewrite lookup_insert_ne.
  - intros Hq%String.eqb_neq. by rewrite lookup_alter_ne.
  - intros Hq%String.eqb_neq. by rewrite lookup_alter_ne.
  - intros [Hs%String.eqb_neq Hd%String.eqb_neq]%orb_false_iff.
    destruct (m !! s); [|done].
    rewrite lookup_insert_ne by done. by rewrite lookup_delete_ne.
Qed.

Lemma replay_untouched um es (m : gmap string file) p :
  forallb (fun e => negb (touches p e)) es = true -> replay um m es !! p = m !! p.
Proof.
  revert m. induction es as [|e es IH]; intros m; cbn; [done|].
  intros [He Hes]%andb_true_iff. unfold replay in *. cbn [fold_left].
  rewrite IH by done. apply apply_event_untouched. by destruct (touches p e).
Qed.

Lemma touches_write_events p q data :
  p <> q -> forallb (fun e => negb (touches p e)) (write_events q data) = true.
Proof.
  intros Hne. cbn. assert (String.eqb q p = false) as -> by (apply String.eqb_neq; auto).
  reflexivity.
Qed.

Lemma not_artifact_ne r p :
  ~ In p (artifacts r) ->
  p <> env_file r /\ p <> device_code_file r /\ p <> pending_file r.
Proof. unfold artifacts. cbn. intuition. Qed.

(** The events of a run and the files they leave, for a root mount
    point that is a string. *)
Lemma run_events E w r w' res :
  root_of w = Py.PStr r ->
  guardian_claim.run E w = (w', res) ->
  exists es,
    trace w' = (trace w ++ es)%list
    /\ fs w' = replay (umask E) (fs w) es
    /\ forall p, ~ In p (artifacts r) ->
                 forallb (fun e => negb (touches p e)) es = true.
Proof.
  intros Hroot Hrun. rewrite run_table_eq in Hrun. unfold run_table in Hrun.
  rewrite Hroot in Hrun.
  assert (Hw : forall p q data, ~ In p (artifacts r) -> In q (artifacts r) ->
                 forallb (fun e => negb (touches p e)) (write_events q data) = true).
  { intros p q data Hp Hq. apply touches_write_events. intros ->. done. }
  assert (He : In (env_file r) (artifacts r)) by (cbn; auto).
  assert (Hc : In (device_code_file r) (artifacts r)) by (cbn; auto).
  assert (Hpe : In (pending_file r) (artifacts r)) by (cbn; auto).
  destruct (offline w).
  { apply pair_equal_spec in Hrun as [<- _]. eexists. split; [reflexivity|].
    split; [reflexivity|]. intros p Hp. unfold offline_events, pending_events, env_events.
    rewrite forallb_app. cbn [forallb touches negb andb].
    by rewrite !Hw. }
  destruct (Py.truthy (token_of w)); cbn [negb] in Hrun.
  2:{ apply pair_equal_spec in Hrun as [<- _]. exists []. rewrite app_nil_r. done. }
  destruct (network E (request_of E w)) as [sc tx js|].
  - destruct (sc =? 200).
    + destruct (default (Py.PStr "") (js !! "device_code")) as [| | |c];
        apply pair_equal_spec in Hrun as [<- _]; eexists;
        (split; [reflexivity|]); (split; [reflexivity|]); intros p Hp;
        unfold claimed_events, env_events, code_events;
        cbn [forallb touches negb andb]; rewrite ?forallb_app;
        cbn [forallb touches negb andb]; rewrite ?Hw by done; try reflexivity.
      all: destruct (not_artifact_ne r p Hp) as (_ & Hne & _);
        assert (String.eqb (device_code_file r) p = false) as ->
          by (apply String.eqb_neq; auto); reflexivity.
    + apply pair_equal_spec in Hrun as [<- _]. eexists. split; [reflexivity|]. done.
  - apply pair_equal_spec in Hrun as [<- _]. eexists. split; [reflexivity|].
    split; [reflexivity|]. intros p Hp.
    unfold transport_failure_events, pending_events, env_events.
    cbn [forallb touches negb andb]. rewrite forallb_app.
    cbn [forallb touches negb andb]. by rewrite !Hw.
Qed.

(** ** [guardian_claim.run]: further properties *)

(** X7. [run] changes no file but its three artifacts: with a root
    mount point that is a string, every other path holds after the run,
    whatever its outcome, exactly what it held before. In particular the
    hand-off file of the parent token is neither removed nor emptied. *)
Theorem claim_changes_only_artifacts E w r w' res p :
  root_of w = Py.PStr r ->
  guardian_claim.run E w = (w', res) ->
  ~ In p (artifacts r) ->
  fs w' !! p = fs w !! p.
Proof.
  intros Hroot Hrun Hp.
  destruct (run_events E w r w' res Hroot Hrun) as (es & _ & -> & Hes).
  apply replay_untouched. by apply Hes.
Qed.

Lemma claim_changes_only_artifacts_witness :
  fs (fst (guardian_claim.run Sample.test_host
             (World Sample.with_token Sample.machine []))) !! "/etc/machine-id"
  = Sample.machine !! "/etc/machine-id".
Proof.
  refine (claim_changes_only_artifacts Sample.test_host
            (World Sample.with_token Sample.machine []) "/" _ _ "/etc/machine-id" _
            (surjective_pairing _) _).
  - reflexivity.
  - cbn. intros [H|[H|[H|[]]]]; discriminate.
Defined.

(** X8. Whenever [run] returns, with success or with a failure pair,
    every file is either exactly as before or ends with mode 0600:
    nothing that [run] has written is left readable by group or
    others. *)
Theorem claim_leaves_owner_only_files E w w' v p :
  guardian_claim.run E w = (w', Py.Ok v) ->
  fs w' !! p = fs w !! p
  \/ exists data, fs w' !! p = Some (File data perm_0o600).
Proof.
  intros Hrun. rewrite run_table_eq in Hrun. unfold run_table in Hrun.
  assert (H2 : forall (m : gmap string file) a da b db,
             <[a := File da perm_0o600]> (<[b := File db perm_0o600]> m) !! p = m !! p
             \/ exists data,
                  <[a := File da perm_0o600]> (<[b := File db perm_0o600]> m) !! p
                  = Some (File data perm_0o600)).
  { intros m a da b db. destruct (decide (a = p)) as [->|Ha].
    { right. rewrite lookup_insert_eq. by eexists. }
    rewrite lookup_insert_ne by done. destruct (decide (b = p)) as [->|Hb].
    { right. rewrite lookup_insert_eq. by eexists. }
    left. by rewrite lookup_insert_ne. }
  destruct (offline w).
  { destruct (root_of w) as [| | |r]; apply pair_equal_spec in Hrun as [<- Hres];
      try discriminate.
    unfold performs. cbn [fs]. rewrite replay_offline_events. apply H2. }
  destruct (Py.truthy (token_of w)); cbn [negb] in Hrun.
  2:{ apply pair_equal_spec in Hrun as [<- _]. by left. }
  destruct (network E (request_of E w)) as [sc tx js|].
  - destruct (sc =? 200).
    + destruct (root_of w) as [| | |r].
      1-3: apply pair_equal_spec in Hrun as [_ Hres]; discriminate.
      destruct (default (Py.PStr "") (js !! "device_code")) as [| | |c];
        apply pair_equal_spec in Hrun as [<- Hres]; try discriminate.
      cbn [fs]. rewrite replay_claimed_events. apply H2.
    + apply pair_equal_spec in Hrun as [<- _]. by left.
  - destruct (root_of w) as [| | |r]; apply pair_equal_spec in Hrun as [<- Hres];
      try discriminate.
    unfold performs. cbn [fs]. rewrite replay_transport_failure_events. apply H2.
Qed.

Lemma claim_leaves_owner_only_files_witness :
  fs (fst (guardian_claim.run (Sample.host Sample.timeout)
             (World Sample.with_token Sample.machine [])))
     !! "/etc/guardian/pending_activation.json"
  = Sample.machine !! "/etc/guardian/pending_activation.json"
  \/ exists data,
       fs (fst (guardian_claim.run (Sample.host Sample.timeout)
                  (World Sample.with_token Sample.machine [])))
          !! "/etc/guardian/pending_activation.json"
       = Some (File data perm_0o600).
Proof.
  refine (claim_leaves_owner_only_files (Sample.host Sample.timeout)
            (World Sample.with_token Sample.machine []) _ None _ _).
  vm_compute. reflexivity.
Defined.

(** X9. [run] posts at most one request and never retries: none in
    offline mode, also when a parent token is at hand, and none
    without a parent token; otherwise exactly one, to the bind-device
    endpoint, with the fingerprint, the parent e-mail and the two version
    strings as body and the parent token as bearer. *)
Theorem claim_posts_at_most_once E w w' res :
  guardian_claim.run E w = (w', res) ->
  exists es,
    trace w' = (trace w ++ es)%list
    /\ List.filter is_post es
       = (if offline w || negb (Py.truthy (token_of w)) then []
          else [EvPost (HttpRequest
                          guardian_claim.CLAIM_URL
                          [("device_fingerprint", Py.PStr (fingerprint_of E (fs w)));
                           ("parent_email", email_of E w);
                           ("installer_version", Py.PStr "1.0.0");
                           ("os_version", Py.PStr "Guardian Ubuntu 24.04")]
                          [("Authorization", "Bearer " ++ Py.format (token_of w));
                           ("Content-Type", "application/json")])]).
Proof.
  intros Hrun. rewrite run_table_eq in Hrun. unfold run_table in Hrun.
  change (HttpRequest _ _ _) with (request_of E w).
  assert (Hw : forall p data, List.filter is_post (write_events p data) = [])
    by reflexivity.
  destruct (offline w); cbn [orb].
  { destruct (root_of w) as [| | |r]; apply pair_equal_spec in Hrun as [<- _].
    1-3: exists []; by rewrite app_nil_r.
    eexists. split; [reflexivity|]. unfold offline_events, pending_events, env_events.
    by rewrite List.filter_app. }
  destruct (Py.truthy (token_of w)); cbn [negb] in *.
  2:{ apply pair_equal_spec in Hrun as [<- _]. exists []. by rewrite app_nil_r. }
  destruct (network E (request_of E w)) as [sc tx js|].
  - destruct (sc =? 200).
    + destruct (root_of w) as [| | |r].
      1-3: apply pair_equal_spec in Hrun as [<- _]; eexists; split; reflexivity.
      destruct (default (Py.PStr "") (js !! "device_code")) as [| | |c];
        apply pair_equal_spec in Hrun as [<- _]; eexists; (split; [reflexivity|]);
        unfold claimed_events, env_events, code_events; cbn [List.filter is_post];
        rewrite List.filter_app; reflexivity.
    + apply pair_equal_spec in Hrun as [<- _]. eexists. split; reflexivity.
  - destruct (root_of w) as [| | |r]; apply pair_equal_spec in Hrun as [<- _];
      eexists; (split; reflexivity).
Qed.

Lemma claim_posts_at_most_once_witness :
  exists es,
    trace (fst (guardian_claim.run Sample.test_host
                  (World (<["guardian_offline_mode" := Py.PBool true]> Sample.with_token)
                         Sample.machine [])))
    = ([] ++ es)%list
    /\ List.filter is_post es = [].
Proof.
  exact (claim_posts_at_most_once Sample.test_host
           (World (<["guardian_offline_mode" := Py.PBool true]> Sample.with_token)
                  Sample.machine [])
           _ _ (surjective_pairing _)).
Defined.

(** X10. [run] writes to global storage only when it has claimed the
    device: after a 200 reply it inserts the credential and the code it
    has just persisted; on every other path, a raised exception
    included, global storage is untouched, so the parent token and the
    offline marker stay as they were. *)
Theorem claim_storage_changes_only_when_claimed E w w' res :
  guardian_claim.run E w = (w', res) ->
  gs w' = gs w
  \/ (res = Py.Ok None
      /\ offline w = false
      /\ exists tx js,
           network E (request_of E w) = Response 200 tx js
           /\ gs w' = <["guardian_device_code" := default (Py.PStr "") (js !! "device_code")]>
                        (<["guardian_device_jwt" :=
                             default (Py.PStr "") (js !! "device_jwt")]> (gs w))).
Proof.
  intros Hrun. rewrite run_table_eq in Hrun. unfold run_table in Hrun.
  destruct (offline w).
  { destruct (root_of w); apply pair_equal_spec in Hrun as [<- _]; by left. }
  destruct (Py.truthy (token_of w)); cbn [negb] in Hrun.
  2:{ apply pair_equal_spec in Hrun as [<- _]. by left. }
  destruct (network E (request_of E w)) as [sc tx js|].
  - destruct (Z.eqb_spec sc 200) as [->|Hsc].
    + destruct (root_of w) as [| | |r].
      1-3: apply pair_equal_spec in Hrun as [<- _]; by left.
      destruct (default (Py.PStr "") (js !! "device_code")) as [| | |c] eqn:Hc;
        apply pair_equal_spec in Hrun as [<- <-]; try by left.
      right. split; [done|]. split; [done|]. exists tx, js. by rewrite Hc.
    + apply pair_equal_spec in Hrun as [<- _]. by left.
  - destruct (root_of w); apply pair_equal_spec in Hrun as [<- _]; by left.
Qed.

Lemma claim_storage_changes_only_when_claimed_witness :
  gs (fst (guardian_claim.run (Sample.host Sample.timeout)
             (World Sample.with_token Sample.machine [])))
  = Sample.with_token.
Proof.
  destruct (claim_storage_changes_only_when_claimed (Sample.host Sample.timeout)
              (World Sample.with_token Sample.machine []) _ _ (surjective_pairing _))
    as [H | (_ & _ & tx & js & Hnet & _)].
  - exact H.
  - discriminate Hnet.
Defined.

(** X11. A 200 reply whose device code is present but not a string (a
    JSON null or number) makes [run] raise a [TypeError] half-way: the
    configuration file already holds the credential of the reply, the
    device-code file has been created or truncated and is empty, and
    global storage has not been told about the claim. *)
Theorem claim_non_string_code_raises E w r tx js v :
  offline w = false ->
  Py.truthy (token_of w) = true ->
  root_of w = Py.PStr r ->
  network E (request_of E w) = Response 200 tx js ->
  js !! "device_code" = Some v ->
  is_str v = false ->
  exists w',
    guardian_claim.run E w = (w', Py.Raise Py.TypeError)
    /\ stored_config r (fs w')
       = Some (guardian_claim.supabase_env_content
                 (default (Py.PStr "") (js !! "device_jwt")))
    /\ stored_code r (fs w') = Some ""
    /\ gs w' = gs w.
Proof.
  intros Hoff Htok Hroot Hnet Hcode Hstr. rewrite run_table_eq. unfold run_table.
  rewrite Hoff, Htok, Hnet, Hroot, Hcode. cbn [negb].
  change (200 =? 200) with true. change (default (Py.PStr "") (Some v)) with v.
  lazy beta iota zeta.
  assert (Hfs : forall jwt,
             let m := replay (umask E) (fs w)
                        (EvPost (request_of E w)
                         :: env_events r jwt
                         ++ [EvMakedirs (guardian_dir r) perm_0o700;
                             EvOpenW (device_code_file r)]) in
             stored_config r m = Some (guardian_claim.supabase_env_content jwt)
             /\ stored_code r m = Some "").
  { intros jwt m. subst m.
    change (replay ?um ?m (EvPost ?q :: ?es)) with (replay um m es).
    rewrite replay_app, replay_env_events. unfold replay, stored_config, stored_code.
    cbn [fold_left apply_event].
    destruct (<[env_file r:=_]> (fs w) !! device_code_file r) eqn:Hl.
    - rewrite lookup_insert_eq.
      rewrite lookup_insert_ne
        by (intros H; symmetry in H; by apply env_file_ne_code in H).
      by rewrite lookup_insert_eq.
    - rewrite lookup_insert_eq.
      rewrite lookup_insert_ne
        by (intros H; symmetry in H; by apply env_file_ne_code in H).
      by rewrite lookup_insert_eq. }
  destruct v; try discriminate; eexists; (split; [reflexivity|]);
    unfold performs; cbn [gs fs];
    destruct (Hfs (default (Py.PStr "") (js !! "device_jwt"))) as [H1 H2]; done.
Qed.

Lemma claim_non_string_code_raises_witness :
  let js : gmap string Py.pyval :=
    <["device_jwt" := Py.PStr "abc"]> {["device_code" := Py.PNone]} in
  exists w',
    guardian_claim.run (Sample.host (Sample.reply js))
                       (World Sample.with_token Sample.machine [])
    = (w', Py.Raise Py.TypeError)
    /\ stored_config "/" (fs w')
       = Some (guardian_claim.supabase_env_content (Py.PStr "abc"))
    /\ stored_code "/" (fs w') = Some "".
Proof.
  cbn zeta.
  destruct (claim_non_string_code_raises
              (Sample.host
                 (Sample.reply (<["device_jwt" := Py.PStr "abc"]>
                                  {["device_code" := Py.PNone]})))
              (World Sample.with_token Sample.machine []) "/" ""
              (<["device_jwt" := Py.PStr "abc"]> {["device_code" := Py.PNone]})
              Py.PNone)
    as (w' & Hrun & Hcfg & Hcode & _).
  - reflexivity.
  - reflexivity.
  - reflexivity.
  - reflexivity.
  - reflexivity.
  - reflexivity.
  - exists w'. split; [exact Hrun|]. split; [exact Hcfg | exact Hcode].
Defined.

(** ** Paths and contents *)

Lemma ends_with_slash_app r : ends_with_slash (r ++ "/") = true.
Proof.
  induction r as [|c r IH]; [reflexivity|].
  change (ends_with_slash (String c (r ++ "/")) = true).
  cbn [ends_with_slash]. destruct (r ++ "/") eqn:Hr; [|exact IH].
  destruct r; discriminate.
Qed.

Lemma append_assoc (a b c : string) : (a ++ b) ++ c = a ++ b ++ c.
Proof.
  induction a as [|x a IH]; [reflexivity|].
  change (String x ((a ++ b) ++ c) = String x (a ++ b ++ c)). by rewrite IH.
Qed.

(** X12. A trailing slash on the root mount point makes no difference:
    the artifacts of a root [r] and of [r/] are the same paths, and no
    doubled slash appears. *)
Theorem artifacts_ignore_trailing_slash r :
  r <> "" ->
  ends_with_slash r = false ->
  artifacts (r ++ "/") = artifacts r
  /\ artifacts r = [r ++ "/etc/guardian/supabase.env";
                    r ++ "/etc/guardian/device_code";
                    r ++ "/etc/guardian/pending_activation.json"].
Proof.
  intros Hne Hs.
  assert (Hr : String.eqb r "" = false) by by apply String.eqb_neq.
  assert (Hg : guardian_dir (r ++ "/") = guardian_dir r).
  { unfold guardian_dir, path_join. rewrite ends_with_slash_app, orb_true_r, Hr, Hs.
    cbn [orb]. apply append_assoc. }
  assert (Hd : guardian_dir r = r ++ "/etc/guardian").
  { unfold guardian_dir, path_join. by rewrite Hr, Hs. }
  assert (Hj : forall b, path_join (r ++ "/etc/guardian") b = r ++ "/etc/guardian/" ++ b).
  { intros b. unfold path_join.
    assert (String.eqb (r ++ "/etc/guardian") "" = false) as ->
      by (apply String.eqb_neq; destruct r; discriminate).
    assert (ends_with_slash (r ++ "/etc/guardian") = false) as ->.
    { clear. induction r as [|c r IH]; [reflexivity|].
      change (ends_with_slash (String c (r ++ "/etc/guardian")) = false).
      cbn [ends_with_slash]. destruct (r ++ "/etc/guardian") eqn:Hr; [|exact IH].
      destruct r; discriminate. }
    cbn [orb]. by rewrite append_assoc. }
  unfold artifacts, env_file, device_code_file, pending_file. rewrite Hg, Hd, !Hj.
  split; reflexivity.
Qed.

Lemma artifacts_ignore_trailing_slash_witness :
  artifacts ("/mnt" ++ "/") = artifacts "/mnt"
  /\ artifacts "/mnt" = ["/mnt/etc/guardian/supabase.env";
                         "/mnt/etc/guardian/device_code";
                         "/mnt/etc/guardian/pending_activation.json"].
Proof.
  apply (artifacts_ignore_trailing_slash "/mnt"); [discriminate | reflexivity].
Defined.

(** X13. The configuration file determines the credential: two string
    credentials give the same file content only if they are equal, so
    what [write_supabase_env] has written can be read back without
    ambiguity. *)
Theorem supabase_env_content_inj a b :
  guardian_claim.supabase_env_content (Py.PStr a)
  = guardian_claim.supabase_env_content (Py.PStr b) ->
  a = b.
Proof.
  unfold guardian_claim.supabase_env_content. cbn [Py.format].
  intros H. repeat apply append_cancel_l in H. by apply append_cancel_r in H.
Qed.

Lemma supabase_env_content_inj_witness : "abc" = "abc".
Proof. exact (supabase_env_content_inj "abc" "abc" eq_refl). Defined.

(** ** From [guardian_auth] to [guardian_claim] *)

Lemma fingerprint_of_ext E (m1 m2 : gmap string file) :
  m1 !! "/proc/cpuinfo" = m2 !! "/proc/cpuinfo" ->
  m1 !! "/etc/machine-id" = m2 !! "/etc/machine-id" ->
  fingerprint_of E m1 = fingerprint_of E m2.
Proof.
  intros Hc Hm. unfold fingerprint_of, guardian_claim.fingerprint_components,
    guardian_claim.cpu_info, guardian_claim.machine_id, read_text.
  by rewrite Hc, Hm.
Qed.

Lemma run_posts_first E w :
  offline w = false -> Py.truthy (token_of w) = true ->
  exists w' res rest,
    guardian_claim.run E w = (w', res)
    /\ trace w' = (trace w ++ EvPost (request_of E w) :: rest)%list.
Proof.
  intros Hoff Htok. rewrite run_table_eq. unfold run_table.
  rewrite Hoff, Htok. cbn [negb].
  destruct (network E (request_of E w)) as [sc tx js|].
  - destruct (sc =? 200).
    + destruct (root_of w) as [| | |r].
      1-3: do 3 eexists; split; reflexivity.
      destruct (default (Py.PStr "") (js !! "device_code"));
        do 3 eexists; split; reflexivity.
    + do 3 eexists. split; reflexivity.
  - destruct (root_of w); do 3 eexists; split; reflexivity.
Qed.

(** X14. The session opened by [guardian_auth.run] is the one
    [guardian_claim.run] uses: after a 200 reply with the string token
    [t], and with no offline marker in global storage, the claim module
    run on the resulting state posts first a request whose bearer is [t]
    and whose parent e-mail is the e-mail that was authenticated; the
    fingerprint it sends is the one of the machine before the
    authentication. *)
Theorem auth_session_reaches_claim E w tx js t E' :
  Py.truthy (auth_email E w) = true ->
  Py.truthy (auth_password E w) = true ->
  network E (auth_request_of E w) = Response 200 tx js ->
  js !! "parent_access_token" = Some (Py.PStr t) ->
  t <> "" ->
  offline w = false ->
  exists w1 w2 res rest,
    guardian_auth.run E w = (w1, Py.Ok None)
    /\ guardian_claim.run E' w1 = (w2, res)
    /\ trace w2
       = (trace w1
          ++ EvPost (guardian_claim.claim_request (fingerprint_of E' (fs w))
                       (auth_email E w) (Py.PStr t))
          :: rest)%list.
Proof.
  intros He Hp Hnet Htok Hne Hoff.
  assert (Ht : Py.truthy (Py.PStr t) = true) by (destruct t; [done|reflexivity]).
  rewrite auth_table_eq. unfold auth_table.
  rewrite He, Hp, Hnet, Htok.
  change (default Py.PNone (Some (Py.PStr t))) with (Py.PStr t).
  change (200 =? 200) with true. rewrite Ht. lazy beta iota zeta.
  set (w1 := World _ _ _).
  assert (Hoff1 : offline w1 = false).
  { unfold offline in *. subst w1. cbn [gs]. unfold session_storage.
    by rewrite !lookup_insert_ne. }
  assert (Htok1 : token_of w1 = Py.PStr t).
  { unfold token_of. subst w1. cbn [gs]. unfold session_storage.
    rewrite lookup_insert_ne by done. rewrite lookup_insert_eq.
    change (default Py.PNone (Some (Py.PStr t))) with (Py.PStr t). by rewrite Ht. }
  assert (Hmail1 : email_of E' w1 = auth_email E w).
  { unfold email_of. subst w1. cbn [gs]. unfold session_storage.
    rewrite lookup_insert_eq.
    change (default Py.PNone (Some (auth_email E w))) with (auth_email E w).
    by rewrite He. }
  assert (Hfp : fingerprint_of E' (fs w1) = fingerprint_of E' (fs w)).
  { subst w1. cbn [fs]. rewrite replay_write_events.
    apply fingerprint_of_ext; by rewrite lookup_insert_ne. }
  destruct (run_posts_first E' w1) as (w2 & res & rest & Hrun & Htr);
    [done | by rewrite Htok1 |].
  exists w1, w2, res, rest. split; [reflexivity|]. split; [exact Hrun|].
  rewrite Htr. unfold request_of. by rewrite Hfp, Hmail1, Htok1.
Qed.

Lemma auth_session_reaches_claim_witness :
  exists w1 w2 res rest,
    guardian_auth.run Sample.test_host (World ∅ Sample.machine []) = (w1, Py.Ok None)
    /\ guardian_claim.run Sample.test_host w1 = (w2, res)
    /\ trace w2
       = (trace w1
          ++ EvPost (guardian_claim.claim_request
                       "sha256:3eb1bd439947eb762998e566ccc2e099c791118b2f40579cc4f7da2b5061b7f9"
                       (Py.PStr "parent@example.com") (Py.PStr "tok"))
          :: rest)%list.
Proof.
  destruct (auth_session_reaches_claim Sample.test_host (World ∅ Sample.machine [])
              "" {["parent_access_token" := Py.PStr "tok"]} "tok" Sample.test_host)
    as (w1 & w2 & res & rest & H1 & H2 & H3).
  - reflexivity.
  - reflexivity.
  - reflexivity.
  - reflexivity.
  - discriminate.
  - reflexivity.
  - exists w1, w2, res, rest. split; [exact H1|]. split; [exact H2|].
    rewrite H3. vm_compute. reflexivity.
Defined.

(** X15. The hand-off file carries the token across a restart, up to
    what a text-mode read does to it: after a successful
    authentication, a process whose global storage holds no parent
    token but which sees the same hand-off file reads, in
    [read_parent_token], the token with every CR LF and every lone CR
    turned into LF and then stripped of surrounding white space,
    without raising and without changing anything. A token holding a
    CR is therefore not read back as it was stored. *)
Theorem token_survives_restart E w tx js t E' gs0 tr :
  Py.truthy (auth_email E w) = true ->
  Py.truthy (auth_password E w) = true ->
  network E (auth_request_of E w) = Response 200 tx js ->
  js !! "parent_access_token" = Some (Py.PStr t) ->
  t <> "" ->
  Py.truthy (default Py.PNone (gs0 !! "guardian_parent_token")) = false ->
  let later := World gs0 (fs (fst (guardian_auth.run E w))) tr in
  guardian_claim.read_parent_token E' later
  = (later, Py.Ok (Py.PStr (Py.strip (Py.universal_newlines t)))).
Proof.
  intros He Hp Hnet Htok Hne Hgs0 later.
  rewrite read_parent_token_eq. f_equal. f_equal.
  unfold token_of. subst later. cbn [gs fs]. rewrite Hgs0. cbn [negb].
  assert (Ht : Py.truthy (Py.PStr t) = true) by (destruct t; [done|reflexivity]).
  rewrite auth_table_eq. unfold auth_table.
  rewrite He, Hp, Hnet, Htok.
  change (default Py.PNone (Some (Py.PStr t))) with (Py.PStr t).
  change (200 =? 200) with true. rewrite Ht. cbn [negb orb fst fs].
  rewrite replay_write_events.
  change "/tmp/guardian_parent_token" with token_handoff_file.
  by rewrite lookup_insert_eq.
Qed.

Lemma token_survives_restart_witness :
  guardian_claim.read_parent_token (Sample.host Sample.timeout)
    (World ∅ (fs (fst (guardian_auth.run Sample.carriage_host
                         (World ∅ Sample.machine [])))) [])
  = (World ∅ (fs (fst (guardian_auth.run Sample.carriage_host
                         (World ∅ Sample.machine [])))) [],
     Py.Ok (Py.PStr ("to" ++ String "010" "k"))).
Proof.
  refine (token_survives_restart Sample.carriage_host (World ∅ Sample.machine [])
            "" {["parent_access_token" := Py.PStr ("to" ++ String "013" "k")]}
            ("to" ++ String "013" "k")
            (Sample.host Sample.timeout) ∅ [] _ _ _ _ _ _); try reflexivity.
  discriminate.
Defined.

(** X16. When the authentication request fails in transport, the claim
    module that runs next goes the offline way: it posts nothing, and
    the pending-activation record it writes names the e-mail that was
    entered for authentication. *)
Theorem deferred_auth_names_the_parent E w r E' :
  Py.truthy (auth_email E w) = true ->
  Py.truthy (auth_password E w) = true ->
  network E (auth_request_of E w) = RequestFailed ->
  root_of w = Py.PStr r ->
  exists w1 w2 es,
    guardian_auth.run E w = (w1, Py.Ok None)
    /\ guardian_claim.run E' w1 = (w2, Py.Ok None)
    /\ trace w2 = (trace w1 ++ es)%list
    /\ List.filter is_post es = []
    /\ stored_pending r (fs w2)
       = Some (Json.dumps [("email", auth_email E w);
                           ("fingerprint", Py.PStr (fingerprint_of E' (fs w)));
                           ("timestamp", Py.PStr (Py.strip (date_utc E')))]).
Proof.
  intros He Hp Hnet Hroot. rewrite auth_table_eq. unfold auth_table.
  rewrite He, Hp, Hnet. cbn [negb orb].
  set (w1 := World _ _ _).
  assert (Hoff1 : offline w1 = true).
  { unfold offline. subst w1. cbn [gs]. unfold deferred_storage.
    rewrite !lookup_insert_ne by done. by rewrite lookup_insert_eq. }
  assert (Hroot1 : root_of w1 = Py.PStr r).
  { unfold root_of in *. subst w1. cbn [gs]. unfold deferred_storage.
    by rewrite !lookup_insert_ne. }
  exists w1, (performs (umask E') (offline_events E' w1 r) w1), (offline_events E' w1 r).
  split; [reflexivity|]. split; [by apply run_offline|]. split; [reflexivity|].
  split; [reflexivity|].
  unfold stored_pending, performs. cbn [fs]. rewrite replay_offline_events.
  rewrite lookup_insert_ne by apply env_file_ne_pending.
  rewrite lookup_insert_eq. cbn. unfold pending_record. subst w1. cbn [gs fs].
  unfold deferred_storage. rewrite lookup_insert_ne by done.
  by rewrite lookup_insert_eq.
Qed.

Lemma deferred_auth_names_the_parent_witness :
  exists w1 w2 es,
    guardian_auth.run (Cases.tester Sample.timeout) (World ∅ Sample.machine [])
    = (w1, Py.Ok None)
    /\ guardian_claim.run (Sample.host Sample.timeout) w1 = (w2, Py.Ok None)
    /\ trace w2 = (trace w1 ++ es)%list
    /\ List.filter is_post es = []
    /\ stored_pending "/" (fs w2)
       = Some (Json.dumps
                 [("email", Py.PStr "parent@example.com");
                  ("fingerprint",
                   Py.PStr "sha256:3eb1bd439947eb762998e566ccc2e099c791118b2f40579cc4f7da2b5061b7f9");
                  ("timestamp", Py.PStr "2026-01-02T03:04:05Z")]).
Proof.
  destruct (deferred_auth_names_the_parent (Cases.tester Sample.timeout)
              (World ∅ Sample.machine []) "/" (Sample.host Sample.timeout))
    as (w1 & w2 & es & H1 & H2 & H3 & H4 & H5).
  - reflexivity.
  - reflexivity.
  - reflexivity.
  - reflexivity.
  - exists w1, w2, es. repeat (split; [assumption|]).
    rewrite H5. vm_compute. reflexivity.
Defined.

(** X17. When the device goes offline because a credential is missing,
    no e-mail is recorded: unless global storage already held a
    pending e-mail, the pending-activation record that the claim module
    then writes has [null] as its e-mail. *)
Theorem missing_credentials_leave_no_email E w r E' :
  Py.truthy (auth_email E w) = false \/ Py.truthy (auth_password E w) = false ->
  gs w !! "guardian_pending_email" = None ->
  root_of w = Py.PStr r ->
  exists w1 w2,
    guardian_auth.run E w = (w1, Py.Ok None)
    /\ guardian_claim.run E' w1 = (w2, Py.Ok None)
    /\ stored_pending r (fs w2)
       = Some (Json.dumps [("email", Py.PNone);
                           ("fingerprint", Py.PStr (fingerprint_of E' (fs w)));
                           ("timestamp", Py.PStr (Py.strip (date_utc E')))]).
Proof.
  intros Hcred Hmail Hroot. rewrite (auth_run_offline E w Hcred).
  assert (Hoff1 : offline (offline_world w) = true).
  { unfold offline, offline_world. cbn [gs]. by rewrite lookup_insert_eq. }
  assert (Hroot1 : root_of (offline_world w) = Py.PStr r).
  { unfold root_of, offline_world in *. cbn [gs]. by rewrite lookup_insert_ne. }
  do 2 eexists. split; [reflexivity|]. split; [by apply run_offline|].
  unfold stored_pending, performs. cbn [fs]. rewrite replay_offline_events.
  rewrite lookup_insert_ne by apply env_file_ne_pending.
  rewrite lookup_insert_eq. cbn. unfold pending_record, offline_world. cbn [gs fs].
  rewrite lookup_insert_ne by done. by rewrite Hmail.
Qed.

Lemma missing_credentials_leave_no_email_witness :
  exists w1 w2,
    guardian_auth.run (Sample.host Sample.backend) (World ∅ Sample.machine [])
    = (w1, Py.Ok None)
    /\ guardian_claim.run (Sample.host Sample.backend) w1 = (w2, Py.Ok None)
    /\ stored_pending "/" (fs w2)
       = Some ("{" ++ nl ++
               "  " ++ dquote ++ "email" ++ dquote ++ ": null," ++ nl ++
               "  " ++ dquote ++ "fingerprint" ++ dquote ++ ": " ++ dquote
                    ++ "sha256:3eb1bd439947eb762998e566ccc2e099c791118b2f40579cc4f7da2b5061b7f9"
                    ++ dquote ++ "," ++ nl ++
               "  " ++ dquote ++ "timestamp" ++ dquote ++ ": "
                    ++ dquote ++ "2026-01-02T03:04:05Z" ++ dquote ++ nl ++
               "}").
Proof.
  destruct (missing_credentials_leave_no_email (Sample.host Sample.backend)
              (World ∅ Sample.machine []) "/" (Sample.host Sample.backend))
    as (w1 & w2 & H1 & H2 & H3).
  - left. reflexivity.
  - reflexivity.
  - reflexivity.
  - exists w1, w2. split; [exact H1|]. split; [exact H2|].
    rewrite H3. vm_compute. reflexivity.
Defined.

(** ** The loops of the fingerprint *)

(** X18. Only the first line of [/proc/cpuinfo] that starts with
    [model name] counts, and the lines after it are never looked at: the
    line is split at its colons and the second piece, stripped, is the
    CPU signal (the text between the first and the second colon, or to
    the end of the line when there is one colon only); if the line has
    no colon the block raises [IndexError] and there is no CPU signal,
    even when a later line is well formed. *)
Theorem cpu_loop_stops_at_first_model_name pre line post components :
  Forall (fun l => Py.startswith "model name" l = false) pre ->
  Py.startswith "model name" line = true ->
  guardian_claim.cpu_loop (pre ++ line :: post) components
  = match Py.index (Py.split ":" line) 1 with
    | Py.Ok v => ((components ++ [Py.strip v])%list, Py.Ok tt)
    | Py.Raise e => (components, Py.Raise e)
    end.
Proof.
  intros Hpre Hline. induction Hpre as [|l pre Hl _ IH]; cbn.
  - by rewrite Hline.
  - by rewrite Hl.
Qed.

Lemma cpu_loop_stops_at_first_model_name_witness :
  guardian_claim.cpu_loop
    (["processor : 0"] ++ "model name without colon" :: ["model name : x86"]) []
  = ([], Py.Raise Py.IndexError).
Proof.
  refine (cpu_loop_stops_at_first_model_name ["processor : 0"] "model name without colon"
            ["model name : x86"] [] _ _).
  - repeat constructor.
  - reflexivity.
Defined.

Lemma split_go_nonempty sep k s : Py.split_go sep k s <> [].
Proof.
  revert k. induction s as [|c s IH]; intros k; cbn [Py.split_go]; [done|].
  destruct k; [|apply IH].
  destruct (String.prefix sep (String c s)); [done|].
  by destruct (Py.split_go sep 0 s).
Qed.

Lemma split_has_second_piece sep s :
  sep <> "" -> Py.contains sep s = true ->
  exists a b rest, Py.split sep s = a :: b :: rest.
Proof.
  intros Hsep. unfold Py.split. induction s as [|c s IH].
  - cbn. destruct sep; [done|]. discriminate.
  - intros Hc. cbn [Py.contains] in Hc. cbn [Py.split_go].
    destruct (String.prefix sep (String c s)) eqn:Hp.
    + destruct (Py.split_go sep (Nat.pred (String.length sep)) s) as [|b rest] eqn:Hs.
      * by apply split_go_nonempty in Hs.
      * by exists "", b, rest.
    + cbn [orb] in Hc. destruct (IH Hc) as (a & b & rest & ->).
      by exists (String c a), b, rest.
Qed.

(** X19. The second loop takes one address from every line of the
    [ip] output that contains [link/ether], in order: the line is split
    at the marker, and the first word (run of characters that are not
    white space) of the second piece is the address. When every such
    line yields a word the loop completes with these words appended. A
    line that contains the marker always has a second piece, so the
    loop fails only on a line whose second piece (the text from the
    first marker to the next marker or the end of the line) holds no
    word; it then raises [IndexError], the addresses found before are
    kept and the lines after are ignored. *)
Theorem mac_loop_scans_until_malformed_line ls macs components :
  Forall2 (fun l m => mac_of_line l = Py.Ok m) (ether_lines ls) macs ->
  guardian_claim.mac_loop ls components = ((components ++ macs)%list, Py.Ok tt)
  /\ (forall bad post,
        Py.contains "link/ether" bad = true ->
        Py.index (Py.split_ws (nth 1 (Py.split "link/ether" bad) "")) 0
        = Py.Raise Py.IndexError ->
        guardian_claim.mac_loop (ls ++ bad :: post) components
        = ((components ++ macs)%list, Py.Raise Py.IndexError))
  /\ (forall l, Py.contains "link/ether" l = true ->
        exists after, Py.index (Py.split "link/ether" l) 1 = Py.Ok after).
Proof.
  intros Hall. split; [|split].
  - revert macs components Hall. induction ls as [|l ls IH]; intros macs components Hall.
    + cbn in Hall. inversion Hall. cbn. by rewrite app_nil_r.
    + cbn [ether_lines List.filter] in Hall. cbn [guardian_claim.mac_loop].
      destruct (Py.contains "link/ether" l) eqn:Hl.
      * inversion Hall as [|? m ? macs' Hm Hrest]; subst.
        unfold mac_of_line in Hm.
        destruct (Py.index (Py.split "link/ether" l) 1) as [after|]; [|discriminate].
        rewrite Hm. rewrite (IH macs' _ Hrest). by rewrite <- app_assoc.
      * by apply IH.
  - intros bad post Hbad Hraise.
    revert macs components Hall. induction ls as [|l ls IH]; intros macs components Hall.
    + cbn in Hall. inversion Hall. cbn [app guardian_claim.mac_loop]. rewrite Hbad.
      destruct (split_has_second_piece "link/ether" bad) as (a & b & rest & Hs);
        [done | done |].
      rewrite Hs in *. cbn in Hraise. cbn [Py.index nth_error].
      unfold Py.index in *. destruct (nth_error (Py.split_ws b) 0); [discriminate|].
      by rewrite app_nil_r.
    + cbn [ether_lines List.filter] in Hall.
      change ((l :: ls) ++ bad :: post)%list with (l :: (ls ++ bad :: post))%list.
      cbn [guardian_claim.mac_loop].
      destruct (Py.contains "link/ether" l) eqn:Hl.
      * inversion Hall as [|? m ? macs' Hm Hrest]; subst.
        unfold mac_of_line in Hm.
        destruct (Py.index (Py.split "link/ether" l) 1) as [after|]; [|discriminate].
        rewrite Hm. rewrite (IH macs' _ Hrest). by rewrite <- app_assoc.
      * by apply IH.
  - intros l Hl. destruct (split_has_second_piece "link/ether" l) as (a & b & rest & Hs);
      [done | done |].
    exists b. by rewrite Hs.
Qed.

Lemma mac_loop_scans_until_malformed_line_witness :
  guardian_claim.mac_loop
    (["2: eth0"; "    link/ether 52:54:00:12:34:56 brd ff:ff:ff:ff:ff:ff"]
     ++ "    link/ether" :: ["    link/ether aa:bb:cc:dd:ee:ff brd ff:ff:ff:ff:ff:ff"]) []
  = (["52:54:00:12:34:56"], Py.Raise Py.IndexError).
Proof.
  refine (proj1 (proj2 (mac_loop_scans_until_malformed_line
                          ["2: eth0";
                           "    link/ether 52:54:00:12:34:56 brd ff:ff:ff:ff:ff:ff"]
                          ["52:54:00:12:34:56"] [] _))
                "    link/ether" _ _ _).
  - repeat constructor.
  - reflexivity.
  - reflexivity.
Defined.

(** ** [guardian_wifi.run] *)

(** X20. The network module never fails and never tells the difference:
    whether [nmcli] reports full connectivity, reports anything else,
    or cannot be run at all, [run] returns success and records the
    network as configured; nothing else in the world changes. *)
Theorem wifi_always_reports_configured nmcli E w :
  guardian_wifi.run nmcli E w
  = (World (<["guardian_network_configured" := Py.PBool true]> (gs w)) (fs w) (trace w),
     Py.Ok None).
Proof.
  unfold guardian_wifi.run, guardian_wifi.check_connectivity, except_exception.
  destruct nmcli as [stdout|e]; [destruct (Py.contains "full" stdout)|]; reflexivity.
Qed.

(** ** [json.dump] *)

Lemma all_chars_app P a b : all_chars P (a ++ b) = all_chars P a && all_chars P b.
Proof.
  induction a as [|c a IH]; [reflexivity|].
  change (P c && all_chars P (a ++ b) = P c && all_chars P a && all_chars P b).
  by rewrite IH, andb_assoc.
Qed.

Lemma count_chars_app P a b :
  count_chars P (a ++ b) = (count_chars P a + count_chars P b)%nat.
Proof.
  induction a as [|c a IH]; [reflexivity|].
  change (((if P c then 1 else 0) + count_chars P (a ++ b))%nat
          = ((if P c then 1 else 0) + count_chars P a + count_chars P b)%nat).
  rewrite IH. lia.
Qed.

Lemma all_chars_count P s : all_chars (fun c => negb (P c)) s = true -> count_chars P s = O.
Proof.
  induction s as [|c s IH]; [reflexivity|]. cbn.
  intros [Hc Hs]%andb_true_iff. rewrite IH by done. by destruct (P c).
Qed.

Lemma all_chars_impl (P Q : ascii -> bool) s :
  (forall c, P c = true -> Q c = true) -> all_chars P s = true -> all_chars Q s = true.
Proof.
  intros HPQ. induction s as [|c s IH]; [reflexivity|]. cbn.
  intros [Hc Hs]%andb_true_iff. by rewrite HPQ, IH.
Qed.

Lemma escape_char_printable c : all_chars is_printable (Json.escape_char c) = true.
Proof. destruct c as [[] [] [] [] [] [] [] []]; reflexivity. Qed.

Lemma escape_char_plain c : is_plain c = true -> Json.escape_char c = String c "".
Proof. destruct c as [[] [] [] [] [] [] [] []]; intros H; try discriminate H; reflexivity. Qed.

Lemma escape_printable s : all_chars is_printable (Json.escape s) = true.
Proof.
  induction s as [|c s IH]; [reflexivity|]. cbn [Json.escape].
  by rewrite all_chars_app, escape_char_printable, IH.
Qed.

Lemma string_of_uint_printable d :
  all_chars is_printable (NilEmpty.string_of_uint d) = true.
Proof. induction d; cbn; auto. Qed.

Lemma str_of_int_printable n : all_chars is_printable (Py.str_of_int n) = true.
Proof.
  unfold Py.str_of_int, NilZero.string_of_int, NilZero.string_of_uint.
  destruct (Z.to_int n) as [d|d]; destruct d; cbn [all_chars];
    rewrite ?string_of_uint_printable; reflexivity.
Qed.

Lemma item_printable kv : all_chars is_printable (Json.item kv) = true.
Proof.
  unfold Json.item, Json.quoted, Json.value.
  rewrite !all_chars_app, !escape_printable.
  destruct (snd kv) as [|[]|n|s]; unfold Json.quoted;
    rewrite ?all_chars_app, ?escape_printable, ?str_of_int_printable; reflexivity.
Qed.

Lemma printable_not_newline c : is_printable c = true -> negb (is_newline c) = true.
Proof. destruct c as [[] [] [] [] [] [] [] []]; intros H; try discriminate H; reflexivity. Qed.

Lemma join_items_shape items :
  items <> [] ->
  Forall (fun i => all_chars is_printable i = true) items ->
  all_chars (fun c => is_printable c || is_newline c) (Py.join ("," ++ nl) items) = true
  /\ count_chars is_newline (Py.join ("," ++ nl) items) = Nat.pred (length items).
Proof.
  intros Hne Hall. induction Hall as [|i items Hi Hrest IH]; [done|].
  assert (Hi' : all_chars (fun c => is_printable c || is_newline c) i = true).
  { apply (all_chars_impl is_printable); [|done]. by intros c ->. }
  assert (Hc : count_chars is_newline i = O).
  { apply all_chars_count. apply (all_chars_impl is_printable); [|done].
    apply printable_not_newline. }
  destruct items as [|j items].
  - cbn. by rewrite Hi', Hc.
  - destruct IH as [IH1 IH2]; [done|].
    change (Py.join ("," ++ nl) (i :: j :: items))
      with (i ++ ("," ++ nl) ++ Py.join ("," ++ nl) (j :: items)).
    rewrite !all_chars_app, !count_chars_app, Hi', IH1, Hc, IH2. split; [reflexivity|].
    cbn. lia.
Qed.

(** X21. What [json.dump(obj, f, indent=2)] writes for a flat,
    non-empty dictionary is printable ASCII apart from its line breaks,
    and has one line per entry between the two braces, whatever the
    keys and values contain: quotes, backslashes, line breaks and
    control characters of a value are escaped. A string of plain
    characters is written as it is. *)
Theorem json_dumps_is_line_safe obj :
  obj <> [] ->
  all_chars (fun c => is_printable c || is_newline c) (Json.dumps obj) = true
  /\ count_chars is_newline (Json.dumps obj) = S (length obj)
  /\ forall s, all_chars is_plain s = true -> Json.escape s = s.
Proof.
  intros Hne. destruct obj as [|kv obj]; [done|].
  destruct (join_items_shape (map Json.item (kv :: obj))) as [H1 H2]; [done| |].
  { apply List.Forall_forall. intros i [kv' [<- _]]%in_map_iff. apply item_printable. }
  unfold Json.dumps. rewrite !all_chars_app, !count_chars_app, H1, H2.
  rewrite length_map. split; [reflexivity|]. split; [cbn; lia|].
  induction s as [|c s IH]; [reflexivity|]. cbn [all_chars Json.escape].
  intros [Hc Hs]%andb_true_iff. by rewrite escape_char_plain, IH.
Qed.

Lemma json_dumps_is_line_safe_witness :
  count_chars is_newline
    (Json.dumps [("email", Py.PStr ("a" ++ nl ++ "b")); ("n", Py.PInt 7)]) = 3%nat.
Proof.
  refine (proj1 (proj2 (json_dumps_is_line_safe
                          [("email", Py.PStr ("a" ++ nl ++ "b")); ("n", Py.PInt 7)] _))).
  discriminate.
Defined.

(** ** The Nobara modules *)

(** X22. [guardianchild.run] validates and, outside demo mode, changes
    nothing. In demo mode it succeeds and replaces whatever was
    selected by the demo child. Otherwise the state is left as it was,
    and the run succeeds exactly when the selected child is a
    dictionary whose [id] and [name] are both true-like. A missing
    selection is the failure pair ("No child selected", "Please select
    which child will use this device."); a selection that is true-like
    but not a dictionary raises [AttributeError]; and for a dictionary
    that is not empty the look-ups of [id] and [name] do not raise and
    the result is success when both are true-like and otherwise the
    failure pair ("Invalid selection", "The selected child data is
    incomplete. Please try again."), both texts passed through the
    translation. *)
Theorem child_selection_is_validated tr s :
  (Nobara.truthy (Nobara.stored s "guardian_demo_mode") = true ->
   snd (Nobara.guardianchild.run tr s) = Nobara.Ok None
   /\ Nobara.stored (fst (Nobara.guardianchild.run tr s)) "guardian_selected_child"
      = Nobara.Dict Nobara.guardianchild.demo_child
   /\ Nobara.stored (fst (Nobara.guardianchild.run tr s)) "guardian_child_name"
      = Nobara.Scalar (Py.PStr "Demo User"))
  /\
  (Nobara.truthy (Nobara.stored s "guardian_demo_mode") = false ->
   fst (Nobara.guardianchild.run tr s) = s
   /\ (snd (Nobara.guardianchild.run tr s) = Nobara.Ok None
       <-> exists d id name,
             Nobara.stored s "guardian_selected_child" = Nobara.Dict d
             /\ Nobara.get (Nobara.Dict d) "id" = Nobara.Ok id
             /\ Nobara.get (Nobara.Dict d) "name" = Nobara.Ok name
             /\ Py.truthy id = true /\ Py.truthy name = true)
   /\ (Nobara.truthy (Nobara.stored s "guardian_selected_child") = false ->
       snd (Nobara.guardianchild.run tr s)
       = Nobara.Ok (Some (tr "No child selected",
                          tr "Please select which child will use this device.")))
   /\ (forall v, Nobara.stored s "guardian_selected_child" = Nobara.Scalar v ->
                 Py.truthy v = true ->
                 snd (Nobara.guardianchild.run tr s) = Nobara.Raise Nobara.AttributeError)
   /\ (forall d, Nobara.stored s "guardian_selected_child" = Nobara.Dict d ->
                 d <> [] ->
                 exists id name,
                   Nobara.get (Nobara.Dict d) "id" = Nobara.Ok id
                   /\ Nobara.get (Nobara.Dict d) "name" = Nobara.Ok name
                   /\ snd (Nobara.guardianchild.run tr s)
                      = if Py.truthy id && Py.truthy name
                        then Nobara.Ok None
                        else Nobara.Ok
                               (Some (tr "Invalid selection",
                                      tr "The selected child data is incomplete. Please try again.")))).
Proof.
  unfold Nobara.guardianchild.run. split; intros Hdemo; rewrite Hdemo.
  - cbn [fst snd]. unfold Nobara.stored. cbn [Nobara.storage].
    split; [reflexivity|]. split.
    + rewrite lookup_insert_ne by done. by rewrite lookup_insert_eq.
    + by rewrite lookup_insert_eq.
  - destruct (Nobara.stored s "guardian_selected_child") as [v|d] eqn:Hsel.
    + cbn [Nobara.truthy Nobara.get]. destruct (Py.truthy v) eqn:Hv; cbn [negb fst snd].
      * split; [reflexivity|]. split; [|split; [discriminate|split; [|discriminate]]].
        -- split; [discriminate|]. intros (d & ? & ? & [=] & _).
        -- intros v' [= <-] _. reflexivity.
      * split; [reflexivity|]. split; [|split; [reflexivity|split; [|discriminate]]].
        -- split; [discriminate|]. intros (d & ? & ? & [=] & _).
        -- intros v' [= <-]. congruence.
    + destruct d as [|kv d].
      { cbn [Nobara.truthy negb fst snd]. split; [reflexivity|].
        split; [|split; [reflexivity | split; [discriminate|]]].
        - split; [discriminate|].
          intros (d & id & name & [= <-] & Hid & Hname & Ht & _).
          cbn in Hid. injection Hid as <-. discriminate.
        - intros d [= <-] Hd. done. }
      cbn [Nobara.truthy negb].
      destruct (Nobara.get (Nobara.Dict (kv :: d)) "id") as [id|e] eqn:Hid.
      2:{ unfold Nobara.get in Hid. destruct (List.find _ (kv :: d)); discriminate. }
      destruct (Nobara.get (Nobara.Dict (kv :: d)) "name") as [name|e] eqn:Hname.
      2:{ unfold Nobara.get in Hname. destruct (List.find _ (kv :: d)); discriminate. }
      assert (Hinv : forall d0,
                 Nobara.Dict (kv :: d) = Nobara.Dict d0 -> d0 <> [] ->
                 exists id0 name0,
                   Nobara.get (Nobara.Dict d0) "id" = Nobara.Ok id0
                   /\ Nobara.get (Nobara.Dict d0) "name" = Nobara.Ok name0
                   /\ (if negb (Py.truthy id) || negb (Py.truthy name)
                       then Nobara.Ok
                              (Some (tr "Invalid selection",
                                     tr "The selected child data is incomplete. Please try again."))
                       else Nobara.Ok None)
                      = if Py.truthy id0 && Py.truthy name0
                        then Nobara.Ok None
                        else Nobara.Ok
                               (Some (tr "Invalid selection",
                                      tr "The selected child data is incomplete. Please try again."))).
      { intros d0 [= <-] _. exists id, name. split; [exact Hid|]. split; [exact Hname|].
        by destruct (Py.truthy id), (Py.truthy name). }
      destruct (Py.truthy id) eqn:Hti; destruct (Py.truthy name) eqn:Htn;
        cbn [negb orb fst snd] in *; (split; [reflexivity|]);
        (split; [|split; [discriminate | split; [discriminate | exact Hinv]]]).
      * split; [|done]. intros _. by exists (kv :: d), id, name.
      * split; [discriminate|].
        intros (d' & id' & name' & [= <-] & Hid' & Hname' & _ & Ht). congruence.
      * split; [discriminate|].
        intros (d' & id' & name' & [= <-] & Hid' & Hname' & Ht & _). congruence.
      * split; [discriminate|].
        intros (d' & id' & name' & [= <-] & Hid' & Hname' & Ht & _). congruence.
Qed.

Lemma child_selection_is_validated_witness :
  (fst (Nobara.guardianchild.run (fun m => m) NobaraCases.ready) = NobaraCases.ready
   /\ snd (Nobara.guardianchild.run (fun m => m) NobaraCases.ready) = Nobara.Ok None)
  /\ Nobara.guardianchild.run (fun m => m) NobaraCases.nameless
     = (NobaraCases.nameless,
        Nobara.Ok (Some ("Invalid selection",
                         "The selected child data is incomplete. Please try again."))).
Proof.
  split.
  - destruct (proj2 (child_selection_is_validated (fun m => m) NobaraCases.ready) eq_refl)
      as (Hs & Hok & _).
    split; [exact Hs|]. apply Hok.
    exists NobaraCases.child, (Py.PStr "c-1"), (Py.PStr "Ada"). repeat split.
  - destruct (proj2 (child_selection_is_validated (fun m => m) NobaraCases.nameless) eq_refl)
      as (Hs & _ & _ & _ & Hinv).
    destruct (Hinv [("id", Py.PStr "c-1"); ("age", Py.PInt 9)] eq_refl)
      as (id & name & Hid & Hname & Hres); [discriminate|].
    injection Hid as <-. injection Hname as <-.
    rewrite (surjective_pairing (Nobara.guardianchild.run _ _)), Hs, Hres. reflexivity.
Defined.

Lemma nobara_write_file um (m : gmap string file) p data :
  replay um m [EvOpenW p; EvWrite p data; EvChmod p perm_0o600]
  = <[p := File data perm_0o600]> m.
Proof. apply (replay_write_events um m p data). Qed.

(** X23. [guardianauth.run] of the Nobara tree writes the device
    configuration only when everything is there. Whatever happens,
    global storage is left as it was. A file changes only on a
    successful run with the token, the user, the child and the family
    all present and a string root mount point [r]: then
    [r/etc/guardian/device.json] holds, with mode 0600, the six fields of
    the configuration, [registered_at] being [null]; the token itself
    is not among them. With an item missing the run is a failure
    pair; with everything present but no root mount point it reports
    success and writes nothing. *)
Theorem device_config_is_written_when_ready tr um s s' res :
  Nobara.guardianauth.run tr um s = (s', res) ->
  let complete :=
    forallb Nobara.truthy
      [Nobara.stored s "guardian_auth_token"; Nobara.stored s "guardian_user_id";
       Nobara.stored s "guardian_selected_child"; Nobara.stored s "guardian_family_id"] in
  Nobara.storage s' = Nobara.storage s
  /\ (complete = false ->
      s' = s
      /\ res = Nobara.Ok
                 (Some (tr "Guardian authentication incomplete",
                        tr "Please complete parent authentication and child selection.")))
  /\ (complete = true ->
      Nobara.truthy (Nobara.stored s "rootMountPoint") = false ->
      s' = s /\ res = Nobara.Ok None)
  /\ (Nobara.files s' = Nobara.files s
      \/ exists r d id name,
           res = Nobara.Ok None
           /\ complete = true
           /\ Nobara.stored s "rootMountPoint" = Nobara.Scalar (Py.PStr r)
           /\ Nobara.stored s "guardian_selected_child" = Nobara.Dict d
           /\ Nobara.get (Nobara.Dict d) "id" = Nobara.Ok id
           /\ Nobara.get (Nobara.Dict d) "name" = Nobara.Ok name
           /\ Nobara.files s'
              = <[path_join (path_join (path_join r "etc") "guardian") "device.json" :=
                    File (Nobara.dumps
                            [("family_id", Nobara.stored s "guardian_family_id");
                             ("child_id", Nobara.Scalar id);
                             ("child_name", Nobara.Scalar name);
                             ("parent_email", Nobara.stored s "guardian_parent_email");
                             ("registered_at", Nobara.Scalar Py.PNone);
                             ("api_url",
                              Nobara.Scalar (Py.PStr "https://gkyspvcafyttfhyjryyk.supabase.co"))])
                         perm_0o600]> (Nobara.files s)).
Proof.
  intros Hrun complete. unfold Nobara.guardianauth.run in Hrun. fold complete in Hrun.
  destruct complete eqn:Hc; cbn [negb] in Hrun.
  2:{ apply pair_equal_spec in Hrun as [<- <-]. repeat split; try done. by left. }
  destruct (Nobara.truthy (Nobara.stored s "rootMountPoint")) eqn:Hroot.
  2:{ apply pair_equal_spec in Hrun as [<- <-]. repeat split; try done. by left. }
  destruct (Nobara.stored s "rootMountPoint") as [[| | |r]|dr] eqn:Hr.
  1-3,5: apply pair_equal_spec in Hrun as [<- <-]; repeat split; try done; by left.
  destruct (Nobara.stored s "guardian_selected_child") as [v|d] eqn:Hsel.
  { cbn [Nobara.get] in Hrun. apply pair_equal_spec in Hrun as [<- <-].
    repeat split; try done. by left. }
  destruct (Nobara.get (Nobara.Dict d) "id") as [id|e] eqn:Hid.
  2:{ unfold Nobara.get in Hid. destruct (List.find _ d); discriminate. }
  destruct (Nobara.get (Nobara.Dict d) "name") as [name|e] eqn:Hname.
  2:{ unfold Nobara.get in Hname. destruct (List.find _ d); discriminate. }
  apply pair_equal_spec in Hrun as [<- <-].
  repeat split; try done. right. exists r, d, id, name.
  repeat split; try done.
  unfold Nobara.perform. cbn [Nobara.files].
  change (replay um (Nobara.files s) [EvMakedirs ?a ?b]) with (Nobara.files s).
  apply nobara_write_file.
Qed.

Lemma device_config_is_written_when_ready_witness :
  Nobara.files (fst (Nobara.guardianauth.run (fun m => m) 18 NobaraCases.ready))
     !! "/mnt/etc/guardian/device.json"
  = Some (File ("{" ++ nl ++
                "  " ++ dquote ++ "family_id" ++ dquote ++ ": "
                     ++ dquote ++ "f-1" ++ dquote ++ "," ++ nl ++
                "  " ++ dquote ++ "child_id" ++ dquote ++ ": "
                     ++ dquote ++ "c-1" ++ dquote ++ "," ++ nl ++
                "  " ++ dquote ++ "child_name" ++ dquote ++ ": "
                     ++ dquote ++ "Ada" ++ dquote ++ "," ++ nl ++
                "  " ++ dquote ++ "parent_email" ++ dquote ++ ": "
                     ++ dquote ++ "parent@example.com" ++ dquote ++ "," ++ nl ++
                "  " ++ dquote ++ "registered_at" ++ dquote ++ ": null," ++ nl ++
                "  " ++ dquote ++ "api_url" ++ dquote ++ ": "
                     ++ dquote ++ "https://gkyspvcafyttfhyjryyk.supabase.co" ++ dquote ++ nl ++
                "}") perm_0o600).
Proof.
  destruct (device_config_is_written_when_ready (fun m => m) 18 NobaraCases.ready
              _ _ (surjective_pairing _))
    as (_ & _ & _ & [Hsame | (r & d & id & name & _ & _ & _ & _ & _ & _ & Hfiles)]).
  - vm_compute in Hsame. discriminate Hsame.
  - vm_compute. reflexivity.
Defined.

(** X24. Demo mode does not finish the installation by itself. After
    [guardianchild.run] in demo mode, [guardianauth.run] still reports
    an incomplete authentication, and writes nothing, unless a token, a
    user and a family are in global storage; when they are, and the
    root mount point is a string, the device configuration it writes
    names the demo child. *)
Theorem demo_mode_needs_a_session tr um s :
  Nobara.truthy (Nobara.stored s "guardian_demo_mode") = true ->
  let s1 := fst (Nobara.guardianchild.run tr s) in
  (Nobara.truthy (Nobara.stored s "guardian_auth_token") = false
   \/ Nobara.truthy (Nobara.stored s "guardian_user_id") = false
   \/ Nobara.truthy (Nobara.stored s "guardian_family_id") = false ->
   Nobara.guardianauth.run tr um s1
   = (s1, Nobara.Ok
            (Some (tr "Guardian authentication incomplete",
                   tr "Please complete parent authentication and child selection."))))
  /\ (forall r,
        Nobara.truthy (Nobara.stored s "guardian_auth_token") = true ->
        Nobara.truthy (Nobara.stored s "guardian_user_id") = true ->
        Nobara.truthy (Nobara.stored s "guardian_family_id") = true ->
        Nobara.stored s "rootMountPoint" = Nobara.Scalar (Py.PStr r) ->
        r <> "" ->
        exists s2,
          Nobara.guardianauth.run tr um s1 = (s2, Nobara.Ok None)
          /\ Nobara.files s2
               !! path_join (path_join (path_join r "etc") "guardian") "device.json"
             = Some (File (Nobara.dumps
                             (Nobara.guardianauth.config
                                (Nobara.stored s "guardian_family_id")
                                (Nobara.stored s "guardian_parent_email")
                                (Py.PStr "demo-child") (Py.PStr "Demo User")))
                          perm_0o600)).
Proof.
  intros Hdemo s1. subst s1. unfold Nobara.guardianchild.run. rewrite Hdemo. cbn [fst].
  set (s1 := Nobara.State _ _ _).
  assert (Hkeep : forall k, k <> "guardian_child_name" -> k <> "guardian_selected_child" ->
                            Nobara.stored s1 k = Nobara.stored s k).
  { intros k H1 H2. unfold Nobara.stored. subst s1. cbn [Nobara.storage].
    by rewrite !lookup_insert_ne. }
  assert (Hsel : Nobara.stored s1 "guardian_selected_child"
                 = Nobara.Dict Nobara.guardianchild.demo_child).
  { unfold Nobara.stored. subst s1. cbn [Nobara.storage].
    rewrite lookup_insert_ne by done. by rewrite lookup_insert_eq. }
  split.
  - intros Hmiss. unfold Nobara.guardianauth.run.
    rewrite (Hkeep "guardian_auth_token"), (Hkeep "guardian_user_id"),
      (Hkeep "guardian_family_id") by done.
    rewrite Hsel. cbn [forallb Nobara.truthy].
    destruct Hmiss as [-> | [-> | ->]]; cbn [andb negb];
      rewrite ?andb_false_r; reflexivity.
  - intros r Ht Hu Hf Hr Hne. unfold Nobara.guardianauth.run.
    rewrite (Hkeep "guardian_auth_token"), (Hkeep "guardian_user_id"),
      (Hkeep "guardian_family_id"), (Hkeep "rootMountPoint"),
      (Hkeep "guardian_parent_email") by done.
    assert (Htr : Py.truthy (Py.PStr r) = true) by (destruct r; [done|reflexivity]).
    rewrite Hsel, Hr. cbn [forallb]. rewrite Ht, Hu, Hf.
    cbn [Nobara.truthy Nobara.guardianchild.demo_child andb negb].
    rewrite Htr. eexists. split; [reflexivity|].
    unfold Nobara.perform. cbn [Nobara.files].
    change (replay um (Nobara.files s1) [EvMakedirs ?a ?b]) with (Nobara.files s1).
    rewrite nobara_write_file. by rewrite lookup_insert_eq.
Qed.

Lemma demo_mode_needs_a_session_witness :
  Nobara.guardianauth.run (fun m => m) 18
    (fst (Nobara.guardianchild.run (fun m => m) NobaraCases.demo))
  = (fst (Nobara.guardianchild.run (fun m => m) NobaraCases.demo),
     Nobara.Ok (Some ("Guardian authentication incomplete",
                      "Please complete parent authentication and child selection."))).
Proof.
  refine (proj1 (demo_mode_needs_a_session (fun m => m) 18 NobaraCases.demo _) _).
  - reflexivity.
  - left. reflexivity.
Defined.
